(** * eRechnungConverter: converter.py

    A shallow embedding of [converter.py] and the properties of its three
    components: the extractor ([parse_invoice_data]), the renderer
    ([create_invoice_pdf]) and the attachment extractor
    ([extract_attachments]), with the two formatting helpers
    ([format_date], [format_period_monthyear]).

    Conventions.
    - A Python [str] is a [string]: the sequence of its characters, one
      [ascii] per character.  The characters of the model are the code
      points 0 to 255; a text with other characters is not a value of the
      model, and a statement over all strings is one over these.  [None]
      is [None] of an option type.
    - A Python [int] that counts something is a [nat]; lengths on the page
      are floats and are kept abstract (class [Floats]).
    - An exception is a value of [exn]; a call that may raise returns a
      [result]. *)

From Stdlib Require Import String Ascii List Bool Arith ZArith Lia.
From Stdlib Require Import DecimalString DecimalNat.
From Stdlib Require QArith.
From Equations Require Import Equations.
Import ListNotations.

Local Open Scope string_scope.
Local Open Scope list_scope.

Set Implicit Arguments.
Set Warnings "-register-all,-abstract-large-number".

(* ===================================================================== *)
(** * Exceptions *)
(* ===================================================================== *)

Inductive exn : Type :=
| ValueError
| TypeError
| AttributeError.

Inductive result (A : Type) : Type :=
| Ok (a : A)
| Raise (e : exn).

Arguments Ok {A} a.
Arguments Raise {A} e.

Definition bind {A B : Type} (r : result A) (f : A -> result B) : result B :=
  match r with
  | Ok a => f a
  | Raise e => Raise e
  end.

Notation "x <- r ;; k" := (bind r (fun x => k))
  (at level 61, r at next level, right associativity).

(* ===================================================================== *)
(** * Python strings *)
(* ===================================================================== *)

Module Py.

(** [str(n)] and [f"{n}"] for a non-negative int. *)
Definition str (n : nat) : string := NilEmpty.string_of_uint (Nat.to_uint n).

(** [x or d] on an optional string: [None] and [''] are falsy. *)
Definition or_ (x : option string) (d : string) : string :=
  match x with
  | Some (String c s) => String c s
  | _ => d
  end.

(** Truth value of an optional string. *)
Definition truthy (x : option string) : bool :=
  match x with
  | Some (String _ _) => true
  | _ => false
  end.

(** [s[:n]] *)
Fixpoint take (n : nat) (s : string) : string :=
  match n, s with
  | S n', String c s' => String c (take n' s')
  | _, _ => ""
  end.

(** [s[n:]] *)
Fixpoint drop (n : nat) (s : string) : string :=
  match n, s with
  | S n', String _ s' => drop n' s'
  | _, _ => s
  end.

(** What is left after cutting something off a non-empty string is
    shorter; the loops that cut a text into pieces end for this reason. *)
Lemma drop_shorter (n : nat) (s : string) :
  (0 < n)%nat -> (0 < String.length s)%nat ->
  (String.length (drop n s) < String.length s)%nat.
Proof.
  intros Hn Hs. destruct n as [|n]; [lia|]. destruct s as [|a s]; [simpl in Hs; lia|].
  simpl. clear. revert s. induction n as [|n IH]; intros s.
  - destruct s; simpl; lia.
  - destruct s as [|b s]; simpl; [lia|]. specialize (IH s). lia.
Qed.

(** [s.startswith(p)] *)
Fixpoint startswith (p s : string) : bool :=
  match p, s with
  | "", _ => true
  | String a p', String b s' => Ascii.eqb a b && startswith p' s'
  | String _ _, "" => false
  end.

(** [s.endswith(p)] *)
Definition endswith (p s : string) : bool :=
  (String.length p <=? String.length s)%nat
  && String.eqb (drop (String.length s - String.length p) s) p.

(** [s.split(sep)] for a one-character separator: the pieces between the
    occurrences of [sep], never an empty list. *)
Fixpoint split (sep : ascii) (s : string) : list string :=
  match s with
  | "" => [""]
  | String c s' =>
      if Ascii.eqb c sep then "" :: split sep s'
      else match split sep s' with
           | p :: ps => String c p :: ps
           | [] => [String c ""]
           end
  end.

(** [c.isspace()] for the characters of the model: TAB to CR, FS to US,
    space, NEL and NBSP. *)
Definition isspace (c : ascii) : bool :=
  let n := nat_of_ascii c in
  (((9 <=? n) && (n <=? 13)) || ((28 <=? n) && (n <=? 32))
   || (n =? 133) || (n =? 160))%nat.

Fixpoint lstrip (s : string) : string :=
  match s with
  | String c s' => if isspace c then lstrip s' else s
  | "" => ""
  end.

Fixpoint rstrip (s : string) : string :=
  match s with
  | String c s' =>
      match rstrip s' with
      | "" => if isspace c then "" else String c ""
      | t => String c t
      end
  | "" => ""
  end.

(** [s.strip()] *)
Definition strip (s : string) : string := rstrip (lstrip s).

(** The decimal digits, which are what [\d] of [re] and [int] read: among
    the characters of the model these are 0 to 9 and no others.  (Beyond
    code point 255 there are more, the fullwidth digits for one; they are
    not characters of the model.) *)
Definition isdigit (c : ascii) : bool :=
  let n := nat_of_ascii c in ((48 <=? n) && (n <=? 57))%nat.

Definition digit_value (c : ascii) : nat := nat_of_ascii c - 48.

(** [int(s)] on a string of white space and decimal digits: the white space
    around the digits is ignored; anything else is a [ValueError].  (Signs
    and underscores, which [int] also reads, do not occur where the program
    calls it.) *)
Fixpoint digits_value (acc : nat) (s : string) : option nat :=
  match s with
  | "" => Some acc
  | String c s' =>
      if isdigit c then digits_value (10 * acc + digit_value c) s' else None
  end.

Definition int (s : string) : result nat :=
  match strip s with
  | "" => Raise ValueError
  | t => match digits_value 0 t with
         | Some n => Ok n
         | None => Raise ValueError
         end
  end.

(** [f"{n:02d}"] *)
Definition fmt_02d (n : nat) : string :=
  if (n <? 10)%nat then "0" ++ str n else str n.

End Py.

(* ===================================================================== *)
(** * The regular expressions of [_strptime]

    [datetime.strptime] turns the format into a regular expression and
    matches it with [re.match]: a backtracking matcher that tries the
    alternatives of [|] from left to right and returns the first way to
    match a prefix of the input. *)
(* ===================================================================== *)

Module Re.

Inductive regex : Type :=
| Lit (c : ascii)                 (* a literal character *)
| Digit                           (* \d *)
| Range (lo hi : ascii)           (* [lo-hi] *)
| Seq (r1 r2 : regex)             (* r1 r2 *)
| Alt (r1 r2 : regex)             (* r1|r2 *)
| Group (name : string) (r : regex). (* (?P<name>r) *)

Definition groups : Type := list (string * string).

Definition in_range (lo hi c : ascii) : bool :=
  ((nat_of_ascii lo <=? nat_of_ascii c)
   && (nat_of_ascii c <=? nat_of_ascii hi))%nat.

(** [rmatch r s g k]: match [r] at the front of [s], then continue with [k]
    on the rest; when the continuation fails, the next alternative is
    tried. *)
Fixpoint rmatch {A : Type} (r : regex) (s : string) (g : groups)
    (k : string -> groups -> option A) : option A :=
  match r with
  | Lit c =>
      match s with
      | String c' s' => if Ascii.eqb c' c then k s' g else None
      | "" => None
      end
  | Digit =>
      match s with
      | String c' s' => if Py.isdigit c' then k s' g else None
      | "" => None
      end
  | Range lo hi =>
      match s with
      | String c' s' => if in_range lo hi c' then k s' g else None
      | "" => None
      end
  | Seq r1 r2 => rmatch r1 s g (fun s' g' => rmatch r2 s' g' k)
  | Alt r1 r2 =>
      match rmatch r1 s g k with
      | Some x => Some x
      | None => rmatch r2 s g k
      end
  | Group name r1 =>
      rmatch r1 s g
        (fun s' g' =>
           k s' ((name, Py.take (String.length s - String.length s') s) :: g'))
  end.

(** [re.match(r, s)]: the end of the match and the groups, or [None]. *)
Definition match_ (r : regex) (s : string) : option (nat * groups) :=
  rmatch r s [] (fun s' g => Some (String.length s - String.length s', g)).

(** An expression without groups. *)
Fixpoint group_free (r : regex) : bool :=
  match r with
  | Lit _ | Digit | Range _ _ => true
  | Seq r1 r2 | Alt r1 r2 => group_free r1 && group_free r2
  | Group _ _ => false
  end.

(** The words of a regular expression. *)
Fixpoint lang (r : regex) (w : string) : Prop :=
  match r with
  | Lit c => w = String c ""
  | Digit => exists c, w = String c "" /\ Py.isdigit c = true
  | Range lo hi => exists c, w = String c "" /\ in_range lo hi c = true
  | Seq r1 r2 => exists w1 w2, w = (w1 ++ w2)%string /\ lang r1 w1 /\ lang r2 w2
  | Alt r1 r2 => lang r1 w \/ lang r2 w
  | Group _ r1 => lang r1 w
  end.

(** [found.groupdict()[name]] *)
Fixpoint group (name : string) (g : groups) : option string :=
  match g with
  | [] => None
  | (n, v) :: g' => if String.eqb n name then Some v else group name g'
  end.

End Re.

(* ===================================================================== *)
(** * [datetime] *)
(* ===================================================================== *)

Module Datetime.

Import Re.

Record datetime : Type := mkdatetime { year : nat; month : nat; day : nat }.

Definition MINYEAR : nat := 1.
Definition MAXYEAR : nat := 9999.

Definition is_leap (y : nat) : bool :=
  ((y mod 4 =? 0) && (negb (y mod 100 =? 0) || (y mod 400 =? 0)))%nat.

Definition days_in_month (y m : nat) : nat :=
  match m with
  | 2 => if is_leap y then 29 else 28
  | 4 | 6 | 9 | 11 => 30
  | _ => 31
  end.

(** [datetime.date(year, month, day)], which checks its fields. *)
Definition date (y m d : nat) : result datetime :=
  if negb ((MINYEAR <=? y) && (y <=? MAXYEAR))%nat then Raise ValueError
  else if negb ((1 <=? m) && (m <=? 12))%nat then Raise ValueError
  else if negb ((1 <=? d) && (d <=? days_in_month y m))%nat then Raise ValueError
  else Ok (mkdatetime y m d).

Definition c0 : ascii := "0".
Definition c1 : ascii := "1".
Definition c2 : ascii := "2".
Definition c3 : ascii := "3".
Definition c9 : ascii := "9".

(** (?P<Y>\d\d\d\d) *)
Definition re_Y : regex := Group "Y" (Seq Digit (Seq Digit (Seq Digit Digit))).

(** (?P<m>1[0-2]|0[1-9]|[1-9]) *)
Definition re_m : regex :=
  Group "m" (Alt (Seq (Lit c1) (Range c0 c2))
            (Alt (Seq (Lit c0) (Range c1 c9))
                 (Range c1 c9))).

(** (?P<d>3[0-1]|[1-2]\d|0[1-9]|[1-9]| [1-9]) *)
Definition re_d : regex :=
  Group "d" (Alt (Seq (Lit c3) (Range c0 c1))
            (Alt (Seq (Range c1 c2) Digit)
            (Alt (Seq (Lit c0) (Range c1 c9))
            (Alt (Range c1 c9)
                 (Seq (Lit " ") (Range c1 c9)))))).

(** The pattern of the format "%Y-%m-%d". *)
Definition format_regex : regex :=
  Seq re_Y (Seq (Lit "-") (Seq re_m (Seq (Lit "-") re_d))).

(** [datetime.datetime.strptime(data_string, "%Y-%m-%d")].  A [None]
    argument is a [TypeError]; no match, text left over after the match and
    a date that does not exist are a [ValueError]. *)
Definition strptime (data_string : option string) : result datetime :=
  match data_string with
  | None => Raise TypeError
  | Some s =>
      match Re.match_ format_regex s with
      | None => Raise ValueError
      | Some (end_, found) =>
          if negb (String.length s =? end_)%nat then Raise ValueError
          else
            match group "Y" found, group "m" found, group "d" found with
            | Some gy, Some gm, Some gd =>
                y <- Py.int gy ;;
                m <- Py.int gm ;;
                d <- Py.int gd ;;
                date y m d
            | _, _, _ => Raise ValueError
            end
      end
  end.

End Datetime.

(* ===================================================================== *)
(** * The formatting helpers *)
(* ===================================================================== *)

(** [format_date]: D.M.YYYY of a date in the format YYYY-MM-DD; on any
    exception the argument itself, or [''] for [None]. *)
Definition format_date (datum_str : option string) : string :=
  match Datetime.strptime datum_str with
  | Ok d =>
      Py.str (Datetime.day d) ++ "." ++ Py.str (Datetime.month d) ++ "."
      ++ Py.str (Datetime.year d)
  | Raise _ => Py.or_ datum_str ""
  end.

(** [format_period_monthyear]: MM/YYYY of the start date; [''] on any
    exception.  [end_str] is not used. *)
Definition format_period_monthyear (start_str end_str : option string) : string :=
  match Datetime.strptime start_str with
  | Ok d => Py.fmt_02d (Datetime.month d) ++ "/" ++ Py.str (Datetime.year d)
  | Raise _ => ""
  end.


(* ===================================================================== *)
(** * [xml.etree.ElementTree] *)
(* ===================================================================== *)

Module ET.

(** An element as the parser builds it: the tag (with its namespace in
    braces in front), the attributes, the text before the first child
    ([None] when there is none) and the children. *)
Inductive Element : Type :=
| mkElement (tag : string) (attrib : list (string * string))
            (text : option string) (children : list Element).

Definition tag (e : Element) : string :=
  match e with mkElement t _ _ _ => t end.
Definition attrib (e : Element) : list (string * string) :=
  match e with mkElement _ a _ _ => a end.
Definition text (e : Element) : option string :=
  match e with mkElement _ _ x _ => x end.
Definition children (e : Element) : list Element :=
  match e with mkElement _ _ _ cs => cs end.

(** [e.get(key)] *)
Fixpoint lookup (key : string) (a : list (string * string)) : option string :=
  match a with
  | [] => None
  | (k, v) :: a' => if String.eqb k key then Some v else lookup key a'
  end.

Definition get (e : Element) (key : string) : option string :=
  lookup key (attrib e).

(** [e.iter()]: the element and all below it, in document order. *)
Fixpoint iter (e : Element) : list Element :=
  match e with
  | mkElement _ _ _ cs => e :: flat_map iter cs
  end.

(** The elements below [e], in document order: [e.iter()] without [e]. *)
Definition descendants (e : Element) : list Element :=
  flat_map iter (children e).

(** Induction on an element, with the property for all its children. *)
Section Element_induction.

Variable P : Element -> Prop.
Hypothesis H : forall t a x cs, Forall P cs -> P (mkElement t a x cs).

Fixpoint Element_ind' (e : Element) : P e :=
  match e with
  | mkElement t a x cs =>
      H t a x
        ((fix go (l : list Element) : Forall P l :=
            match l with
            | [] => Forall_nil P
            | c :: l' => Forall_cons c (Element_ind' c) (go l')
            end) cs)
  end.

End Element_induction.

(** The step [{*}name] of a path: the tag is [name], in any namespace or in
    none. *)
Definition tag_matches (name el_tag : string) : bool :=
  String.eqb el_tag name || Py.endswith ("}" ++ name) el_tag.

(** One step [//{*}name] applied to the elements selected so far. *)
Definition select_descendant (name : string) (result : list Element)
  : list Element :=
  flat_map (fun elem => filter (fun e => tag_matches name (tag e))
                               (descendants elem)) result.

(** [e.findall(".//{*}n1//{*}n2...")]; the path is given by its names
    [[n1; n2; ...]]. *)
Definition findall (e : Element) (path : list string) : list Element :=
  fold_left (fun result name => select_descendant name result) path [e].

(** [e.find(path)]: the first element of [findall], or [None]. *)
Definition find (e : Element) (path : list string) : option Element :=
  hd_error (findall e path).

End ET.

(* ===================================================================== *)
(** * The invoice model *)
(* ===================================================================== *)

Module InvoicePeriod.
Record t : Type := mk { start : option string; end_ : option string }.
End InvoicePeriod.

Module Supplier.
Record t : Type := mk {
  endpoint_id : option string;
  name : option string;
  street : option string;
  city : option string;
  postal_zone : option string;
  country : option string;
  company_id : option string;
  registration_name : option string;
  contact_name : option string;
  contact_telephone : option string;
  contact_email : option string }.
End Supplier.

Module Customer.
Record t : Type := mk {
  endpoint_id : option string;
  name : option string;
  street : option string;
  city : option string;
  postal_zone : option string;
  country : option string;
  registration_name : option string }.
End Customer.

Module PaymentMeans.
Record t : Type := mk {
  payment_means_code : option string;
  payment_id : option string;
  account_id : option string;
  account_name : option string;
  bic : option string }.
End PaymentMeans.

Module TaxCategory.
Record t : Type := mk {
  id : option string;
  percent : option string;
  scheme_id : option string }.
End TaxCategory.

Module TaxSubtotal.
Record t : Type := mk {
  taxable_amount : option string;
  tax_amount : option string;
  tax_category : TaxCategory.t }.
End TaxSubtotal.

Module TaxTotal.
Record t : Type := mk {
  tax_amount : option string;
  tax_subtotal : TaxSubtotal.t }.
End TaxTotal.

Module MonetaryTotal.
Record t : Type := mk {
  line_extension_amount : option string;
  tax_exclusive_amount : option string;
  tax_inclusive_amount : option string;
  allowance_total_amount : option string;
  charge_total_amount : option string;
  payable_amount : option string }.
End MonetaryTotal.

Module Item.
Record t : Type := mk {
  id : option string;
  quantity : option string;
  quantity_unit : option string;
  line_extension_amount : option string;
  item_name : option string;
  tax_category : TaxCategory.t;
  price_amount : option string;
  price_currency : option string;
  base_quantity : option string;
  base_quantity_unit : option string }.
End Item.

Module Document.
Record t : Type := mk {
  id : option string;
  description : option string }.
End Document.

Record InvoiceData : Type := mkInvoiceData {
  invoice_id : option string;
  issue_date : option string;
  due_date : option string;
  invoice_type_code : option string;
  note : option string;
  currency : option string;
  buyer_reference : option string;
  invoice_period : InvoicePeriod.t;
  supplier : Supplier.t;
  customer : Customer.t;
  payment_means : PaymentMeans.t;
  tax_total : TaxTotal.t;
  monetary_total : MonetaryTotal.t;
  items : list Item.t;
  additional_documents : list Document.t;
  profile_id : option string;
  customization_id : option string }.

(* ===================================================================== *)
(** * The extractor: [parse_invoice_data] *)
(* ===================================================================== *)

Import ET.

(** [elem = x.find(path); if elem is not None: field = elem.text]: the
    field keeps its [None] unless the element is there. *)
Definition text_at (x : Element) (path : list string) : option string :=
  match find x path with
  | Some elem => text elem
  | None => None
  end.

(** The same under [if x is not None:]. *)
Definition text_in (x : option Element) (path : list string) : option string :=
  match x with
  | Some x => text_at x path
  | None => None
  end.

(** [e = x.find(path); if e is not None: field = e.get(key)]. *)
Definition attr_at (x : Element) (path : list string) (key : string)
  : option string :=
  match find x path with
  | Some e => get e key
  | None => None
  end.

(** Lines 191-193: the note is the only field whose text is stripped. *)
Definition parse_note (xml_root : Element) : result (option string) :=
  match find xml_root ["Note"] with
  | Some elem =>
      match text elem with
      | Some t => Ok (Some (Py.strip t))
      | None => Raise AttributeError      (* None has no strip() *)
      end
  | None => Ok None
  end.

(** Lines 218-225, the body of the loop over the document references. *)
Definition add_document (docs : list Document.t) (docref : Element)
  : list Document.t :=
  let doc_id := find docref ["ID"] in
  let desc := find docref ["DocumentDescription"] in
  match doc_id, desc with
  | None, None => docs
  | _, _ =>
      docs ++ [ {| Document.id :=
                     match doc_id with Some e => text e | None => Some "" end;
                   Document.description :=
                     match desc with Some e => text e | None => Some "" end |} ]
  end.

Definition parse_additional_documents (xml_root : Element) : list Document.t :=
  fold_left add_document (findall xml_root ["AdditionalDocumentReference"]) [].

(** Lines 228-266. *)
Definition parse_supplier (xml_root : Element) : Supplier.t :=
  match find xml_root ["AccountingSupplierParty"; "Party"] with
  | Some sup =>
      let addr := find sup ["PostalAddress"] in
      let contact := find sup ["Contact"] in
      {| Supplier.endpoint_id := text_at sup ["EndpointID"];
         Supplier.name := text_at sup ["PartyName"; "Name"];
         Supplier.street := text_in addr ["StreetName"];
         Supplier.city := text_in addr ["CityName"];
         Supplier.postal_zone := text_in addr ["PostalZone"];
         Supplier.country := text_in addr ["Country"; "IdentificationCode"];
         Supplier.company_id := text_at sup ["PartyTaxScheme"; "CompanyID"];
         Supplier.registration_name :=
           text_at sup ["PartyLegalEntity"; "RegistrationName"];
         Supplier.contact_name := text_in contact ["Name"];
         Supplier.contact_telephone := text_in contact ["Telephone"];
         Supplier.contact_email := text_in contact ["ElectronicMail"] |}
  | None => Supplier.mk None None None None None None None None None None None
  end.

(** Lines 269-293. *)
Definition parse_customer (xml_root : Element) : Customer.t :=
  match find xml_root ["AccountingCustomerParty"; "Party"] with
  | Some cust =>
      let addr := find cust ["PostalAddress"] in
      {| Customer.endpoint_id := text_at cust ["EndpointID"];
         Customer.name := text_at cust ["PartyName"; "Name"];
         Customer.street := text_in addr ["StreetName"];
         Customer.city := text_in addr ["CityName"];
         Customer.postal_zone := text_in addr ["PostalZone"];
         Customer.country := text_in addr ["Country"; "IdentificationCode"];
         Customer.registration_name :=
           text_at cust ["PartyLegalEntity"; "RegistrationName"] |}
  | None => Customer.mk None None None None None None None
  end.

(** Lines 296-314. *)
Definition parse_payment_means (xml_root : Element) : PaymentMeans.t :=
  match find xml_root ["PaymentMeans"] with
  | Some pay =>
      let acc := find pay ["PayeeFinancialAccount"] in
      {| PaymentMeans.payment_means_code := text_at pay ["PaymentMeansCode"];
         PaymentMeans.payment_id := text_at pay ["PaymentID"];
         PaymentMeans.account_id := text_in acc ["ID"];
         PaymentMeans.account_name := text_in acc ["Name"];
         PaymentMeans.bic := text_in acc ["FinancialInstitutionBranch"; "ID"] |}
  | None => PaymentMeans.mk None None None None None
  end.

(** The three fields of a tax category, under [if cat is not None:]. *)
Definition parse_tax_category (cat : option Element) : TaxCategory.t :=
  {| TaxCategory.id := text_in cat ["ID"];
     TaxCategory.percent := text_in cat ["Percent"];
     TaxCategory.scheme_id := text_in cat ["TaxScheme"; "ID"] |}.

(** Lines 317-340. *)
Definition parse_tax_total (xml_root : Element) : TaxTotal.t :=
  match find xml_root ["TaxTotal"] with
  | Some tax =>
      let subt := find tax ["TaxSubtotal"] in
      {| TaxTotal.tax_amount := text_at tax ["TaxAmount"];
         TaxTotal.tax_subtotal :=
           {| TaxSubtotal.taxable_amount := text_in subt ["TaxableAmount"];
              TaxSubtotal.tax_amount := text_in subt ["TaxAmount"];
              TaxSubtotal.tax_category :=
                parse_tax_category
                  (match subt with
                   | Some subt => find subt ["TaxCategory"]
                   | None => None
                   end) |} |}
  | None =>
      TaxTotal.mk None (TaxSubtotal.mk None None (TaxCategory.mk None None None))
  end.

(** Lines 343-362. *)
Definition parse_monetary_total (xml_root : Element) : MonetaryTotal.t :=
  match find xml_root ["LegalMonetaryTotal"] with
  | Some mt =>
      {| MonetaryTotal.line_extension_amount := text_at mt ["LineExtensionAmount"];
         MonetaryTotal.tax_exclusive_amount := text_at mt ["TaxExclusiveAmount"];
         MonetaryTotal.tax_inclusive_amount := text_at mt ["TaxInclusiveAmount"];
         MonetaryTotal.allowance_total_amount :=
           text_at mt ["AllowanceTotalAmount"];
         MonetaryTotal.charge_total_amount := text_at mt ["ChargeTotalAmount"];
         MonetaryTotal.payable_amount := text_at mt ["PayableAmount"] |}
  | None => MonetaryTotal.mk None None None None None None
  end.

(** Lines 366-417: the record of one [InvoiceLine]. *)
Definition parse_line (line : Element) : Item.t :=
  let root_item := find line ["Item"] in
  let pr := find line ["Price"] in
  {| Item.id := text_at line ["ID"];
     Item.quantity := text_at line ["InvoicedQuantity"];
     Item.quantity_unit := attr_at line ["InvoicedQuantity"] "unitCode";
     Item.line_extension_amount := text_at line ["LineExtensionAmount"];
     Item.item_name := text_in root_item ["Name"];
     Item.tax_category :=
       parse_tax_category
         (match root_item with
          | Some root_item => find root_item ["ClassifiedTaxCategory"]
          | None => None
          end);
     Item.price_amount := text_in pr ["PriceAmount"];
     Item.price_currency :=
       match pr with Some pr => attr_at pr ["PriceAmount"] "currencyID"
                   | None => None end;
     Item.base_quantity := text_in pr ["BaseQuantity"];
     Item.base_quantity_unit :=
       match pr with Some pr => attr_at pr ["BaseQuantity"] "unitCode"
                   | None => None end |}.

(** Lines 365-419: [for line in ...: ...; data["items"].append(itm)]. *)
Definition parse_items (xml_root : Element) : list Item.t :=
  fold_left (fun items line => items ++ [parse_line line])
            (findall xml_root ["InvoiceLine"]) [].

(** [parse_invoice_data].  The only statement that can raise is the one of
    the note; the statements before it only fill the dictionary, so the
    call as a whole either raises there or returns the model. *)
Definition parse_invoice_data (xml_root : Element) : result InvoiceData :=
  let f := text_at xml_root in
  note <- parse_note xml_root ;;
  Ok {| invoice_id := f ["ID"];
        issue_date := f ["IssueDate"];
        due_date := f ["DueDate"];
        invoice_type_code := f ["InvoiceTypeCode"];
        note := note;
        currency := f ["DocumentCurrencyCode"];
        buyer_reference := f ["BuyerReference"];
        invoice_period :=
          {| InvoicePeriod.start := f ["InvoicePeriod"; "StartDate"];
             InvoicePeriod.end_ := f ["InvoicePeriod"; "EndDate"] |};
        supplier := parse_supplier xml_root;
        customer := parse_customer xml_root;
        payment_means := parse_payment_means xml_root;
        tax_total := parse_tax_total xml_root;
        monetary_total := parse_monetary_total xml_root;
        items := parse_items xml_root;
        additional_documents := parse_additional_documents xml_root;
        profile_id := f ["ProfileID"];
        customization_id := f ["CustomizationID"] |}.

(* ===================================================================== *)
(** * Floats and the [reportlab] canvas *)
(* ===================================================================== *)

(** The floating-point numbers of the page geometry.  Nothing is assumed of
    their arithmetic: the program only multiplies, subtracts and compares
    them. *)
Class Floats : Type := {
  float : Type;
  of_int : Z -> float;                  (* an int where a float is used *)
  fmul : float -> float -> float;
  fsub : float -> float -> float;
  fltb : float -> float -> bool }.

(** [reportlab.lib.units.mm] and [Canvas.stringWidth(text, font, size)]. *)
Class Reportlab (F : Floats) : Type := {
  mm : float;
  stringWidth : string -> string -> nat -> float }.

Declare Scope float_scope.
Delimit Scope float_scope with F.
Notation "x - y" := (fsub x y) : float_scope.
Notation "x <? y" := (fltb x y) : float_scope.
Notation "n '*mm'" := (fmul (of_int n%Z) mm) (at level 1, format "n  *mm").

Section Canvas.

Context {F : Floats} {R : Reportlab F}.

(** What a page is made of. *)
Inductive op : Type :=
| SetFont (psfontname : string) (size : nat)
| DrawString (x y : float) (text : string).

Definition page : Type := list op.

(** A canvas: the pages shown so far and the code of the page that is
    being drawn. *)
Record Canvas : Type := mkCanvas {
  filename : string;
  pagesize : float * float;
  pages : list page;
  code : list op }.

(** [reportlab.lib.pagesizes.A4] *)
Definition A4 : float * float := (210 *mm, 297 *mm).

Definition new_Canvas (filename : string) (pagesize : float * float) : Canvas :=
  {| filename := filename; pagesize := pagesize; pages := []; code := [] |}.

Definition emit (c : Canvas) (o : op) : Canvas :=
  {| filename := filename c; pagesize := pagesize c; pages := pages c;
     code := code c ++ [o] |}.

Definition setFont (c : Canvas) (psfontname : string) (size : nat) : Canvas :=
  emit c (SetFont psfontname size).

Definition drawString (c : Canvas) (x y : float) (text : string) : Canvas :=
  emit c (DrawString x y text).

(** [c.showPage()]: the current page is closed and an empty one begun. *)
Definition showPage (c : Canvas) : Canvas :=
  {| filename := filename c; pagesize := pagesize c;
     pages := pages c ++ [code c]; code := [] |}.

(** What the program leaves behind: the files it wrote (each write with its
    path and contents, in the order of the writes) and the lines it
    printed.  Opening and writing a file are taken to succeed. *)
Inductive contents : Type :=
| Bytes (b : list Byte.byte)
| Pdf (p : list page).

Record World : Type := mkWorld {
  files : list (string * contents);
  stdout : list string }.

Definition print (w : World) (line : string) : World :=
  {| files := files w; stdout := stdout w ++ [line] |}.

Definition write_file (w : World) (path : string) (b : contents) : World :=
  {| files := files w ++ [(path, b)]; stdout := stdout w |}.

(** [c.save()]: a page that has been begun is shown first; then the pages
    are written to the file of the canvas. *)
Definition save (c : Canvas) (w : World) : World :=
  let c := match code c with [] => c | _ => showPage c end in
  write_file w (filename c) (Pdf (pages c)).

End Canvas.

(* ===================================================================== *)
(** * The attachment extractor: [extract_attachments] *)
(* ===================================================================== *)

(** [base64.b64decode]: the decoded bytes, or the message of the exception
    it raises. *)
Class Base64 : Type := { b64decode : string -> string + list Byte.byte }.

Module os_path.

(** [os.path.join(a, b)] (POSIX). *)
Definition join (a b : string) : string :=
  if Py.startswith "/" b then b
  else if (String.eqb a "" || Py.endswith "/" a) then a ++ b
  else a ++ "/" ++ b.

(** [p[p.rfind(c) + 1:]]: what follows the last [c] of [p], all of [p] when
    there is none. *)
Fixpoint after_last (c : ascii) (p : string) : string :=
  match p with
  | "" => ""
  | String a p' =>
      if existsb (Ascii.eqb c) (list_ascii_of_string p') then after_last c p'
      else if Ascii.eqb a c then p'
      else p
  end.

(** [os.path.basename(p)] (POSIX). *)
Definition basename (p : string) : string := after_last "/" p.

(** [os.path.splitext(p)[0]] for a [p] without a slash: [p] up to its last
    dot, when a character other than a dot stands before that dot. *)
Fixpoint all_dots (s : string) : bool :=
  match s with
  | "" => true
  | String a s' => Ascii.eqb a "." && all_dots s'
  end.

Definition splitext_root (p : string) : string :=
  let ext := after_last "." p in
  let root := Py.take (String.length p - String.length ext - 1) p in
  if existsb (Ascii.eqb ".") (list_ascii_of_string p) && negb (all_dots root)
  then root else p.

End os_path.

Section Attachments.

Context {F : Floats} {R : Reportlab F} {B : Base64}.

(** [enumerate(l, start=n)] *)
Definition enumerate {A : Type} (n : nat) (l : list A) : list (nat * A) :=
  combine (seq n (List.length l)) l.

Definition attachment_name (base_name : string) (idx : nat) : string :=
  base_name ++ "_Anhang" ++ Py.str idx ++ ".pdf".

(** Lines 79-93, the body of the loop. *)
Definition extract_one (output_dir base_name : string)
    (st : list string * World) (ie : nat * Element) : list string * World :=
  let '(attachments, w) := st in
  let '(idx, elem) := ie in
  match text elem with
  | Some (String a enc') =>
      let enc := String a enc' in
      match b64decode enc with
      | inl e =>
          (attachments,
           print w ("Fehler beim Dekodieren von Anhang #" ++ Py.str idx
                    ++ ": " ++ e))
      | inr pdf_bytes =>
          let fn := attachment_name base_name idx in
          let outp := os_path.join output_dir fn in
          let w := write_file w outp (Bytes pdf_bytes) in
          let w := print w ("Anhang #" ++ Py.str idx ++ " gespeichert als: "
                            ++ outp) in
          (attachments ++ [outp], w)
      end
  | _ => (attachments, w)            (* if not enc: continue *)
  end.

Definition extract_attachments (xml_root : Element)
    (output_dir base_name : string) (w : World) : list string * World :=
  let elems :=
    filter (fun e => Py.endswith "EmbeddedDocumentBinaryObject" (tag e))
           (iter xml_root) in
  let '(attachments, w) :=
    fold_left (extract_one output_dir base_name) (enumerate 1 elems) ([], w) in
  match attachments with
  | [] => (attachments, print w "Kein PDF-Anhang gefunden.")
  | _ => (attachments, w)
  end.

End Attachments.

(* ===================================================================== *)
(** * The renderer: [create_invoice_pdf] *)
(* ===================================================================== *)

Section Renderer.

Context {F : Floats} {R : Reportlab F}.

Local Open Scope string_scope.
Local Open Scope float_scope.

(** [x + '%' if x else ''] *)
Definition percent_or_empty (x : option string) : string :=
  match x with
  | Some (String a x') => String a x' ++ "%"
  | _ => ""
  end.

(** Lines 33-58. *)
Definition draw_header (c : Canvas) (width height : float)
    (supplier_name invoice_id issue_date : option string)
    (page_num total_pages : nat) : Canvas :=
  let left_margin := 30 *mm in
  let right_margin := 30 *mm in
  let top_y := height - 20 *mm in
  let c := setFont c "Helvetica-Bold" 12 in
  let c := drawString c left_margin top_y
             ("E-Rechnung | " ++ Py.or_ supplier_name "") in
  let header_text :=
    "Rechnungsnummer: " ++ Py.or_ invoice_id "" ++ " | Datum: "
    ++ format_date issue_date in
  let c := setFont c "Helvetica" 9 in
  let tw := stringWidth header_text "Helvetica" 9 in
  let c := drawString c (width - right_margin - tw) top_y header_text in
  let page_text := "Seite " ++ Py.str page_num ++ " / " ++ Py.str total_pages in
  let c := setFont c "Helvetica" 9 in
  let ptw := stringWidth page_text "Helvetica" 9 in
  drawString c (width - right_margin - ptw) (top_y - of_int 6) page_text.

(** Lines 60-69. *)
Definition draw_footer (c : Canvas) (width : float) : Canvas :=
  let left_margin := 30 *mm in
  let footer_y := 15 *mm in
  let footer_text :=
    "* Wichtig: Dieses Dokument ist eine automatisch generierte Zusammenfassung "
    ++ "der E-Rechnung, es ersetzt nicht die Originaldatei!" in
  let c := setFont c "Helvetica-Oblique" 7 in
  drawString c left_margin footer_y footer_text.

Definition total_pages : nat := 3.

(** The header as [create_invoice_pdf] calls it, with the supplier, the
    number and the date of the invoice. *)
Definition header (c : Canvas) (width height : float)
    (invoice_data : InvoiceData) (page_num : nat) : Canvas :=
  draw_header c width height
    (Supplier.name (supplier invoice_data))
    (invoice_id invoice_data)
    (issue_date invoice_data)
    page_num total_pages.

(** Lines 434-586: page 1. *)
Definition draw_page1 (c : Canvas) (width height : float)
    (invoice_data : InvoiceData) : Canvas :=
  let c := header c width height invoice_data 1 in
  let y := height - 30 *mm in
  let c := setFont c "Helvetica-Bold" 12 in
  let c := drawString c 30 *mm y "Übersicht" in
  let y := y - 10 *mm in
  (* Informationen zum Käufer *)
  let c := setFont c "Helvetica-Bold" 10 in
  let c := drawString c 30 *mm y "Informationen zum Käufer" in
  let y := y - 6 *mm in
  let c := setFont c "Helvetica" 9 in
  let c := drawString c 35 *mm y
             ("Käuferreferenz: " ++ Py.or_ (buyer_reference invoice_data) "–") in
  let y := y - 5 *mm in
  let kn :=
    Py.or_ (Customer.registration_name (customer invoice_data))
           (Py.or_ (Customer.name (customer invoice_data)) "") in
  let c := drawString c 35 *mm y ("Name: " ++ kn) in
  let y := y - 5 *mm in
  let street := Py.or_ (Customer.street (customer invoice_data)) "" in
  let pz := Py.or_ (Customer.postal_zone (customer invoice_data)) "" in
  let city := Py.or_ (Customer.city (customer invoice_data)) "" in
  let country := Py.or_ (Customer.country (customer invoice_data)) "" in
  let c := drawString c 35 *mm y ("Adresszeile 1: " ++ street) in
  let y := y - 5 *mm in
  let c := drawString c 35 *mm y ("PLZ: " ++ pz) in
  let y := y - 5 *mm in
  let c := drawString c 35 *mm y ("Ort: " ++ city) in
  let y := y - 5 *mm in
  let c := drawString c 35 *mm y ("Ländercode: " ++ country) in
  let y := y - 8 *mm in
  (* Informationen zum Verkäufer *)
  let c := setFont c "Helvetica-Bold" 10 in
  let c := drawString c 30 *mm y "Informationen zum Verkäufer" in
  let y := y - 6 *mm in
  let c := setFont c "Helvetica" 9 in
  let supn := Py.or_ (Supplier.name (supplier invoice_data)) "" in
  let c := drawString c 35 *mm y ("Firmenname: " ++ supn) in
  let y := y - 5 *mm in
  let street := Py.or_ (Supplier.street (supplier invoice_data)) "" in
  let pz := Py.or_ (Supplier.postal_zone (supplier invoice_data)) "" in
  let city := Py.or_ (Supplier.city (supplier invoice_data)) "" in
  let country := Py.or_ (Supplier.country (supplier invoice_data)) "" in
  let c := drawString c 35 *mm y ("Adresszeile 1: " ++ street) in
  let y := y - 5 *mm in
  let c := drawString c 35 *mm y ("PLZ: " ++ pz) in
  let y := y - 5 *mm in
  let c := drawString c 35 *mm y ("Ort: " ++ city) in
  let y := y - 5 *mm in
  let c := drawString c 35 *mm y ("Ländercode: " ++ country) in
  let y := y - 5 *mm in
  let c := drawString c 35 *mm y
             ("Name: " ++ Py.or_ (Supplier.contact_name (supplier invoice_data)) "") in
  let y := y - 5 *mm in
  let c := drawString c 35 *mm y
             ("Telefon: "
              ++ Py.or_ (Supplier.contact_telephone (supplier invoice_data)) "") in
  let y := y - 5 *mm in
  let c := drawString c 35 *mm y
             ("E-Mail-Adresse: "
              ++ Py.or_ (Supplier.contact_email (supplier invoice_data)) "") in
  let y := y - 8 *mm in
  (* Rechnungsdaten *)
  let c := setFont c "Helvetica-Bold" 10 in
  let c := drawString c 30 *mm y "Rechnungsdaten" in
  let y := y - 6 *mm in
  let c := setFont c "Helvetica" 9 in
  let c := drawString c 35 *mm y
             ("Rechnungsnummer: " ++ Py.or_ (invoice_id invoice_data) "") in
  let y := y - 5 *mm in
  let c := drawString c 35 *mm y
             ("Rechnungsdatum: " ++ format_date (issue_date invoice_data)) in
  let y := y - 5 *mm in
  let c := drawString c 35 *mm y
             ("Rechnungsart: " ++ Py.or_ (invoice_type_code invoice_data) "") in
  let y := y - 5 *mm in
  let c := drawString c 35 *mm y
             ("Währung: " ++ Py.or_ (currency invoice_data) "") in
  let y := y - 8 *mm in
  (* Abrechnungszeitraum *)
  let c := setFont c "Helvetica-Bold" 10 in
  let c := drawString c 30 *mm y "Abrechnungszeitraum" in
  let y := y - 6 *mm in
  let c := setFont c "Helvetica" 9 in
  let start := InvoicePeriod.start (invoice_period invoice_data) in
  let end_ := InvoicePeriod.end_ (invoice_period invoice_data) in
  let c := drawString c 35 *mm y
             ("Von: " ++ format_date start ++ "  Bis: " ++ format_date end_) in
  let y := y - 8 *mm in
  (* Gesamtbeträge der Rechnung *)
  let c := setFont c "Helvetica-Bold" 10 in
  let c := drawString c 30 *mm y "Gesamtbeträge der Rechnung" in
  let y := y - 6 *mm in
  let c := setFont c "Helvetica" 9 in
  let mt := monetary_total invoice_data in
  let tt := tax_total invoice_data in
  let c := drawString c 35 *mm y
             ("Summe aller Positionen                    "
              ++ Py.or_ (MonetaryTotal.line_extension_amount mt) "0.00") in
  let y := y - 5 *mm in
  let c := drawString c 35 *mm y
             ("Summe Nachlässe                       "
              ++ Py.or_ (MonetaryTotal.allowance_total_amount mt) "0.00") in
  let y := y - 5 *mm in
  let c := drawString c 35 *mm y
             ("Summe Zuschläge                        "
              ++ Py.or_ (MonetaryTotal.charge_total_amount mt) "0.00") in
  let y := y - 5 *mm in
  let c := drawString c 35 *mm y
             ("Gesamtsumme                     "
              ++ Py.or_ (MonetaryTotal.tax_exclusive_amount mt) "0.00") in
  let y := y - 5 *mm in
  let c := drawString c 35 *mm y
             ("Summe Umsatzsteuer           "
              ++ Py.or_ (TaxTotal.tax_amount tt) "0.00") in
  let y := y - 5 *mm in
  let c := drawString c 35 *mm y
             ("Gesamtsumme                     "
              ++ Py.or_ (MonetaryTotal.tax_inclusive_amount mt) "0.00") in
  let y := y - 5 *mm in
  let c := drawString c 35 *mm y
             ("Summe Fremdforderungen          " ++ "0.00") in
  let y := y - 5 *mm in
  let c := drawString c 35 *mm y
             ("Fälliger Betrag               "
              ++ Py.or_ (MonetaryTotal.payable_amount mt) "0.00") in
  let y := y - 8 *mm in
  (* Aufschlüsselung der Umsatzsteuer auf Ebene der Rechnung *)
  let c := setFont c "Helvetica-Bold" 10 in
  let c := drawString c 30 *mm y
             "Aufschlüsselung der Umsatzsteuer auf Ebene der Rechnung" in
  let y := y - 6 *mm in
  let c := setFont c "Helvetica" 9 in
  let cat := TaxSubtotal.tax_category (TaxTotal.tax_subtotal tt) in
  let taxable := Py.or_ (TaxSubtotal.taxable_amount (TaxTotal.tax_subtotal tt)) "" in
  let taxamt := Py.or_ (TaxSubtotal.tax_amount (TaxTotal.tax_subtotal tt)) "" in
  let c := drawString c 35 *mm y
             ("Umsatzsteuerkategorie: " ++ Py.or_ (TaxCategory.id cat) "") in
  let y := y - 5 *mm in
  let c := drawString c 35 *mm y ("Gesamtsumme                  " ++ taxable) in
  let y := y - 5 *mm in
  let c := drawString c 35 *mm y
             ("Umsatzsteuersatz          "
              ++ percent_or_empty (TaxCategory.percent cat)) in
  let y := y - 5 *mm in
  let c := drawString c 35 *mm y ("Umsatzsteuerbetrag         " ++ taxamt) in
  let y := y - 8 *mm in
  (* Zahlungsdaten *)
  let c := setFont c "Helvetica-Bold" 10 in
  let c := drawString c 30 *mm y "Zahlungsdaten" in
  let y := y - 12 *mm in
  let c := draw_footer c width in
  showPage c.

(** Lines 646-650: [while len(text) > 80: ...].  The canvas, the cursor and
    what is left of the text when the loop ends. *)
#[local] Opaque Py.take Py.drop.

Equations? wrap_loop (c : Canvas) (y : float) (text : string)
  : Canvas * float * string by wf (String.length text) lt :=
  wrap_loop c y text with le_lt_dec (String.length text) 80 => {
    | left _ => (c, y, text)
    | right _ =>
        let part := Py.take 80 text in
        let c := drawString c 35 *mm y part in
        wrap_loop c (y - 5 *mm) (Py.drop 80 text) }.
Proof. apply Py.drop_shorter; lia. Qed.

#[local] Transparent Py.take Py.drop.

(** Lines 641-652, the body of the loop over the paragraphs of the note. *)
Definition draw_note_paragraph (cy : Canvas * float) (ln : string)
  : Canvas * float :=
  let '(c, y) := cy in
  let text := Py.strip ln in
  match text with
  | "" => (c, y)                                   (* continue *)
  | _ =>
      let '(c, y, text) := wrap_loop c y text in
      let c := drawString c 35 *mm y text in
      (c, y - 5 *mm)
  end.

(** Lines 639-652: the note. *)
Definition draw_note (cy : Canvas * float) (invoice_data : InvoiceData)
  : Canvas * float :=
  let note := Py.or_ (note invoice_data) "" in
  let lines := Py.split "|" note in
  fold_left draw_note_paragraph lines cy.

(** Lines 589-674: page 2 down to the heading of the line items. *)
Definition draw_page2_head (c : Canvas) (width height : float)
    (invoice_data : InvoiceData) : Canvas * float :=
  let c := header c width height invoice_data 2 in
  let y := height - 30 *mm in
  let c := setFont c "Helvetica-Bold" 10 in
  let c := drawString c 30 *mm y
             ("Fälligkeitsdatum: " ++ format_date (due_date invoice_data)) in
  let y := y - 8 *mm in
  let c := setFont c "Helvetica-Bold" 10 in
  let c := drawString c 30 *mm y "Code für das Zahlungsmittel:" in
  let y := y - 6 *mm in
  let c := setFont c "Helvetica" 9 in
  let c := drawString c 35 *mm y
             (Py.or_ (PaymentMeans.payment_means_code
                        (payment_means invoice_data)) "") in
  let y := y - 8 *mm in
  let c := setFont c "Helvetica-Bold" 10 in
  let c := drawString c 30 *mm y "Verwendungszweck:" in
  let y := y - 6 *mm in
  let c := setFont c "Helvetica" 9 in
  let c := drawString c 35 *mm y (Py.or_ (invoice_id invoice_data) "") in
  let y := y - 8 *mm in
  let c := setFont c "Helvetica-Bold" 10 in
  let c := drawString c 30 *mm y "Überweisung" in
  let y := y - 8 *mm in
  let c := setFont c "Helvetica" 9 in
  let c := drawString c 35 *mm y
             ("Kontoinhaber: "
              ++ Py.or_ (PaymentMeans.account_name (payment_means invoice_data)) "") in
  let y := y - 5 *mm in
  let c := drawString c 35 *mm y
             ("IBAN: "
              ++ Py.or_ (PaymentMeans.account_id (payment_means invoice_data)) "") in
  let y := y - 5 *mm in
  let c := drawString c 35 *mm y
             ("BIC: " ++ Py.or_ (PaymentMeans.bic (payment_means invoice_data)) "") in
  let y := y - 8 *mm in
  let c := setFont c "Helvetica-Bold" 10 in
  let c := drawString c 30 *mm y "Bemerkungen zur Rechnung" in
  let y := y - 6 *mm in
  let c := setFont c "Helvetica" 9 in
  let '(c, y) := draw_note (c, y) invoice_data in
  let period :=
    format_period_monthyear
      (InvoicePeriod.start (invoice_period invoice_data))
      (InvoicePeriod.end_ (invoice_period invoice_data)) in
  let '(c, y) :=
    match period with
    | "" => (c, y - 5 *mm)
    | _ => (drawString c 35 *mm y ("Leistungszeitraum: " ++ period), y - 8 *mm)
    end in
  let y := y - 5 *mm in
  let c := setFont c "Helvetica-Bold" 10 in
  let c := drawString c 30 *mm y "Details" in
  let y := y - 8 *mm in
  (c, y).

(** Lines 679-730, the body of the loop over the line items; the state is
    the canvas, the cursor and the number of the next item. *)
Definition draw_item (width height : float) (invoice_data : InvoiceData)
    (st : Canvas * float * nat) (itm : Item.t) : Canvas * float * nat :=
  let '(c, y, idx) := st in
  let c := setFont c "Helvetica-Bold" 9 in
  let c := drawString c 30 *mm y ("Position: " ++ Py.str idx) in
  let y := y - 6 *mm in
  let idx := (idx + 1)%nat in
  let c := setFont c "Helvetica-Bold" 9 in
  let c := drawString c 35 *mm y "Preiseinzelheiten" in
  let y := y - 6 *mm in
  let c := setFont c "Helvetica" 9 in
  let c := drawString c 40 *mm y
             ("Menge                      " ++ Py.or_ (Item.quantity itm) "") in
  let y := y - 5 *mm in
  let c := drawString c 40 *mm y
             ("Einheit                     " ++ Py.or_ (Item.quantity_unit itm) "") in
  let y := y - 5 *mm in
  let c := drawString c 40 *mm y
             ("Preis pro Einheit (netto)  " ++ Py.or_ (Item.price_amount itm) "") in
  let y := y - 5 *mm in
  let c := drawString c 40 *mm y
             ("Gesamtpreis (netto)       "
              ++ Py.or_ (Item.line_extension_amount itm) "") in
  let y := y - 5 *mm in
  let c := drawString c 40 *mm y
             ("Basismenge zum Artikelpreis: " ++ Py.or_ (Item.base_quantity itm) "") in
  let y := y - 5 *mm in
  let c := drawString c 40 *mm y
             ("Code der Maßeinheit: " ++ Py.or_ (Item.base_quantity_unit itm) "") in
  let y := y - 5 *mm in
  let c := drawString c 40 *mm y
             ("Umsatzsteuer: "
              ++ Py.or_ (TaxCategory.id (Item.tax_category itm)) "") in
  let y := y - 5 *mm in
  let c := drawString c 40 *mm y
             ("Umsatzsteuersatz: "
              ++ percent_or_empty (TaxCategory.percent (Item.tax_category itm))) in
  let y := y - 8 *mm in
  let c := setFont c "Helvetica-Bold" 9 in
  let c := drawString c 35 *mm y "Artikelinformationen" in
  let y := y - 6 *mm in
  let c := setFont c "Helvetica" 9 in
  let c := drawString c 40 *mm y
             ("Bezeichnung: " ++ Py.or_ (Item.item_name itm) "") in
  let y := y - 8 *mm in
  let y := y - 5 *mm in
  if y <? 60 *mm then
    let c := draw_footer c width in
    let c := showPage c in
    let c := header c width height invoice_data 2 in
    let y := height - 30 *mm in
    (c, y, idx)
  else (c, y, idx).

(** Lines 734-764: the end of page 2. *)
Definition draw_page2_tail (c : Canvas) (y : float) (width : float)
    (invoice_data : InvoiceData) : Canvas :=
  let y := y - 5 *mm in
  let c := setFont c "Helvetica-Bold" 10 in
  let c := drawString c 30 *mm y "Informationen zum Verkäufer" in
  let y := y - 6 *mm in
  let c := setFont c "Helvetica" 9 in
  let c := drawString c 35 *mm y
             ("Abweichender Handelsname: "
              ++ Py.or_ (Supplier.registration_name (supplier invoice_data)) "") in
  let y := y - 5 *mm in
  let c := drawString c 35 *mm y
             ("Elektronische Adresse: "
              ++ Py.or_ (Supplier.contact_email (supplier invoice_data)) "") in
  let y := y - 5 *mm in
  let c := drawString c 35 *mm y "Schema der elektronischen Adresse:" in
  let y := y - 5 *mm in
  let c := drawString c 35 *mm y
             ("Umsatzsteuer-ID: "
              ++ Py.or_ (Supplier.company_id (supplier invoice_data)) "") in
  let y := y - 8 *mm in
  let c := setFont c "Helvetica-Bold" 10 in
  let c := drawString c 30 *mm y "Informationen zum Käufer" in
  let y := y - 6 *mm in
  let c := setFont c "Helvetica" 9 in
  let c := drawString c 35 *mm y
             ("Abweichender Handelsname: "
              ++ Py.or_ (Customer.registration_name (customer invoice_data)) "") in
  let y := y - 5 *mm in
  let c := drawString c 35 *mm y "Elektronische Adresse: " in
  let y := y - 8 *mm in
  let c := draw_footer c width in
  showPage c.

(** Lines 767-797: page 3 down to the list of the documents. *)
Definition draw_page3_head (c : Canvas) (width height : float)
    (invoice_data : InvoiceData) : Canvas * float :=
  let c := header c width height invoice_data 3 in
  let y := height - 30 *mm in
  let c := setFont c "Helvetica-Bold" 10 in
  let c := drawString c 30 *mm y "Schema der elektronischen Adresse:" in
  let y := y - 8 *mm in
  let c := setFont c "Helvetica-Bold" 10 in
  let c := drawString c 30 *mm y "Informationen zum Vertrag" in
  let y := y - 6 *mm in
  let c := setFont c "Helvetica" 9 in
  let c := drawString c 35 *mm y
             ("Spezifikationskennung: " ++ Py.or_ (profile_id invoice_data) "") in
  let y := y - 5 *mm in
  let c := drawString c 35 *mm y
             ("Prozesskennung: " ++ Py.or_ (customization_id invoice_data) "") in
  let y := y - 10 *mm in
  let c := setFont c "Helvetica-Bold" 10 in
  let c := drawString c 30 *mm y "Anlagen" in
  let y := y - 6 *mm in
  let c := setFont c "Helvetica" 9 in
  let c := drawString c 35 *mm y "Rechnungsbegründende Unterlagen" in
  let y := y - 6 *mm in
  (c, y).

(** Lines 802-828, the body of the loop over the additional documents. *)
Definition draw_document (width height : float) (invoice_data : InvoiceData)
    (base_fn : string) (st : Canvas * float * nat) (doc : Document.t)
  : Canvas * float * nat :=
  let '(c, y, idx) := st in
  let c := drawString c 40 *mm y
             ("Kennung: " ++ Py.or_ (Document.id doc) (Py.str idx)) in
  let y := y - 5 *mm in
  let c := drawString c 40 *mm y
             ("Beschreibung: " ++ Py.or_ (Document.description doc) "") in
  let y := y - 5 *mm in
  let fn := base_fn ++ "_Anhang" ++ Py.str idx ++ ".pdf" in
  let c := drawString c 40 *mm y ("Anhangsdokument: " ++ fn) in
  let y := y - 5 *mm in
  let c := drawString c 40 *mm y "Format des Anhangdokuments: application/pdf" in
  let y := y - 5 *mm in
  let c := drawString c 40 *mm y ("Name des Anhangdokuments: " ++ fn) in
  let y := y - 10 *mm in
  let idx := (idx + 1)%nat in
  if y <? 50 *mm then
    let c := draw_footer c width in
    let c := showPage c in
    let c := header c width height invoice_data 3 in
    let y := height - 30 *mm in
    (c, y, idx)
  else (c, y, idx).

(** Lines 427-832: everything [create_invoice_pdf] draws. *)
Definition draw_invoice (invoice_data : InvoiceData) (output_path : string)
  : Canvas :=
  let '(width, height) := A4 in
  let c := new_Canvas output_path A4 in
  (* Seite 1 *)
  let c := draw_page1 c width height invoice_data in
  (* Seite 2 *)
  let '(c, y) := draw_page2_head c width height invoice_data in
  let idx := 1%nat in
  let '(c, y, idx) :=
    fold_left (draw_item width height invoice_data)
              (items invoice_data) (c, y, idx) in
  let c := draw_page2_tail c y width invoice_data in
  (* Seite 3 *)
  let '(c, y) := draw_page3_head c width height invoice_data in
  let idx := 1%nat in
  let base_fn := os_path.splitext_root (os_path.basename output_path) in
  let '(c, y, idx) :=
    fold_left (draw_document width height invoice_data base_fn)
              (additional_documents invoice_data) (c, y, idx) in
  let c := draw_footer c width in
  showPage c.

(** [create_invoice_pdf]: lines 423-835. *)
Definition create_invoice_pdf (invoice_data : InvoiceData)
    (output_path : string) (w : World) : World :=
  let c := draw_invoice invoice_data output_path in
  let w := save c w in
  print w ("PDF-Rechnung gespeichert als: " ++ output_path).

End Renderer.

(* ===================================================================== *)
(** * Dates as the specification writes them *)
(* ===================================================================== *)

Module DateSpec.

(** The character of a decimal digit. *)
Definition digit (n : nat) : ascii := ascii_of_nat (48 + n).

(** A number in two and in four digits, with leading zeros. *)
Definition pad2 (n : nat) : string :=
  String (digit (n / 10 mod 10)) (String (digit (n mod 10)) "").

Definition pad4 (n : nat) : string :=
  String (digit (n / 1000 mod 10)) (String (digit (n / 100 mod 10)) (pad2 n)).

(** The number that four digits write. *)
Definition number4 (a b c d : ascii) : nat :=
  10 * (10 * (10 * Py.digit_value a + Py.digit_value b) + Py.digit_value c)
  + Py.digit_value d.

(** A date of the calendar, from year 1 to year 9999. *)
Definition valid_date (y m d : nat) : Prop :=
  (1 <= y <= 9999 /\ 1 <= m <= 12 /\ 1 <= d <= Datetime.days_in_month y m)%nat.

(** YYYY-MM-DD *)
Definition iso_date (y m d : nat) : string :=
  pad4 y ++ "-" ++ pad2 m ++ "-" ++ pad2 d.

(** D.M.YYYY, day and month without leading zeros, the year as the plain
    number (four digits from the year 1000 on). *)
Definition d_m_yyyy (y m d : nat) : string :=
  Py.str d ++ "." ++ Py.str m ++ "." ++ Py.str y.

(** MM/YYYY, the month in two digits, the year as the plain number. *)
Definition mm_yyyy (y m : nat) : string :=
  pad2 m ++ "/" ++ Py.str y.

(** The ways to write a month and a day that [strptime] reads: in two
    digits, without the leading zero, and a day below ten also with a space
    in place of the zero. *)
Definition month_words (m : nat) : list string := [pad2 m; Py.str m].

Definition day_words (d : nat) : list string :=
  pad2 d :: Py.str d :: (if (d <? 10)%nat then [(" " ++ Py.str d)%string] else []).

(** [s] is the date [y]-[m]-[d] in one of the spellings that are read. *)
Definition reads_as (s : string) (y m d : nat) : Prop :=
  valid_date y m d /\
  exists wm wd, In wm (month_words m) /\ In wd (day_words d) /\
                s = (pad4 y ++ "-" ++ wm ++ "-" ++ wd)%string.

End DateSpec.

(* ===================================================================== *)
(** * The extractor as the specification describes it *)
(* ===================================================================== *)

(** The model with every field [None] and both sequences empty. *)
Definition empty_model : InvoiceData :=
  {| invoice_id := None; issue_date := None; due_date := None;
     invoice_type_code := None; note := None; currency := None;
     buyer_reference := None;
     invoice_period := InvoicePeriod.mk None None;
     supplier :=
       Supplier.mk None None None None None None None None None None None;
     customer := Customer.mk None None None None None None None;
     payment_means := PaymentMeans.mk None None None None None;
     tax_total :=
       TaxTotal.mk None
         (TaxSubtotal.mk None None (TaxCategory.mk None None None));
     monetary_total := MonetaryTotal.mk None None None None None None;
     items := [];
     additional_documents := [];
     profile_id := None; customization_id := None |}.

(** A root element and nothing else. *)
Definition only_root (tag : string) (attrib : list (string * string))
    (text : option string) : Element :=
  mkElement tag attrib text [].

(** <Invoice><Note/></Invoice> *)
Definition invoice_with_empty_note : Element :=
  mkElement "Invoice" [] None [mkElement "Note" [] None []].

(** The values an item record holds. *)
Definition item_fields (i : Item.t) : list (option string) :=
  [ Item.id i; Item.quantity i; Item.quantity_unit i;
    Item.line_extension_amount i; Item.item_name i;
    TaxCategory.id (Item.tax_category i);
    TaxCategory.percent (Item.tax_category i);
    TaxCategory.scheme_id (Item.tax_category i);
    Item.price_amount i; Item.price_currency i;
    Item.base_quantity i; Item.base_quantity_unit i ].

(** [v] is the text or an attribute of [e]. *)
Definition holds (e : Element) (v : string) : Prop :=
  text e = Some v \/ exists key, get e key = Some v.

(** A value that, when present, is held by an element below [line]. *)
Definition from_below (line : Element) (o : option string) : Prop :=
  forall v, o = Some v -> exists e, In e (descendants line) /\ holds e v.

(** A document reference with an ID or a description below it. *)
Definition carries_id_or_description (docref : Element) : bool :=
  match find docref ["ID"], find docref ["DocumentDescription"] with
  | None, None => false
  | _, _ => true
  end.

(** The entry of such a reference: the texts of the two elements, the empty
    string for the one that is missing. *)
Definition document_entry (docref : Element) : Document.t :=
  {| Document.id :=
       match find docref ["ID"] with Some e => text e | None => Some "" end;
     Document.description :=
       match find docref ["DocumentDescription"] with
       | Some e => text e | None => Some "" end |}.

(* ===================================================================== *)
(** * The attachment extractor as the specification describes it *)
(* ===================================================================== *)

Section AttachmentSpec.

Context {F : Floats} {R : Reportlab F} {B : Base64}.

(** The elements whose tag ends with EmbeddedDocumentBinaryObject, in
    document order. *)
Definition embedded_objects (xml_root : Element) : list Element :=
  filter (fun e => Py.endswith "EmbeddedDocumentBinaryObject" (tag e))
         (iter xml_root).

(** What happens to one of them. *)
Inductive outcome : Type :=
| Skipped                                   (* no text: nothing at all *)
| Failed (message : string)                 (* the text does not decode *)
| Written (path : string) (b : list Byte.byte).

Definition outcome_of (output_dir base_name : string) (idx : nat)
    (elem : Element) : outcome :=
  match text elem with
  | None | Some "" => Skipped
  | Some enc =>
      match b64decode enc with
      | inl e => Failed e
      | inr b =>
          Written (os_path.join output_dir
                     (base_name ++ "_Anhang" ++ Py.str idx ++ ".pdf")%string) b
      end
  end.

(** The outcomes, each with the number of its element: the first element
    has the number 1, the next 2, and so on, whatever happens to them. *)
Definition outcomes (output_dir base_name : string) (xml_root : Element)
  : list (nat * outcome) :=
  map (fun ie => (fst ie, outcome_of output_dir base_name (fst ie) (snd ie)))
      (enumerate 1 (embedded_objects xml_root)).

Definition written_path (o : nat * outcome) : list string :=
  match snd o with Written p _ => [p] | _ => [] end.

Definition written_file (o : nat * outcome) : list (string * contents) :=
  match snd o with Written p b => [(p, Bytes b)] | _ => [] end.

Definition printed_line (o : nat * outcome) : list string :=
  match snd o with
  | Skipped => []
  | Failed e =>
      [("Fehler beim Dekodieren von Anhang #" ++ Py.str (fst o) ++ ": "
        ++ e)%string]
  | Written p _ =>
      [("Anhang #" ++ Py.str (fst o) ++ " gespeichert als: " ++ p)%string]
  end.

End AttachmentSpec.

(* ===================================================================== *)
(** * The renderer as the specification describes it *)
(* ===================================================================== *)

Section RendererSpec.

Context {F : Floats} {R : Reportlab F}.

Local Open Scope float_scope.

(** A text in pieces of 80 characters, the last one with what is left. *)
#[local] Opaque Py.take Py.drop.

Equations? chunks80 (paragraph : string) : list string
  by wf (String.length paragraph) lt :=
  chunks80 paragraph with le_lt_dec (String.length paragraph) 80 => {
    | left _ => [paragraph]
    | right _ => Py.take 80 paragraph :: chunks80 (Py.drop 80 paragraph) }.
Proof. apply Py.drop_shorter; lia. Qed.

#[local] Transparent Py.take Py.drop.

(** The lines of one paragraph of the note: none when the paragraph is
    blank, else the pieces of the paragraph without the white space around
    it. *)
Definition paragraph_lines (ln : string) : list string :=
  match Py.strip ln with
  | "" => []
  | text => chunks80 text
  end.

(** The lines of the note: those of its paragraphs, which the character
    [|] separates. *)
Definition note_lines (note : string) : list string :=
  flat_map paragraph_lines (Py.split "|" note).

(** A line of text at the left margin of the note, and the cursor one row
    further down. *)
Definition draw_line (cy : Canvas * float) (line : string) : Canvas * float :=
  (drawString (fst cy) 35 *mm (snd cy) line, snd cy - 5 *mm).

Definition draw_lines (cy : Canvas * float) (lines : list string)
  : Canvas * float :=
  fold_left draw_line lines cy.

(** The cursor moved down by so many millimetres, one step after the
    other. *)
Definition down (y : float) (steps : list Z) : float :=
  fold_left (fun y n => y - n *mm) steps y.

Definition width : float := fst A4.
Definition height : float := snd A4.

(** The cursor at the top of the contents of a page. *)
Definition top : float := height - 30 *mm.

(** The steps of the cursor in one line item and in one document. *)
Definition item_steps : list Z := [6; 6; 5; 5; 5; 5; 5; 5; 5; 8; 6; 8; 5]%Z.
Definition document_steps : list Z := [5; 5; 5; 5; 10]%Z.

(** The page breaks of a loop of [n] rounds that starts with the cursor at
    [y]: a round moves the cursor down by [steps]; when it is then below
    [limit], the page is broken and the cursor is back at the top. *)
Fixpoint breaks (steps : list Z) (limit : float) (y : float) (n : nat)
  : list bool :=
  match n with
  | O => []
  | S n' =>
      let y' := down y steps in
      if y' <? limit then true :: breaks steps limit top n'
      else false :: breaks steps limit y' n'
  end.

(** The cursor where the line items begin. *)
Definition details_cursor (invoice_data : InvoiceData) : float :=
  let y := down top [8; 6; 8; 6; 8; 8; 5; 5; 8; 6]%Z in
  let y := down y (map (fun _ => 5%Z)
                       (note_lines (Py.or_ (note invoice_data) ""))) in
  let y :=
    match format_period_monthyear
            (InvoicePeriod.start (invoice_period invoice_data))
            (InvoicePeriod.end_ (invoice_period invoice_data)) with
    | "" => down y [5]%Z
    | _ => down y [8]%Z
    end in
  down y [5; 8]%Z.

(** The cursor where the additional documents begin. *)
Definition documents_cursor : float := down top [8; 6; 5; 10; 6; 6]%Z.

Definition item_breaks (invoice_data : InvoiceData) : list bool :=
  breaks item_steps (60 *mm) (details_cursor invoice_data)
         (List.length (items invoice_data)).

Definition document_breaks (invoice_data : InvoiceData) : list bool :=
  breaks document_steps (50 *mm) documents_cursor
         (List.length (additional_documents invoice_data)).

(** How many page breaks. *)
Definition overflow (bs : list bool) : nat := List.length (filter id bs).

(** The six operations of the header of a page with the number [L]. *)
Definition header_code (invoice_data : InvoiceData) (L : nat) : list op :=
  code (header (new_Canvas "" A4) width height invoice_data L).

Definition page_line (L : nat) : string := ("Seite " ++ Py.str L ++ " / 3")%string.

(** The page begins with the header of the number [L]. *)
Definition carries_header (invoice_data : InvoiceData) (L : nat) (p : page)
  : Prop :=
  exists body, p = header_code invoice_data L ++ body.

(** The numbers in the headers of the pages, page by page: one page 1, the
    pages of the logical page 2 and those of the logical page 3. *)
Definition page_labels (invoice_data : InvoiceData) : list nat :=
  [1] ++ repeat 2 (1 + overflow (item_breaks invoice_data))
      ++ repeat 3 (1 + overflow (document_breaks invoice_data)).

(** Operations added to the page that is being drawn. *)
Definition emits (c : Canvas) (ops : list op) : Canvas :=
  {| filename := filename c; pagesize := pagesize c; pages := pages c;
     code := code c ++ ops |}.

(** [c'] is [c] with more drawn on its current page. *)
Definition extends (c c' : Canvas) : Prop := exists ops, c' = emits c ops.

(** One round of a loop with a page break: either the page is broken after
    what the round draws, a new one begun with the header of the number
    [L] and the cursor put at the top, or the round only draws. *)
Definition round_shape (d : InvoiceData) (A : Type)
    (body : Canvas * float * nat -> A -> Canvas * float * nat)
    (steps : list Z) (limit : float) (L : nat) : Prop :=
  forall c y idx a,
    ((down y steps <? limit) = true ->
     exists ops,
       body (c, y, idx) a
       = (emits (showPage (emits c ops)) (header_code d L), top, (idx + 1)%nat))
    /\ ((down y steps <? limit) = false ->
        exists ops,
          body (c, y, idx) a = (emits c ops, down y steps, (idx + 1)%nat)).

(** The pages shown so far begin with the headers of the numbers
    [labels]; the canvas is that of the file [path]. *)
Definition shown (d : InvoiceData) (path : string) (labels : list nat)
    (c : Canvas) : Prop :=
  filename c = path /\ Forall2 (carries_header d) labels (pages c).

(** A page with the number [L] is being drawn. *)
Definition open_page (d : InvoiceData) (path : string) (labels : list nat)
    (L : nat) (c : Canvas) : Prop :=
  shown d path labels c /\ carries_header d L (code c).

(** No page is being drawn. *)
Definition closed (d : InvoiceData) (path : string) (labels : list nat)
    (c : Canvas) : Prop :=
  shown d path labels c /\ code c = [].

(** What is drawn for the document with the number [idx], the cursor at
    [y]. *)
Definition document_block (base_fn : string) (y : float) (idx : nat)
    (doc : Document.t) : list op :=
  let fn := (base_fn ++ "_Anhang" ++ Py.str idx ++ ".pdf")%string in
  [ DrawString 40 *mm y
      ("Kennung: " ++ Py.or_ (Document.id doc) (Py.str idx))%string;
    DrawString 40 *mm (y - 5 *mm)
      ("Beschreibung: " ++ Py.or_ (Document.description doc) "")%string;
    DrawString 40 *mm (y - 5 *mm - 5 *mm) ("Anhangsdokument: " ++ fn)%string;
    DrawString 40 *mm (y - 5 *mm - 5 *mm - 5 *mm)
      "Format des Anhangdokuments: application/pdf";
    DrawString 40 *mm (y - 5 *mm - 5 *mm - 5 *mm - 5 *mm)
      ("Name des Anhangdokuments: " ++ fn)%string ].

End RendererSpec.

(* ===================================================================== *)
(** * Inputs for the examples *)
(* ===================================================================== *)

Module Examples.

Import ET.

(** Exact arithmetic on rationals in place of the floats: a millimetre is
    72/25.4 points.  As the width of a string, each character counts half
    the font size. *)
Definition exact : Floats :=
  {| float := QArith_base.Q;
     of_int := QArith_base.inject_Z;
     fmul := QArith_base.Qmult;
     fsub := QArith_base.Qminus;
     fltb x y := match QArith_base.Qcompare x y with Lt => true | _ => false end |}.

Definition exact_reportlab : Reportlab exact :=
  {| mm := (QArith_base.Qmake 360 127 : @float exact);
     stringWidth text _ size :=
       (QArith_base.Qmake (Z.of_nat (String.length text * size)) 2
        : @float exact) |}.

(** A decoder that knows two payloads and rejects everything else. *)
Definition two_payloads : Base64 :=
  {| b64decode enc :=
       if String.eqb enc "QQ==" then inr [Byte.x41]
       else if String.eqb enc "Qg==" then inr [Byte.x42]
       else inl "Incorrect padding" |}.

Definition elem (tag : string) (text : option string) (children : list Element)
  : Element :=
  mkElement tag [] text children.

(** Two line items, "A" with a quantity and "B" without. *)
Definition line_A : Element :=
  elem "InvoiceLine" None
    [ elem "ID" (Some "1") [];
      mkElement "InvoicedQuantity" [("unitCode", "HUR")] (Some "2") [];
      elem "Item" None [elem "Name" (Some "A") []] ].

Definition line_B : Element :=
  elem "{urn:cac}InvoiceLine" None
    [ elem "ID" (Some "2") [];
      elem "Item" None [elem "Name" (Some "B") []] ].

Definition two_lines : Element :=
  elem "Invoice" None
    [ elem "{urn:cbc}ID" (Some "R-2025-001") []; line_A; line_B ].

(** A line item inside another one, before the [Item] of the outer
    line. *)
Definition inner_line : Element :=
  elem "InvoiceLine" None
    [ elem "ID" (Some "1.1") [];
      elem "Item" None [elem "Name" (Some "inner") []] ].

Definition outer_line : Element :=
  elem "InvoiceLine" None
    [ elem "ID" (Some "1") [];
      inner_line;
      elem "Item" None [elem "Name" (Some "outer") []] ].

Definition nested_lines : Element := elem "Invoice" None [outer_line].

(** Three document references: with an ID, with nothing, with a
    description. *)
Definition three_references : Element :=
  elem "Invoice" None
    [ elem "AdditionalDocumentReference" None [elem "ID" (Some "D1") []];
      elem "AdditionalDocumentReference" None [];
      elem "AdditionalDocumentReference" None
        [elem "DocumentDescription" (Some "Vertrag") []] ].

(** Four embedded objects: without text, with a payload, with text that
    does not decode, with a payload. *)
Definition four_objects : Element :=
  elem "Invoice" None
    [ elem "EmbeddedDocumentBinaryObject" None [];
      elem "{urn:cbc}EmbeddedDocumentBinaryObject" (Some "QQ==") [];
      elem "EmbeddedDocumentBinaryObject" (Some "QQ") [];
      elem "EmbeddedDocumentBinaryObject" (Some "Qg==") [] ].

Definition no_item : Item.t :=
  Item.mk None None None None None (TaxCategory.mk None None None)
          None None None None.

Definition no_document : Document.t := Document.mk (Some "") (Some "").

(** A model with nothing but a note, so many line items and so many
    documents. *)
Definition invoice (note : option string) (n_items n_documents : nat)
  : InvoiceData :=
  {| invoice_id := None; issue_date := None; due_date := None;
     invoice_type_code := None; note := note; currency := None;
     buyer_reference := None;
     invoice_period := InvoicePeriod.mk None None;
     supplier :=
       Supplier.mk None None None None None None None None None None None;
     customer := Customer.mk None None None None None None None;
     payment_means := PaymentMeans.mk None None None None None;
     tax_total :=
       TaxTotal.mk None
         (TaxSubtotal.mk None None (TaxCategory.mk None None None));
     monetary_total := MonetaryTotal.mk None None None None None None;
     items := repeat no_item n_items;
     additional_documents := repeat no_document n_documents;
     profile_id := None; customization_id := None |}.

(** The text of the sixth operation of every page: the line with the page
    number. *)
Definition page_lines {F : Floats} (pgs : list page) : list string :=
  map (fun p => match nth_error p 5 with
                | Some (DrawString _ _ t) => t
                | _ => ""
                end) pgs.

(** The texts a canvas has on the page that is being drawn. *)
Definition texts {F : Floats} (c : Canvas) : list string :=
  flat_map (fun o => match o with DrawString _ _ t => [t] | _ => [] end)
           (code c).

End Examples.

(* ===================================================================== *)
(** * The driver: [main] *)
(* ===================================================================== *)

(** [OSError] with its [errno].  Python raises the subclass that goes with
    the number: [FileNotFoundError] for ENOENT. *)
Record OSError : Type := mkOSError { errno : nat }.

Definition FileNotFoundError : OSError := mkOSError 2.

Module os.

(** [os.makedirs(name, exist_ok=True)], with the exception it raises, if
    any.  [fs] is what the file system does: [None] when the directory is
    there in the end.  The empty name is the name of no directory on any
    file system: [mkdir('')] fails with ENOENT. *)
Definition makedirs (name : string) (fs : option OSError) : option OSError :=
  match name with
  | "" => Some FileNotFoundError
  | _ => fs
  end.

End os.

(** No file system has a file to read at this path: it is empty or ends
    with a slash, or its last component is [.] or [..]. *)
Definition never_a_file (path : string) : bool :=
  let name := os_path.basename path in
  String.eqb name "" || String.eqb name "." || String.eqb name "..".

(** [ET.parse(source).getroot()] under [try: ... except Exception as e],
    lines 851-856: the root, or the text of the exception.  [document] is
    the root of the document that the file system has at [source], if it
    has a well-formed one; [message] is the text of the exception
    otherwise. *)
Definition parse_file (source : string) (document : option Element)
    (message : string) : string + Element :=
  if never_a_file source then inl message
  else match document with
       | Some root => inr root
       | None => inl message
       end.

(** How a run of the program ends: [main] returns, [sys.exit(code)] is
    called, or an exception is not caught. *)
Inductive ending : Type :=
| Returned
| SystemExit (code : nat)
| Uncaught (e : exn)
| UncaughtOSError (e : OSError).

Section Main.

Context {F : Floats} {R : Reportlab F} {B : Base64}.

(** [main], lines 845-866, after the arguments are read.  [xml_file] and
    [output] are the two arguments; they come from the command line, so
    they hold no NUL.  [fs], [document] and [message] are what the file
    system does at [os.makedirs] and at [ET.parse].  The files written
    after that are written as in the [World]. *)
Definition main (xml_file output : string) (fs : option OSError)
    (document : option Element) (message : string) (w : World)
  : ending * World :=
  let xml_path := xml_file in
  let out_dir := output in
  match os.makedirs out_dir fs with
  | Some e => (UncaughtOSError e, w)
  | None =>
      let base_name := os_path.splitext_root (os_path.basename xml_path) in
      match parse_file xml_path document message with
      | inl e =>
          (SystemExit 1,
           print w ("Fehler beim Einlesen der XML-Datei: " ++ e)%string)
      | inr root =>
          let '(_, w) := extract_attachments root out_dir base_name w in
          match parse_invoice_data root with
          | Raise e => (Uncaught e, w)
          | Ok data =>
              let invoice_pdf_path :=
                os_path.join out_dir (base_name ++ ".pdf")%string in
              (Returned, create_invoice_pdf data invoice_pdf_path w)
          end
      end
  end.

End Main.

(* ===================================================================== *)
(** * Further notions of the specification *)
(* ===================================================================== *)

(** The document has a [Note] element and the first one has no text: the one
    case in which [parse_invoice_data] raises. *)
Definition note_without_text (xml_root : Element) : bool :=
  match find xml_root ["Note"] with
  | Some elem => match text elem with None => true | Some _ => false end
  | None => false
  end.

(** The path of the attachment with the number [idx]. *)
Definition attachment_path (output_dir base_name : string) (idx : nat)
  : string :=
  os_path.join output_dir (attachment_name base_name idx).

(** The first and the last character of a string. *)
Definition first_char (s : string) : option ascii :=
  match s with
  | String c _ => Some c
  | "" => None
  end.

Fixpoint last_char (s : string) : option ascii :=
  match s with
  | "" => None
  | String c "" => Some c
  | String _ s' => last_char s'
  end.

(** No white space at either end. *)
Definition trimmed (s : string) : bool :=
  match first_char s, last_char s with
  | Some a, Some b => negb (Py.isspace a) && negb (Py.isspace b)
  | _, _ => true
  end.

(** The fields of the model that are read from the first element of a
    name anywhere below the root, each with that name. *)
Definition header_fields (data : InvoiceData)
  : list (string * option string) :=
  [ ("ID", invoice_id data);
    ("IssueDate", issue_date data);
    ("DueDate", due_date data);
    ("InvoiceTypeCode", invoice_type_code data);
    ("DocumentCurrencyCode", currency data);
    ("BuyerReference", buyer_reference data);
    ("ProfileID", profile_id data);
    ("CustomizationID", customization_id data) ].

(** [c] occurs in [s]. *)
Definition contains (c : ascii) (s : string) : bool :=
  existsb (Ascii.eqb c) (list_ascii_of_string s).

(** The local name of a tag: what follows its namespace in braces. *)
Definition local_name (tag : string) : string := os_path.after_last "}" tag.

(** The document with every tag reduced to its local name. *)
Fixpoint strip_namespaces (e : Element) : Element :=
  match e with
  | mkElement t a x cs => mkElement (local_name t) a x (map strip_namespaces cs)
  end.

(** A path whose names are free of braces, as all paths of the program
    are. *)
Definition plain (path : list string) : bool :=
  forallb (fun name => negb (contains "}" name)) path.

(** The model without the fields that [create_invoice_pdf] does not read:
    the endpoint ids of both parties, the payment id, the tax schemes, and
    of every item its id and the currency of its price. *)
Definition blank_item (itm : Item.t) : Item.t :=
  {| Item.id := None;
     Item.quantity := Item.quantity itm;
     Item.quantity_unit := Item.quantity_unit itm;
     Item.line_extension_amount := Item.line_extension_amount itm;
     Item.item_name := Item.item_name itm;
     Item.tax_category :=
       {| TaxCategory.id := TaxCategory.id (Item.tax_category itm);
          TaxCategory.percent := TaxCategory.percent (Item.tax_category itm);
          TaxCategory.scheme_id := None |};
     Item.price_amount := Item.price_amount itm;
     Item.price_currency := None;
     Item.base_quantity := Item.base_quantity itm;
     Item.base_quantity_unit := Item.base_quantity_unit itm |}.

Definition read_fields (d : InvoiceData) : InvoiceData :=
  {| invoice_id := invoice_id d;
     issue_date := issue_date d;
     due_date := due_date d;
     invoice_type_code := invoice_type_code d;
     note := note d;
     currency := currency d;
     buyer_reference := buyer_reference d;
     invoice_period := invoice_period d;
     supplier :=
       {| Supplier.endpoint_id := None;
          Supplier.name := Supplier.name (supplier d);
          Supplier.street := Supplier.street (supplier d);
          Supplier.city := Supplier.city (supplier d);
          Supplier.postal_zone := Supplier.postal_zone (supplier d);
          Supplier.country := Supplier.country (supplier d);
          Supplier.company_id := Supplier.company_id (supplier d);
          Supplier.registration_name := Supplier.registration_name (supplier d);
          Supplier.contact_name := Supplier.contact_name (supplier d);
          Supplier.contact_telephone := Supplier.contact_telephone (supplier d);
          Supplier.contact_email := Supplier.contact_email (supplier d) |};
     customer :=
       {| Customer.endpoint_id := None;
          Customer.name := Customer.name (customer d);
          Customer.street := Customer.street (customer d);
          Customer.city := Customer.city (customer d);
          Customer.postal_zone := Customer.postal_zone (customer d);
          Customer.country := Customer.country (customer d);
          Customer.registration_name := Customer.registration_name (customer d) |};
     payment_means :=
       {| PaymentMeans.payment_means_code :=
            PaymentMeans.payment_means_code (payment_means d);
          PaymentMeans.payment_id := None;
          PaymentMeans.account_id := PaymentMeans.account_id (payment_means d);
          PaymentMeans.account_name := PaymentMeans.account_name (payment_means d);
          PaymentMeans.bic := PaymentMeans.bic (payment_means d) |};
     tax_total :=
       {| TaxTotal.tax_amount := TaxTotal.tax_amount (tax_total d);
          TaxTotal.tax_subtotal :=
            {| TaxSubtotal.taxable_amount :=
                 TaxSubtotal.taxable_amount (TaxTotal.tax_subtotal (tax_total d));
               TaxSubtotal.tax_amount :=
                 TaxSubtotal.tax_amount (TaxTotal.tax_subtotal (tax_total d));
               TaxSubtotal.tax_category :=
                 {| TaxCategory.id :=
                      TaxCategory.id
                        (TaxSubtotal.tax_category
                           (TaxTotal.tax_subtotal (tax_total d)));
                    TaxCategory.percent :=
                      TaxCategory.percent
                        (TaxSubtotal.tax_category
                           (TaxTotal.tax_subtotal (tax_total d)));
                    TaxCategory.scheme_id := None |} |} |};
     monetary_total := monetary_total d;
     items := map blank_item (items d);
     additional_documents := additional_documents d;
     profile_id := profile_id d;
     customization_id := customization_id d |}.

Section RendererSpecMore.

Context {F : Floats} {R : Reportlab F}.

Local Open Scope float_scope.

(** The two operations of the footer. *)
Definition footer_code : list op :=
  code (draw_footer (new_Canvas "" A4) width).

(** The page ends with the footer. *)
Definition carries_footer (p : page) : Prop :=
  exists body, p = body ++ footer_code.

(** All pages shown so far end with the footer. *)
Definition footed (c : Canvas) : Prop := Forall carries_footer (pages c).

(** What is drawn for the line item with the number [idx], the cursor at
    [y]: the first operations are the heading with the number. *)
Definition item_heading (y : float) (idx : nat) : list op :=
  [ SetFont "Helvetica-Bold" 9;
    DrawString 30 *mm y ("Position: " ++ Py.str idx)%string ].

End RendererSpecMore.

(* DEFINITIONS-END *)

(* ===================================================================== *)
(* ===================================================================== *)
(** * Properties *)
(* ===================================================================== *)
(* ===================================================================== *)

(* ===================================================================== *)
(** * Facts about strings *)
(* ===================================================================== *)

Module PyFacts.

Lemma length_append (s t : string) :
  String.length (s ++ t) = String.length s + String.length t.
Proof. induction s; simpl; auto. Qed.

Lemma append_nil_r (s : string) : (s ++ "")%string = s.
Proof. induction s; simpl; congruence. Qed.

Lemma append_assoc (s t u : string) :
  ((s ++ t) ++ u)%string = (s ++ (t ++ u))%string.
Proof. induction s; simpl; congruence. Qed.

Lemma take_append (w s : string) :
  Py.take (String.length (w ++ s) - String.length s) (w ++ s)%string = w.
Proof.
  rewrite length_append.
  replace (String.length w + String.length s - String.length s)
    with (String.length w) by lia.
  induction w; simpl.
  - destruct s; reflexivity.
  - congruence.
Qed.

Lemma length_zero (s : string) : String.length s = 0 -> s = "".
Proof. destruct s; simpl; [reflexivity | discriminate]. Qed.

Lemma take_length (n : nat) (s : string) :
  String.length (Py.take n s) = Nat.min n (String.length s).
Proof.
  revert s; induction n; intros [|a s]; simpl; auto.
Qed.

Lemma drop_length (n : nat) (s : string) :
  String.length (Py.drop n s) = String.length s - n.
Proof.
  revert s; induction n; intros [|a s]; simpl; auto.
Qed.

Lemma take_drop (n : nat) (s : string) :
  (Py.take n s ++ Py.drop n s)%string = s.
Proof.
  revert s; induction n; intros [|a s]; simpl; auto.
  rewrite IHn; reflexivity.
Qed.

End PyFacts.

(* ===================================================================== *)
(** * Facts about the matcher *)
(* ===================================================================== *)

Module ReFacts.

Import Re.

(** A match of a group-free expression takes one of its words off the
    front and continues with the groups unchanged. *)
Lemma rmatch_sound (A : Type) (r : regex) :
  group_free r = true ->
  forall (s : string) (g : groups) (k : string -> groups -> option A) (x : A),
    rmatch r s g k = Some x ->
    exists w s', s = (w ++ s')%string /\ lang r w /\ k s' g = Some x.
Proof.
  induction r as [c| |lo hi|r1 IH1 r2 IH2|r1 IH1 r2 IH2|n r IH];
    simpl; intros Hgf s g k x Hm.
  - destruct s as [|c' s']; [discriminate|].
    destruct (Ascii.eqb c' c) eqn:E; [|discriminate].
    apply Ascii.eqb_eq in E; subst c'.
    exists (String c ""), s'; auto.
  - destruct s as [|c' s']; [discriminate|].
    destruct (Py.isdigit c') eqn:E; [|discriminate].
    exists (String c' ""), s'; eauto.
  - destruct s as [|c' s']; [discriminate|].
    destruct (in_range lo hi c') eqn:E; [|discriminate].
    exists (String c' ""), s'; eauto.
  - apply andb_true_iff in Hgf as [G1 G2].
    apply (IH1 G1) in Hm as (w1 & s1 & -> & L1 & Hm).
    apply (IH2 G2) in Hm as (w2 & s2 & -> & L2 & Hm).
    exists (w1 ++ w2)%string, s2. rewrite PyFacts.append_assoc.
    split; [reflexivity|]. split; [exists w1, w2; auto | assumption].
  - apply andb_true_iff in Hgf as [G1 G2].
    destruct (rmatch r1 s g k) eqn:E1.
    + injection Hm as ->.
      apply (IH1 G1) in E1 as (w & s' & -> & L & Hk). eauto 6.
    + apply (IH2 G2) in Hm as (w & s' & -> & L & Hk). eauto 6.
  - discriminate.
Qed.

(** A group around a group-free expression records the word it took. *)
Lemma rmatch_group_sound (A : Type) (n : string) (r : regex) :
  group_free r = true ->
  forall (s : string) (g : groups) (k : string -> groups -> option A) (x : A),
    rmatch (Group n r) s g k = Some x ->
    exists w s', s = (w ++ s')%string /\ lang r w /\ k s' ((n, w) :: g) = Some x.
Proof.
  intros Hgf s g k x Hm. simpl in Hm.
  apply (@rmatch_sound _ _ Hgf) in Hm as (w & s' & -> & L & Hk).
  rewrite PyFacts.take_append in Hk. eauto 6.
Qed.

Lemma rmatch_seq (A : Type) (r1 r2 : regex) (s : string) (g : groups)
    (k : string -> groups -> option A) :
  rmatch (Seq r1 r2) s g k = rmatch r1 s g (fun s' g' => rmatch r2 s' g' k).
Proof. reflexivity. Qed.

Lemma rmatch_lit (A : Type) (c : ascii) (s : string) (g : groups)
    (k : string -> groups -> option A) (x : A) :
  rmatch (Lit c) s g k = Some x ->
  exists s', s = String c s' /\ k s' g = Some x.
Proof.
  simpl. destruct s as [|c' s']; [discriminate|].
  destruct (Ascii.eqb c' c) eqn:E; [|discriminate].
  apply Ascii.eqb_eq in E; subst c'. eauto.
Qed.

End ReFacts.

(* ===================================================================== *)
(** * Facts about [strptime] *)
(* ===================================================================== *)

Module DateFacts.

Import Re Datetime DateSpec.

Lemma isdigit_digit (c : ascii) :
  Py.isdigit c = true -> exists n, (n < 10)%nat /\ c = digit n.
Proof.
  intros Hc. exists (nat_of_ascii c - 48)%nat. unfold Py.isdigit in Hc.
  apply andb_true_iff in Hc as [H1 H2]. apply Nat.leb_le in H1, H2.
  split; [lia|]. unfold digit.
  replace (48 + (nat_of_ascii c - 48))%nat with (nat_of_ascii c) by lia.
  symmetry; apply ascii_nat_embedding.
Qed.

Lemma in_range_digit (a b : nat) (c : ascii) :
  (a <= b < 10)%nat -> in_range (digit a) (digit b) c = true ->
  exists n, (a <= n <= b)%nat /\ c = digit n.
Proof.
  intros Hab Hc. exists (nat_of_ascii c - 48)%nat. unfold in_range, digit in Hc.
  rewrite !nat_ascii_embedding in Hc by lia.
  apply andb_true_iff in Hc as [H1 H2]. apply Nat.leb_le in H1, H2.
  split; [lia|]. unfold digit.
  replace (48 + (nat_of_ascii c - 48))%nat with (nat_of_ascii c) by lia.
  symmetry; apply ascii_nat_embedding.
Qed.

(** Case analysis on a number between two bounds. *)
Ltac enum n := first [lia | destruct n as [|n]; [try lia | enum n]].

Lemma digit_isdigit (n : nat) : (n < 10)%nat -> Py.isdigit (digit n) = true.
Proof. intros; enum n; reflexivity. Qed.

Lemma digit_value_digit (n : nat) : (n < 10)%nat -> Py.digit_value (digit n) = n.
Proof. intros; enum n; reflexivity. Qed.

Lemma digit_not_space (n : nat) : (n < 10)%nat -> Py.isspace (digit n) = false.
Proof. intros; enum n; reflexivity. Qed.

Lemma isdigit_not_space (c : ascii) :
  Py.isdigit c = true -> Py.isspace c = false.
Proof.
  intros Hc. apply isdigit_digit in Hc as (n & Hn & ->).
  now apply digit_not_space.
Qed.

Lemma digit_of_value (c : ascii) :
  Py.isdigit c = true -> digit (Py.digit_value c) = c /\ (Py.digit_value c < 10)%nat.
Proof.
  intros Hc. apply isdigit_digit in Hc as (n & Hn & ->).
  rewrite digit_value_digit by assumption. auto.
Qed.

Lemma int_digits4 (a b c d : ascii) :
  Py.isdigit a = true -> Py.isdigit b = true ->
  Py.isdigit c = true -> Py.isdigit d = true ->
  Py.int (String a (String b (String c (String d "")))) = Ok (number4 a b c d).
Proof.
  intros Ha Hb Hc Hd. unfold Py.int, Py.strip, number4.
  cbn [Py.lstrip]. rewrite (isdigit_not_space a Ha).
  cbn [Py.rstrip]. rewrite (isdigit_not_space d Hd).
  cbn [Py.digits_value]. rewrite Ha, Hb, Hc, Hd.
  rewrite Nat.mul_0_r, Nat.add_0_l. reflexivity.
Qed.

Lemma div10 (q r : nat) : (r < 10)%nat -> ((10 * q + r) / 10 = q)%nat.
Proof. intros. symmetry. apply Nat.div_unique with (r := r); lia. Qed.

Lemma mod10 (q r : nat) : (r < 10)%nat -> ((10 * q + r) mod 10 = r)%nat.
Proof. intros. symmetry. apply Nat.mod_unique with (q := q); lia. Qed.

Lemma pad4_number4 (a b c d : ascii) :
  Py.isdigit a = true -> Py.isdigit b = true ->
  Py.isdigit c = true -> Py.isdigit d = true ->
  pad4 (number4 a b c d) = String a (String b (String c (String d ""))).
Proof.
  intros Ha Hb Hc Hd.
  destruct (digit_of_value a Ha) as [Ea La], (digit_of_value b Hb) as [Eb Lb],
           (digit_of_value c Hc) as [Ec Lc], (digit_of_value d Hd) as [Ed Ld].
  unfold pad4, pad2, number4.
  set (va := Py.digit_value a) in *. set (vb := Py.digit_value b) in *.
  set (vc := Py.digit_value c) in *. set (vd := Py.digit_value d) in *.
  replace 1000%nat with (10 * (10 * 10))%nat by reflexivity.
  replace 100%nat with (10 * 10)%nat by reflexivity.
  rewrite <- !Nat.Div0.div_div.
  rewrite !div10, !mod10 by assumption.
  rewrite (Nat.mod_small va 10) by assumption.
  now rewrite Ea, Eb, Ec, Ed.
Qed.

Lemma maxyear_eq : 9999%nat = (9 * 1111)%nat.
Proof. reflexivity. Qed.

Lemma number4_bound (a b c d : ascii) :
  Py.isdigit a = true -> Py.isdigit b = true ->
  Py.isdigit c = true -> Py.isdigit d = true ->
  (number4 a b c d <= 9999)%nat.
Proof.
  intros Ha Hb Hc Hd.
  destruct (digit_of_value a Ha) as [_ La], (digit_of_value b Hb) as [_ Lb],
           (digit_of_value c Hc) as [_ Lc], (digit_of_value d Hd) as [_ Ld].
  unfold number4. rewrite maxyear_eq. lia.
Qed.

Ltac range_cases H :=
  match type of H with
  | in_range ?lo ?hi ?c = true =>
      let n := fresh "n" in
      let Hn := fresh "Hn" in
      first
        [ apply (@in_range_digit 0 2) in H as (n & Hn & ->); [|lia]
        | apply (@in_range_digit 1 9) in H as (n & Hn & ->); [|lia]
        | apply (@in_range_digit 0 1) in H as (n & Hn & ->); [|lia]
        | apply (@in_range_digit 1 2) in H as (n & Hn & ->); [|lia] ];
      enum n
  end.

Ltac word_done :=
  eexists; split; [reflexivity | split; [cbv; tauto | cbv; lia]].

(** The words of the month group are the spellings of the months. *)
Lemma month_word (wm : string) :
  Re.lang re_m wm ->
  exists m, Py.int wm = Ok m /\ In wm (month_words m) /\ (1 <= m <= 12)%nat.
Proof.
  unfold re_m. cbn [Re.lang].
  intros [(w1 & w2 & -> & -> & (c & -> & Hc))
         |[(w1 & w2 & -> & -> & (c & -> & Hc))
          |(c & -> & Hc)]]; range_cases Hc; word_done.
Qed.

(** The words of the day group are the spellings of the days 1 to 31. *)
Lemma day_word (wd : string) :
  Re.lang re_d wd ->
  exists d, Py.int wd = Ok d /\ In wd (day_words d) /\ (1 <= d <= 31)%nat.
Proof.
  unfold re_d. cbn [Re.lang].
  intros [(w1 & w2 & -> & -> & (c & -> & Hc))
         |[(w1 & w2 & -> & (c & -> & Hc) & (c' & -> & Hc'))
          |[(w1 & w2 & -> & -> & (c & -> & Hc))
           |[(c & -> & Hc)
            |(w1 & w2 & -> & -> & (c & -> & Hc))]]]].
  - range_cases Hc; word_done.
  - apply isdigit_digit in Hc' as (n' & Hn' & ->).
    range_cases Hc; enum n'; word_done.
  - range_cases Hc; word_done.
  - range_cases Hc; word_done.
  - range_cases Hc; word_done.
Qed.

Lemma year_word (wy : string) :
  Re.lang re_Y wy ->
  exists a b c d,
    wy = String a (String b (String c (String d ""))) /\
    Py.isdigit a = true /\ Py.isdigit b = true /\
    Py.isdigit c = true /\ Py.isdigit d = true.
Proof.
  unfold re_Y. cbn [Re.lang].
  intros (w1 & w2 & -> & (a & -> & Ha) & w3 & w4 & -> & (b & -> & Hb)
          & w5 & w6 & -> & (c & -> & Hc) & (d & -> & Hd)).
  exists a, b, c, d. auto.
Qed.

Lemma date_ok (y m d : nat) (dt : datetime) :
  date y m d = Ok dt ->
  dt = mkdatetime y m d /\ valid_date y m d.
Proof.
  unfold date, valid_date, MINYEAR, MAXYEAR.
  destruct ((1 <=? y) && (y <=? 9999))%nat eqn:Ey; [|discriminate].
  destruct ((1 <=? m) && (m <=? 12))%nat eqn:Em; [|discriminate].
  destruct ((1 <=? d) && (d <=? days_in_month y m))%nat eqn:Ed; [|discriminate].
  cbn [negb]. intros [= <-].
  apply andb_true_iff in Ey as [Y1 Y2], Em as [M1 M2], Ed as [D1 D2].
  apply Nat.leb_le in Y1, Y2, M1, M2, D1, D2. auto 10.
Qed.

Lemma date_valid (y m d : nat) :
  valid_date y m d -> date y m d = Ok (mkdatetime y m d).
Proof.
  unfold date, valid_date, MINYEAR, MAXYEAR.
  intros ([Y1 Y2] & [M1 M2] & [D1 D2]).
  apply Nat.leb_le in Y1, Y2, M1, M2, D1, D2.
  now rewrite Y1, Y2, M1, M2, D1, D2.
Qed.

(** What [strptime] accepts is a date in one of the spellings. *)
Lemma strptime_sound (s : string) (dt : datetime) :
  strptime (Some s) = Ok dt ->
  reads_as s (year dt) (month dt) (day dt).
Proof.
  unfold strptime, Re.match_, format_regex.
  destruct (rmatch _ s [] _) as [[end_ found]|] eqn:E; [|discriminate].
  rewrite ReFacts.rmatch_seq in E. unfold re_Y at 1 in E.
  apply ReFacts.rmatch_group_sound in E as (wy & s1 & -> & Ly & E);
    [|reflexivity].
  rewrite ReFacts.rmatch_seq in E.
  apply ReFacts.rmatch_lit in E as (s2 & -> & E).
  rewrite ReFacts.rmatch_seq in E. unfold re_m at 1 in E.
  apply ReFacts.rmatch_group_sound in E as (wm & s3 & -> & Lm & E);
    [|reflexivity].
  rewrite ReFacts.rmatch_seq in E.
  apply ReFacts.rmatch_lit in E as (s4 & -> & E).
  unfold re_d at 1 in E.
  apply ReFacts.rmatch_group_sound in E as (wd & s5 & -> & Ld & E);
    [|reflexivity].
  injection E as <- <-.
  destruct (String.length _ =? _)%nat eqn:El; [|discriminate].
  cbn [negb group String.eqb Ascii.eqb Bool.eqb].
  apply Nat.eqb_eq in El.
  assert (s5 = "") as ->.
  { apply PyFacts.length_zero. revert El.
    rewrite !PyFacts.length_append. simpl. rewrite !PyFacts.length_append.
    simpl. rewrite !PyFacts.length_append. lia. }
  change (Re.lang re_Y wy) in Ly.
  change (Re.lang re_m wm) in Lm.
  change (Re.lang re_d wd) in Ld.
  apply year_word in Ly as (a & b & c & d & -> & Ha & Hb & Hc & Hd).
  apply month_word in Lm as (m & Im & Wm & Hm).
  apply day_word in Ld as (dd & Id & Wd & Hdd).
  rewrite (int_digits4 a b c d Ha Hb Hc Hd), Im, Id. cbn [bind].
  intros Hdate. apply date_ok in Hdate as [-> Hv]. cbn [year month day].
  split; [assumption|]. exists wm, wd. split; [assumption|].
  split; [assumption|]. rewrite (pad4_number4 a b c d Ha Hb Hc Hd).
  rewrite PyFacts.append_nil_r. reflexivity.
Qed.

(** The matcher on a date in one of the spellings. *)
Lemma match_reads (a b c d : ascii) (m dd : nat) (wm wd : string) :
  Py.isdigit a = true -> Py.isdigit b = true ->
  Py.isdigit c = true -> Py.isdigit d = true ->
  (1 <= m <= 12)%nat -> (1 <= dd <= 31)%nat ->
  In wm (month_words m) -> In wd (day_words dd) ->
  let wy := String a (String b (String c (String d ""))) in
  let s := (wy ++ "-" ++ wm ++ "-" ++ wd)%string in
  Re.match_ format_regex s
  = Some (String.length s, [("d", wd); ("m", wm); ("Y", wy)])
  /\ Py.int wm = Ok m /\ Py.int wd = Ok dd.
Proof.
  intros Ha Hb Hc Hd Hm Hdd Wm Wd wy s. subst wy s.
  unfold Re.match_, format_regex. rewrite ReFacts.rmatch_seq.
  unfold re_Y. cbn [rmatch append]. rewrite Ha, Hb, Hc, Hd.
  clear Ha Hb Hc Hd.
  enum m; enum dd;
    cbv in Wm, Wd;
    repeat match goal with
           | H : _ \/ _ |- _ => destruct H as [H|H]
           | H : False |- _ => destruct H
           end;
    subst wm wd; repeat split; reflexivity.
Qed.

Lemma pad4_digits (y : nat) :
  (y <= 9999)%nat ->
  exists a b c d,
    pad4 y = String a (String b (String c (String d ""))) /\
    Py.isdigit a = true /\ Py.isdigit b = true /\
    Py.isdigit c = true /\ Py.isdigit d = true /\
    number4 a b c d = y.
Proof.
  intros Hy. rewrite maxyear_eq in Hy. unfold pad4, pad2.
  assert (B : forall n, (n mod 10 < 10)%nat)
    by (intros; apply Nat.mod_upper_bound; lia).
  do 4 eexists. split; [reflexivity|].
  repeat (split; [apply digit_isdigit, B|]).
  unfold number4. rewrite !digit_value_digit by apply B.
  assert (D1 : (y / 100 = y / 10 / 10)%nat)
    by (rewrite Nat.Div0.div_div; reflexivity).
  assert (D2 : (y / 1000 = y / 10 / 10 / 10)%nat)
    by (rewrite !Nat.Div0.div_div; reflexivity).
  assert (y / 1000 < 10)%nat by (apply Nat.Div0.div_lt_upper_bound; lia).
  rewrite (Nat.mod_small (y / 1000)) by assumption.
  rewrite D2 in *. rewrite D1.
  pose proof (Nat.div_mod_eq y 10) as E0.
  pose proof (Nat.div_mod_eq (y / 10) 10) as E1.
  pose proof (Nat.div_mod_eq (y / 10 / 10) 10) as E2.
  set (q1 := (y / 10)%nat) in *. set (q2 := (q1 / 10)%nat) in *.
  set (q3 := (q2 / 10)%nat) in *.
  set (r0 := (y mod 10)%nat) in *. set (r1 := (q1 mod 10)%nat) in *.
  set (r2 := (q2 mod 10)%nat) in *.
  clearbody q1 q2 q3 r0 r1 r2. lia.
Qed.

(** A date in one of the spellings is accepted, with its three numbers. *)
Lemma strptime_complete (s : string) (y m d : nat) :
  reads_as s y m d -> strptime (Some s) = Ok (mkdatetime y m d).
Proof.
  intros (Hv & wm & wd & Wm & Wd & ->).
  pose proof Hv as ([Y1 Y2] & Hm & [D1 D2]).
  assert (d <= 31)%nat.
  { etransitivity; [exact D2|]. unfold days_in_month.
    destruct (is_leap y); enum m; lia. }
  destruct (pad4_digits Y2) as (a & b & c & dd & -> & Ha & Hb & Hc & Hd & Ey).
  destruct (@match_reads a b c dd m d wm wd) as (Em & Im & Id); auto.
  unfold strptime. rewrite Em, Nat.eqb_refl.
  cbn [negb group String.eqb Ascii.eqb Bool.eqb].
  rewrite (int_digits4 a b c dd Ha Hb Hc Hd), Im, Id, Ey. cbn [bind].
  now apply date_valid.
Qed.

Lemma iso_reads_as (y m d : nat) :
  valid_date y m d -> reads_as (iso_date y m d) y m d.
Proof.
  intros Hv. split; [assumption|]. exists (pad2 m), (pad2 d).
  unfold month_words, day_words, iso_date. simpl; auto.
Qed.

(** Either the string is a date in one of the spellings, or [strptime]
    raises. *)
Lemma strptime_cases (s : string) :
  (exists y m d, reads_as s y m d /\ strptime (Some s) = Ok (mkdatetime y m d))
  \/ ((forall y m d, ~ reads_as s y m d) /\ exists e, strptime (Some s) = Raise e).
Proof.
  destruct (strptime (Some s)) as [dt|e] eqn:E.
  - left. pose proof (strptime_sound _ E) as Hr.
    exists (year dt), (month dt), (day dt). split; [assumption|].
    now destruct dt.
  - right. split; [|eauto]. intros y m d Hr.
    apply strptime_complete in Hr. congruence.
Qed.

Lemma fmt_02d_pad2 (m : nat) : (m <= 12)%nat -> Py.fmt_02d m = pad2 m.
Proof. intros; enum m; reflexivity. Qed.

End DateFacts.

(* ===================================================================== *)
(** * The formatting helpers: [format_date], [format_period_monthyear] *)
(* ===================================================================== *)

Section FormatHelpers.

Import Datetime DateSpec DateFacts.

Example format_date_padded : format_date (Some "2025-05-01") = "1.5.2025".
Proof. reflexivity. Qed.

Example format_date_leap_day : format_date (Some "2024-02-29") = "29.2.2024".
Proof. reflexivity. Qed.

Example format_date_no_such_day : format_date (Some "2025-02-29") = "2025-02-29".
Proof. reflexivity. Qed.

Example format_date_text_left_over :
  format_date (Some "2025-05-011") = "2025-05-011".
Proof. reflexivity. Qed.

Example format_date_year_zero : format_date (Some "0000-01-01") = "0000-01-01".
Proof. reflexivity. Qed.

Example format_date_space_for_zero : format_date (Some "2025-05- 1") = "1.5.2025".
Proof. reflexivity. Qed.

Example format_date_empty : format_date (Some "") = "".
Proof. reflexivity. Qed.

Example format_period_padded :
  format_period_monthyear (Some "2025-05-01") (Some "2025-05-31") = "05/2025".
Proof. reflexivity. Qed.

Lemma valid_2025_05_01 : valid_date 2025 5 1.
Proof. repeat split; apply Nat.leb_le; reflexivity. Qed.

Lemma reads_2025_5_1 : reads_as "2025-5-1" 2025 5 1.
Proof.
  split; [exact valid_2025_05_01|]. exists "5", "1". simpl. auto.
Qed.

Lemma not_a_date_abc : forall y m d, ~ reads_as "abc" y m d.
Proof.
  intros y m d (_ & wm & wd & _ & _ & E). unfold pad4, pad2 in E.
  discriminate E.
Qed.

Lemma unpadded_is_not_iso : forall y m d, "2025-5-1" <> iso_date y m d.
Proof.
  intros y m d E. apply (f_equal String.length) in E. discriminate E.
Qed.







End FormatHelpers.

(* ===================================================================== *)
(** * Facts about the element tree *)
(* ===================================================================== *)

Module ETFacts.
Import ET.

Lemma iter_self (e : Element) : In e (iter e).
Proof. destruct e; simpl; auto. Qed.

Lemma iter_eq (e : Element) : iter e = e :: descendants e.
Proof. destruct e; reflexivity. Qed.

Lemma descendants_iter (a b : Element) :
  In b (descendants a) -> In b (iter a).
Proof. rewrite iter_eq; simpl; auto. Qed.

(** What is below an element below [a] is below [a]. *)
Lemma descendants_trans (a : Element) :
  forall b c, In b (descendants a) -> In c (descendants b) ->
              In c (descendants a).
Proof.
  induction a as [t at_ x cs IH] using Element_ind'.
  intros b c Hb Hc. unfold descendants in *. cbn [children] in *.
  apply in_flat_map in Hb as (k & Hk & Hb). apply in_flat_map.
  exists k. split; [assumption|].
  rewrite iter_eq in Hb |- *. destruct Hb as [<-|Hb].
  - right. exact Hc.
  - right. rewrite Forall_forall in IH. apply (IH k Hk b c Hb Hc).
Qed.

Lemma findall_cons (e : Element) (name : string) (path : list string) :
  findall e (name :: path)
  = fold_left (fun result n => select_descendant n result) path
      (filter (fun x => tag_matches name (tag x)) (descendants e)).
Proof.
  unfold findall. cbn [fold_left]. unfold select_descendant at 2.
  cbn [flat_map]. now rewrite app_nil_r.
Qed.

Lemma select_descendant_below (a : Element) (name : string) (l : list Element) :
  (forall b, In b l -> In b (descendants a)) ->
  forall c, In c (select_descendant name l) -> In c (descendants a).
Proof.
  intros Hl c Hc. unfold select_descendant in Hc.
  apply in_flat_map in Hc as (b & Hb & Hc). apply filter_In in Hc as [Hc _].
  eapply descendants_trans; eauto.
Qed.

Lemma fold_select_below (a : Element) (path : list string) :
  forall l, (forall b, In b l -> In b (descendants a)) ->
  forall c, In c (fold_left (fun r n => select_descendant n r) path l) ->
            In c (descendants a).
Proof.
  induction path as [|n path IH]; intros l Hl c Hc; cbn [fold_left] in Hc.
  - auto.
  - eapply IH; [|exact Hc]. intros b Hb.
    eapply select_descendant_below; eauto.
Qed.

(** What a path with at least one step finds is below the element. *)
Lemma findall_below (a : Element) (name : string) (path : list string) :
  forall c, In c (findall a (name :: path)) -> In c (descendants a).
Proof.
  intros c Hc. rewrite findall_cons in Hc.
  eapply fold_select_below; [|exact Hc].
  intros b Hb. now apply filter_In in Hb as [Hb _].
Qed.

Lemma find_below (a : Element) (name : string) (path : list string) (c : Element) :
  find a (name :: path) = Some c -> In c (descendants a).
Proof.
  unfold find. intros Hc. apply (findall_below a name path).
  destruct (findall a (name :: path)); [discriminate|].
  injection Hc as ->. now left.
Qed.

(** Without children nothing is found. *)
Lemma findall_leaf (t : string) (a : list (string * string)) (x : option string)
    (name : string) (path : list string) :
  findall (mkElement t a x []) (name :: path) = [].
Proof.
  rewrite findall_cons. cbn. induction path; cbn; auto.
Qed.

End ETFacts.

Import ETFacts.

(* ===================================================================== *)
(** * The extractor: [parse_invoice_data] *)
(* ===================================================================== *)

Lemma fold_left_snoc (A B : Type) (f : A -> B) (l : list A) (acc : list B) :
  fold_left (fun r x => r ++ [f x]) l acc = acc ++ map f l.
Proof.
  revert acc; induction l as [|a l IH]; intros acc; cbn.
  - now rewrite app_nil_r.
  - rewrite IH, <- app_assoc. reflexivity.
Qed.

Lemma parse_items_map (xml_root : Element) :
  parse_items xml_root = map parse_line (findall xml_root ["InvoiceLine"]).
Proof. unfold parse_items. now rewrite fold_left_snoc. Qed.

Lemma add_document_spec (docs : list Document.t) (docref : Element) :
  add_document docs docref
  = docs ++ (if carries_id_or_description docref
             then [document_entry docref] else []).
Proof.
  unfold add_document, carries_id_or_description, document_entry.
  destruct (find docref ["ID"]), (find docref ["DocumentDescription"]);
    try reflexivity.
  now rewrite app_nil_r.
Qed.

Lemma parse_additional_documents_filter (xml_root : Element) :
  parse_additional_documents xml_root
  = map document_entry
      (filter carries_id_or_description
         (findall xml_root ["AdditionalDocumentReference"])).
Proof.
  unfold parse_additional_documents.
  enough (G : forall l acc,
             fold_left add_document l acc
             = acc ++ map document_entry (filter carries_id_or_description l))
    by (rewrite G; reflexivity).
  induction l as [|r l IH]; intros acc; cbn [fold_left filter map].
  - now rewrite app_nil_r.
  - rewrite IH, add_document_spec.
    destruct (carries_id_or_description r); cbn [map];
      rewrite <- ?app_assoc, ?app_nil_r; reflexivity.
Qed.

Lemma text_at_from (line x : Element) (n : string) (p : list string) :
  x = line \/ In x (descendants line) ->
  from_below line (text_at x (n :: p)).
Proof.
  intros Hx v Hv. unfold text_at in Hv.
  destruct (find x (n :: p)) as [e|] eqn:E; [|discriminate].
  apply find_below in E. exists e. split; [|left; assumption].
  destruct Hx as [->|Hx]; [assumption|].
  eapply descendants_trans; eauto.
Qed.

Lemma attr_at_from (line x : Element) (n : string) (p : list string)
    (key : string) :
  x = line \/ In x (descendants line) ->
  from_below line (attr_at x (n :: p) key).
Proof.
  intros Hx v Hv. unfold attr_at in Hv.
  destruct (find x (n :: p)) as [e|] eqn:E; [|discriminate].
  apply find_below in E. exists e. split; [|right; eauto].
  destruct Hx as [->|Hx]; [assumption|].
  eapply descendants_trans; eauto.
Qed.

Lemma text_in_from (line : Element) (o : option Element) (n : string)
    (p : list string) :
  (forall x, o = Some x -> In x (descendants line)) ->
  from_below line (text_in o (n :: p)).
Proof.
  intros Ho. destruct o as [x|]; cbn [text_in].
  - apply text_at_from. right. now apply Ho.
  - intros v Hv. discriminate.
Qed.

Lemma from_below_None (line : Element) : from_below line None.
Proof. intros v Hv. discriminate. Qed.

(** Every value of the record of a line is held by an element below it. *)
Lemma parse_line_from_below (line : Element) :
  Forall (from_below line) (item_fields (parse_line line)).
Proof.
  unfold item_fields, parse_line, parse_tax_category.
  cbn [Item.id Item.quantity Item.quantity_unit Item.line_extension_amount
       Item.item_name Item.tax_category Item.price_amount Item.price_currency
       Item.base_quantity Item.base_quantity_unit
       TaxCategory.id TaxCategory.percent TaxCategory.scheme_id].
  assert (I : forall x, find line ["Item"] = Some x -> In x (descendants line))
    by (intros x; apply find_below).
  assert (P : forall x, find line ["Price"] = Some x -> In x (descendants line))
    by (intros x; apply find_below).
  assert (C : forall x,
             match find line ["Item"] with
             | Some root_item => find root_item ["ClassifiedTaxCategory"]
             | None => None
             end = Some x -> In x (descendants line)).
  { intros x Hx. destruct (find line ["Item"]) as [ri|] eqn:E; [|discriminate].
    apply find_below in Hx. eapply descendants_trans; eauto. }
  repeat constructor;
    try (apply text_at_from; left; reflexivity);
    try (apply attr_at_from; left; reflexivity);
    try (apply text_in_from; assumption).
  - destruct (find line ["Price"]) as [pr|] eqn:E.
    + apply attr_at_from. right. now apply P.
    + apply from_below_None.
  - destruct (find line ["Price"]) as [pr|] eqn:E.
    + apply attr_at_from. right. now apply P.
    + apply from_below_None.
Qed.

Lemma parse_invoice_data_items (xml_root : Element) (data : InvoiceData) :
  parse_invoice_data xml_root = Ok data ->
  items data = parse_items xml_root
  /\ additional_documents data = parse_additional_documents xml_root.
Proof.
  unfold parse_invoice_data. destruct (parse_note xml_root); cbn [bind].
  - intros [= <-]. split; reflexivity.
  - discriminate.
Qed.

(** The extractor raises only on a note without text. *)
Lemma parse_invoice_data_total (xml_root : Element) :
  (forall elem, find xml_root ["Note"] = Some elem -> text elem <> None) ->
  exists data, parse_invoice_data xml_root = Ok data.
Proof.
  intros Hn. unfold parse_invoice_data, parse_note.
  destruct (find xml_root ["Note"]) as [elem|]; cbn [bind]; [|eauto].
  specialize (Hn elem eq_refl). destruct (text elem); [|congruence].
  cbn [bind]. eauto.
Qed.

(** C1.  The extractor is meant never to raise, and for every field but the
    note it does not.  For the note it calls [strip] on the text of the
    element, and an empty <Note/> has no text: on the well-formed document
    <Invoice><Note/></Invoice> the extractor raises an [AttributeError]
    and returns no model. *)
Theorem parse_invoice_data_empty_note_raises :
  parse_invoice_data invoice_with_empty_note = Raise AttributeError.
Proof. reflexivity. Qed.

(** C8.  For a document that is a root element and nothing else, whatever
    its tag, attributes and text, the extractor raises nothing and returns
    the model in which every scalar field is [None], the start and the end
    of the invoice period are [None], and the items and the additional
    documents are empty. *)
Theorem parse_invoice_data_only_root :
  forall tag attrib text,
    parse_invoice_data (only_root tag attrib text) = Ok empty_model.
Proof. reflexivity. Qed.

(** C6, amended.  The record of a line item is made from what is below its
    [InvoiceLine]: the items are the records of the [InvoiceLine]
    elements, in document order; every value in the record of a line
    (name, quantity, unit, amounts, tax category, price) is the text or an
    attribute of an element below that line; so a value that no element
    below a line holds, such as the name of a line that is not inside it,
    is nowhere in the record of that line.  A line inside another line is
    below it: the two are not kept apart. *)
Theorem items_scoped (xml_root : Element) (data : InvoiceData) :
  parse_invoice_data xml_root = Ok data ->
  items data = map parse_line (findall xml_root ["InvoiceLine"])
  /\ (forall line, Forall (from_below line) (item_fields (parse_line line)))
  /\ (forall line v,
        (forall e, In e (descendants line) -> ~ holds e v) ->
        ~ In (Some v) (item_fields (parse_line line))).
Proof.
  intros Hp. apply parse_invoice_data_items in Hp as [-> _].
  split; [apply parse_items_map|]. split; [apply parse_line_from_below|].
  intros line v Hnone Hin.
  pose proof (parse_line_from_below line) as Hf.
  rewrite Forall_forall in Hf.
  destruct (Hf _ Hin v eq_refl) as (e & He & Hh).
  exact (Hnone e He Hh).
Qed.

(* ===================================================================== *)
(** * The attachment extractor: [extract_attachments] *)
(* ===================================================================== *)

Section AttachmentFacts.

Context {F : Floats} {R : Reportlab F} {B : Base64}.

Lemma extract_one_spec (output_dir base_name : string)
    (attachments : list string) (w : World) (ie : nat * Element) :
  let o := (fst ie, outcome_of output_dir base_name (fst ie) (snd ie)) in
  extract_one output_dir base_name (attachments, w) ie
  = (attachments ++ written_path o,
     {| files := files w ++ written_file o;
        stdout := stdout w ++ printed_line o |}).
Proof.
  destruct ie as [idx elem], w as [fs out].
  unfold extract_one, outcome_of, written_path, written_file, printed_line,
    attachment_name, print, write_file.
  cbn [fst snd files stdout].
  destruct (text elem) as [[|a enc]|]; cbn [snd fst];
    rewrite ?app_nil_r; try reflexivity.
  destruct (b64decode (String a enc)); cbn [snd fst];
    rewrite ?app_nil_r; reflexivity.
Qed.

Lemma extract_loop_spec (output_dir base_name : string)
    (l : list (nat * Element)) :
  forall (attachments : list string) (w : World),
    let os :=
      map (fun ie => (fst ie, outcome_of output_dir base_name (fst ie) (snd ie)))
          l in
    fold_left (extract_one output_dir base_name) l (attachments, w)
    = (attachments ++ flat_map written_path os,
       {| files := files w ++ flat_map written_file os;
          stdout := stdout w ++ flat_map printed_line os |}).
Proof.
  induction l as [|ie l IH]; intros attachments w; cbn [fold_left map flat_map].
  - destruct w. cbn. now rewrite !app_nil_r.
  - rewrite extract_one_spec. cbv zeta. rewrite IH. cbv zeta.
    cbn [files stdout]. now rewrite <- !app_assoc.
Qed.

Lemma enumerate_fst (A : Type) (n : nat) (l : list A) :
  map fst (enumerate n l) = seq n (List.length l).
Proof.
  unfold enumerate. revert n; induction l as [|a l IH]; intros n; cbn.
  - reflexivity.
  - now rewrite IH.
Qed.

Lemma enumerate_snd (A : Type) (n : nat) (l : list A) :
  map snd (enumerate n l) = l.
Proof.
  unfold enumerate. revert n; induction l as [|a l IH]; intros n; cbn.
  - reflexivity.
  - now rewrite IH.
Qed.

(** C2.  [extract_attachments] numbers the elements whose tag ends with
    EmbeddedDocumentBinaryObject 1, 2, ... in document order, whatever
    becomes of them.  An element without text writes and prints nothing; one
    whose text does not decode writes nothing and prints a diagnostic, and
    the loop goes on; every other one is written to
    <output_dir>/<base_name>_Anhang<number>.pdf under its own number.  The
    list returned is the list of the paths written, in that order. *)
Theorem extract_attachments_spec (xml_root : Element)
    (output_dir base_name : string) (w : World) :
  let os := outcomes output_dir base_name xml_root in
  let r := extract_attachments xml_root output_dir base_name w in
  map fst os = seq 1 (List.length (embedded_objects xml_root))
  /\ fst r = flat_map written_path os
  /\ files (snd r) = files w ++ flat_map written_file os
  /\ map fst (flat_map written_file os) = fst r
  /\ stdout (snd r)
     = stdout w ++ flat_map printed_line os
       ++ match flat_map written_path os with
          | [] => ["Kein PDF-Anhang gefunden."]
          | _ => []
          end.
Proof.
  cbv zeta. unfold outcomes, extract_attachments.
  fold (embedded_objects xml_root).
  rewrite extract_loop_spec. cbv zeta. cbn [app].
  set (os := map _ (enumerate 1 (embedded_objects xml_root))).
  assert (P : map fst (flat_map written_file os) = flat_map written_path os).
  { clear. induction os as [|[i [| |]] os IH]; cbn; congruence. }
  split.
  { subst os. rewrite map_map. cbn [fst]. apply enumerate_fst. }
  destruct (flat_map written_path os) eqn:E; cbn [fst snd files stdout print];
    rewrite ?app_nil_r; repeat split; try reflexivity; try assumption.
  now rewrite <- app_assoc.
Qed.

End AttachmentFacts.

(* ===================================================================== *)
(** * The renderer: [create_invoice_pdf] *)
(* ===================================================================== *)

Section CanvasFacts.

Context {F : Floats} {R : Reportlab F}.

Local Open Scope float_scope.

Lemma emit_emits (c : Canvas) (o : op) : emit c o = emits c [o].
Proof. reflexivity. Qed.

Lemma emits_emits (c : Canvas) (a b : list op) :
  emits (emits c a) b = emits c (a ++ b).
Proof. unfold emits; cbn. now rewrite app_assoc. Qed.

Lemma emits_nil (c : Canvas) : emits c [] = c.
Proof. destruct c; unfold emits; cbn. now rewrite app_nil_r. Qed.

Lemma extends_refl (c : Canvas) : extends c c.
Proof. exists []. now rewrite emits_nil. Qed.

Lemma extends_trans (a b c : Canvas) : extends a b -> extends b c -> extends a c.
Proof.
  intros [x ->] [y ->]. exists (x ++ y). apply emits_emits.
Qed.

Lemma extends_emit (c c' : Canvas) (o : op) : extends c c' -> extends c (emit c' o).
Proof.
  intros H. eapply extends_trans; [exact H|]. exists [o]. apply emit_emits.
Qed.

Lemma extends_setFont (c c' : Canvas) (n : string) (s : nat) :
  extends c c' -> extends c (setFont c' n s).
Proof. apply extends_emit. Qed.

Lemma extends_drawString (c c' : Canvas) (x y : float) (t : string) :
  extends c c' -> extends c (drawString c' x y t).
Proof. apply extends_emit. Qed.

Lemma extends_draw_footer (c c' : Canvas) (w : float) :
  extends c c' -> extends c (draw_footer c' w).
Proof.
  intros H. unfold draw_footer. cbv zeta.
  now apply extends_drawString, extends_setFont.
Qed.

Lemma header_emits (c : Canvas) (d : InvoiceData) (L : nat) :
  header c width height d L = emits c (header_code d L).
Proof.
  unfold header_code, header, draw_header. cbv zeta.
  unfold setFont, drawString. rewrite !emit_emits, !emits_emits.
  reflexivity.
Qed.

Lemma extends_header (c c' : Canvas) (d : InvoiceData) (L : nat) :
  extends c c' -> extends c (header c' width height d L).
Proof.
  intros H. eapply extends_trans; [exact H|]. eexists. apply header_emits.
Qed.

End CanvasFacts.

(** Peel the drawing operations off a canvas expression. *)
Ltac extends_tac :=
  repeat first
    [ apply extends_refl
    | apply extends_drawString
    | apply extends_setFont
    | apply extends_draw_footer
    | apply extends_header ].

Arguments Py.take : simpl never.
Arguments Py.drop : simpl never.

Section NoteFacts.

Context {F : Floats} {R : Reportlab F}.

Local Open Scope float_scope.

Lemma draw_lines_app (cy : Canvas * float) (a b : list string) :
  draw_lines cy (a ++ b) = draw_lines (draw_lines cy a) b.
Proof. apply fold_left_app. Qed.

(** The loop of [create_invoice_pdf] draws all pieces but the last. *)
Lemma wrap_loop_chunks (c : Canvas) (y : float) (text : string) :
  draw_line (fst (wrap_loop c y text)) (snd (wrap_loop c y text))
  = draw_lines (c, y) (chunks80 text).
Proof.
  funelim (wrap_loop c y text); simp chunks80; rewrite Heq; cbn.
  - reflexivity.
  - rewrite H. reflexivity.
Qed.

Lemma draw_note_paragraph_lines (cy : Canvas * float) (ln : string) :
  draw_note_paragraph cy ln = draw_lines cy (paragraph_lines ln).
Proof.
  destruct cy as [c y]. unfold draw_note_paragraph, paragraph_lines.
  destruct (Py.strip ln) as [|a t] eqn:E; [reflexivity|].
  rewrite <- wrap_loop_chunks.
  destruct (wrap_loop c y (String a t)) as [[c' y'] t']. reflexivity.
Qed.

Lemma draw_note_lines (cy : Canvas * float) (d : InvoiceData) :
  draw_note cy d = draw_lines cy (note_lines (Py.or_ (note d) "")).
Proof.
  unfold draw_note, note_lines. cbv zeta.
  generalize (Py.split "|" (Py.or_ (note d) "")). intros ps. revert cy.
  induction ps as [|p ps IH]; intros cy; cbn [fold_left flat_map].
  - reflexivity.
  - rewrite IH, draw_lines_app, draw_note_paragraph_lines. reflexivity.
Qed.

Lemma draw_lines_extends (cy : Canvas * float) (lines : list string) :
  extends (fst cy) (fst (draw_lines cy lines)).
Proof.
  unfold draw_lines.
  revert cy. induction lines as [|l lines IH]; intros cy; cbn [fold_left].
  - apply extends_refl.
  - eapply extends_trans; [|apply IH]. cbn [draw_line fst].
    apply extends_drawString, extends_refl.
Qed.

Lemma draw_lines_cursor (cy : Canvas * float) (lines : list string) :
  snd (draw_lines cy lines) = down (snd cy) (map (fun _ => 5%Z) lines).
Proof.
  unfold draw_lines, down.
  revert cy. induction lines as [|l lines IH]; intros cy; cbn [fold_left map].
  - reflexivity.
  - rewrite IH. reflexivity.
Qed.

(** The pieces of a text: together they are the text, none is longer than
    80 characters, and all but the last have 80 characters.  *)
Lemma chunks80_not_nil (paragraph : string) : chunks80 paragraph <> [].
Proof. funelim (chunks80 paragraph); discriminate. Qed.

Lemma chunks80_concat (paragraph : string) :
  String.concat "" (chunks80 paragraph) = paragraph.
Proof.
  funelim (chunks80 paragraph).
  - reflexivity.
  - cbn [String.concat].
    destruct (chunks80 (Py.drop 80 paragraph)) as [|p ps] eqn:E.
    + now apply chunks80_not_nil in E.
    + rewrite H. apply PyFacts.take_drop.
Qed.

Lemma chunks80_lengths (paragraph : string) :
  paragraph <> "" ->
  Forall (fun l => (1 <= String.length l <= 80)%nat) (chunks80 paragraph)
  /\ Forall (fun l => String.length l = 80%nat) (removelast (chunks80 paragraph)).
Proof.
  funelim (chunks80 paragraph); intros Hne.
  - split; [|constructor]. constructor; [|constructor].
    split; [|assumption]. destruct paragraph; [congruence|cbn; lia].
  - assert (Hd : Py.drop 80 paragraph <> "").
    { intros E. apply (f_equal String.length) in E.
      rewrite PyFacts.drop_length in E. cbn in E. lia. }
    destruct (H Hd) as [H1 H2].
    assert (Ht : String.length (Py.take 80 paragraph) = 80%nat)
      by (rewrite PyFacts.take_length; lia).
    split.
    + constructor; [lia | assumption].
    + cbn [removelast].
      destruct (chunks80 (Py.drop 80 paragraph)) as [|p ps] eqn:E.
      * now apply chunks80_not_nil in E.
      * constructor; assumption.
Qed.

End NoteFacts.

Section PageFacts.

Context {F : Floats} {R : Reportlab F}.

Local Open Scope float_scope.

Variable d : InvoiceData.

(** Page 1: the header with the number 1, the contents, then the page is
    shown. *)
Lemma draw_page1_shape (c : Canvas) :
  exists body,
    draw_page1 c width height d = showPage (emits c (header_code d 1 ++ body)).
Proof.
  unfold draw_page1. cbv zeta.
  match goal with |- exists b, showPage ?X = _ =>
    assert (E : extends (header c width height d 1) X) by extends_tac
  end.
  destruct E as [ops ->]. rewrite header_emits, emits_emits. eauto.
Qed.

Lemma draw_page2_head_shape (c : Canvas) :
  exists body,
    draw_page2_head c width height d
    = (emits c (header_code d 2 ++ body), details_cursor d).
Proof.
  unfold draw_page2_head. cbv zeta.
  rewrite draw_note_lines.
  match goal with |- context [draw_lines ?cy ?ls] =>
    pose proof (draw_lines_extends cy ls) as E;
    pose proof (draw_lines_cursor cy ls) as Ey;
    destruct (draw_lines cy ls) as [c1 y1]
  end.
  cbn [fst snd] in E, Ey. subst y1.
  unfold details_cursor. cbv zeta.
  destruct (format_period_monthyear _ _) eqn:Ep.
  - match goal with |- exists b, (?X, _) = _ =>
      assert (E' : extends (header c width height d 2) X)
    end.
    { extends_tac. eapply extends_trans; [|exact E]. extends_tac. }
    destruct E' as [ops ->]. rewrite header_emits, emits_emits.
    eexists. reflexivity.
  - match goal with |- exists b, (?X, _) = _ =>
      assert (E' : extends (header c width height d 2) X)
    end.
    { extends_tac. eapply extends_trans; [|exact E]. extends_tac. }
    destruct E' as [ops ->]. rewrite header_emits, emits_emits.
    eexists. reflexivity.
Qed.

Lemma draw_page2_tail_shape (c : Canvas) (y : float) :
  exists ops, draw_page2_tail c y width d = showPage (emits c ops).
Proof.
  unfold draw_page2_tail. cbv zeta.
  match goal with |- exists b, showPage ?X = _ =>
    assert (E : extends c X) by extends_tac
  end.
  destruct E as [ops ->]. eauto.
Qed.

Lemma draw_page3_head_shape (c : Canvas) :
  exists body,
    draw_page3_head c width height d
    = (emits c (header_code d 3 ++ body), documents_cursor).
Proof.
  unfold draw_page3_head. cbv zeta.
  match goal with |- exists b, (?X, _) = _ =>
    assert (E : extends (header c width height d 3) X) by extends_tac
  end.
  destruct E as [ops ->]. rewrite header_emits, emits_emits.
  eexists. reflexivity.
Qed.

Lemma draw_item_shape :
  round_shape d (draw_item width height d) item_steps (60 *mm) 2.
Proof.
  intros c y idx itm. unfold draw_item. cbv zeta.
  change (down y item_steps)
    with (y - 6 *mm - 6 *mm - 5 *mm - 5 *mm - 5 *mm - 5 *mm - 5 *mm
          - 5 *mm - 5 *mm - 8 *mm - 6 *mm - 8 *mm - 5 *mm).
  split; intros ->.
  - match goal with |- exists b, (header (showPage ?X) _ _ _ _, _, _) = _ =>
      assert (E : extends c X) by extends_tac
    end.
    destruct E as [ops ->]. rewrite header_emits. eexists. reflexivity.
  - match goal with |- exists b, (?X, _, _) = _ =>
      assert (E : extends c X) by extends_tac
    end.
    destruct E as [ops ->]. eexists. reflexivity.
Qed.

Lemma draw_document_shape (base_fn : string) :
  round_shape d (draw_document width height d base_fn) document_steps (50 *mm) 3.
Proof.
  intros c y idx doc. unfold draw_document. cbv zeta.
  change (down y document_steps)
    with (y - 5 *mm - 5 *mm - 5 *mm - 5 *mm - 10 *mm).
  split; intros ->.
  - match goal with |- exists b, (header (showPage ?X) _ _ _ _, _, _) = _ =>
      assert (E : extends c X) by extends_tac
    end.
    destruct E as [ops ->]. rewrite header_emits. eexists. reflexivity.
  - match goal with |- exists b, (?X, _, _) = _ =>
      assert (E : extends c X) by extends_tac
    end.
    destruct E as [ops ->]. eexists. reflexivity.
Qed.

(** ** The pages shown so far and the page that is being drawn *)

Variable path : string.

Lemma open_emits (labels : list nat) (L : nat) (c : Canvas) (ops : list op) :
  open_page d path labels L c -> open_page d path labels L (emits c ops).
Proof.
  intros [Hs [body Hc]]. split; [exact Hs|].
  exists (body ++ ops). unfold emits. cbn [code]. rewrite Hc.
  now rewrite app_assoc.
Qed.

Lemma closed_header (labels : list nat) (L : nat) (c : Canvas) (body : list op) :
  closed d path labels c -> open_page d path labels L (emits c (header_code d L ++ body)).
Proof.
  intros [Hs Hc]. split; [exact Hs|]. exists body. unfold emits. cbn [code].
  now rewrite Hc.
Qed.

Lemma open_showPage (labels : list nat) (L : nat) (c : Canvas) :
  open_page d path labels L c -> closed d path (labels ++ [L]) (showPage c).
Proof.
  intros [[Hf Hs] Hc]. split; [|reflexivity]. split; [exact Hf|].
  unfold showPage. cbn [pages].
  apply Forall2_app; [exact Hs|]. constructor; [exact Hc|constructor].
Qed.

Lemma repeat_snoc (A : Type) (x : A) (n : nat) :
  repeat x n ++ [x] = x :: repeat x n.
Proof. induction n; cbn; congruence. Qed.

(** A loop with page breaks: the pages it shows all carry the header of the
    number [L], one page for each break. *)
Lemma loop_pages (A : Type)
    (body : Canvas * float * nat -> A -> Canvas * float * nat)
    (steps : list Z) (limit : float) (L : nat) :
  round_shape d body steps limit L ->
  forall (l : list A) (c : Canvas) (y : float) (idx : nat) (labels : list nat),
    open_page d path labels L c ->
    exists c' y',
      fold_left body l (c, y, idx) = (c', y', (idx + List.length l)%nat)
      /\ open_page d path
           (labels ++ repeat L (overflow (breaks steps limit y (List.length l))))
           L c'.
Proof.
  intros Hb l. induction l as [|a l IH]; intros c y idx labels Ho.
  - exists c, y. cbn. rewrite Nat.add_0_r, app_nil_r. auto.
  - cbn [fold_left List.length breaks].
    destruct (Hb c y idx a) as [Ht Hf].
    destruct (down y steps <? limit) eqn:E.
    + destruct (Ht eq_refl) as [ops ->].
      destruct (IH (emits (showPage (emits c ops)) (header_code d L)) top
                   (idx + 1)%nat (labels ++ [L])) as (c' & y' & -> & Ho').
      { rewrite <- (app_nil_r (header_code d L)).
        apply closed_header, open_showPage, open_emits, Ho. }
      exists c', y'. split; [f_equal; lia|].
      unfold overflow in *. cbn [filter id List.length repeat].
      now rewrite <- app_assoc in Ho'.
    + destruct (Hf eq_refl) as [ops ->].
      destruct (IH (emits c ops) (down y steps) (idx + 1)%nat labels)
        as (c' & y' & -> & Ho').
      { apply open_emits, Ho. }
      exists c', y'. split; [f_equal; lia|]. exact Ho'.
Qed.

End PageFacts.

Section InvoiceFacts.

Context {F : Floats} {R : Reportlab F}.

Local Open Scope float_scope.

Lemma draw_invoice_eq (d : InvoiceData) (path : string) :
  draw_invoice d path =
  let c := new_Canvas path A4 in
  let c := draw_page1 c width height d in
  let cy := draw_page2_head c width height d in
  let st := fold_left (draw_item width height d) (items d)
                      (fst cy, snd cy, 1%nat) in
  let c := draw_page2_tail (fst (fst st)) (snd (fst st)) width d in
  let cy := draw_page3_head c width height d in
  let base_fn := os_path.splitext_root (os_path.basename path) in
  let st := fold_left (draw_document width height d base_fn)
                      (additional_documents d) (fst cy, snd cy, 1%nat) in
  showPage (draw_footer (fst (fst st)) width).
Proof.
  unfold draw_invoice, A4. cbv zeta.
  change (fst (210 *mm, 297 *mm)) with (210 *mm).
  unfold width, height, A4. cbn [fst snd].
  destruct (draw_page2_head _ _ _ _) as [c2 y2]. cbn [fst snd].
  destruct (fold_left _ _ _) as [[c3 y3] i3]. cbn [fst snd].
  destruct (draw_page3_head _ _ _ _) as [c4 y4]. cbn [fst snd].
  destruct (fold_left _ _ _) as [[c5 y5] i5]. reflexivity.
Qed.

(** The pages of the invoice: every page begins with the header of its
    number, and the numbers are those of [page_labels]. *)
Lemma draw_invoice_pages (d : InvoiceData) (path : string) :
  closed d path (page_labels d) (draw_invoice d path).
Proof.
  rewrite draw_invoice_eq. cbv zeta.
  destruct (draw_page1_shape d (new_Canvas path A4)) as [b1 ->].
  assert (C1 : closed d path [1%nat]
                 (showPage (emits (new_Canvas path A4) (header_code d 1 ++ b1)))).
  { apply (@open_showPage _ _ d path []), closed_header.
    split; [|reflexivity]. split; [reflexivity|constructor]. }
  destruct (draw_page2_head_shape d
              (showPage (emits (new_Canvas path A4) (header_code d 1 ++ b1))))
    as [b2 ->]. cbn [fst snd].
  destruct (loop_pages (draw_item_shape d) (items d) (details_cursor d)
              1%nat (closed_header 2 b2 C1))
    as (c3 & y3 & -> & O3). cbn [fst snd].
  destruct (draw_page2_tail_shape d c3 y3) as [b3 ->].
  pose proof (open_showPage (open_emits b3 O3)) as C3.
  destruct (draw_page3_head_shape d (showPage (emits c3 b3))) as [b4 ->].
  cbn [fst snd].
  destruct (loop_pages
              (draw_document_shape d
                 (os_path.splitext_root (os_path.basename path)))
              (additional_documents d) documents_cursor
              1%nat (closed_header 3 b4 C3))
    as (c5 & y5 & -> & O5). cbn [fst snd].
  assert (E : extends c5 (draw_footer c5 width)) by extends_tac.
  destruct E as [ops ->].
  pose proof (open_showPage (open_emits ops O5)) as C5.
  unfold page_labels, item_breaks, document_breaks.
  cbn [Nat.add repeat]. rewrite <- !repeat_snoc.
  repeat rewrite <- app_assoc in C5. repeat rewrite <- app_assoc.
  exact C5.
Qed.

End InvoiceFacts.

Section RendererTheorems.

Context {F : Floats} {R : Reportlab F}.

Local Open Scope float_scope.

Lemma create_invoice_pdf_files (d : InvoiceData) (path : string) (w : World) :
  files (create_invoice_pdf d path w)
  = files w ++ [(path, Pdf (pages (draw_invoice d path)))].
Proof.
  destruct (draw_invoice_pages d path) as [[Hf _] Hc].
  unfold create_invoice_pdf, save, print, write_file. cbv zeta.
  rewrite Hc. cbn [files]. now rewrite Hf.
Qed.

Lemma length_repeat_app (bs2 bs3 : nat) :
  List.length ([1] ++ repeat 2 (1 + bs2) ++ repeat 3 (1 + bs3))%nat
  = (3 + bs2 + bs3)%nat.
Proof. cbn. rewrite length_app, !repeat_length. cbn. rewrite repeat_length. lia. Qed.

(** C3.  The file that [create_invoice_pdf] writes has three pages and one
    more for every line item after which the cursor is below 60 mm and for
    every additional document after which the cursor is below 50 mm: never
    fewer than three. *)
Theorem create_invoice_pdf_page_count (d : InvoiceData) (path : string)
    (w : World) :
  exists pgs,
    files (create_invoice_pdf d path w) = files w ++ [(path, Pdf pgs)]
    /\ List.length pgs
       = (3 + overflow (item_breaks d) + overflow (document_breaks d))%nat
    /\ (3 <= List.length pgs)%nat.
Proof.
  exists (pages (draw_invoice d path)).
  split; [apply create_invoice_pdf_files|].
  destruct (draw_invoice_pages d path) as [[_ Hp] _].
  apply Forall2_length in Hp. rewrite <- Hp. unfold page_labels.
  rewrite length_repeat_app. lia.
Qed.

(** C7.  Every page of the file begins with the header, and the header
    shows "Seite L / 3" with L the number of the logical page: 1 on the
    first page, 2 on the page of the payment details and on every page a
    break in the line items adds, 3 on the page of the documents and on
    every page a break in the documents adds. *)
Theorem create_invoice_pdf_page_headers (d : InvoiceData) (path : string)
    (w : World) :
  exists pgs,
    files (create_invoice_pdf d path w) = files w ++ [(path, Pdf pgs)]
    /\ Forall2 (carries_header d) (page_labels d) pgs
    /\ (forall L,
          In (DrawString
                (width - 30 *mm - stringWidth (page_line L) "Helvetica" 9)
                (height - 20 *mm - of_int 6)
                (page_line L))
             (header_code d L)).
Proof.
  exists (pages (draw_invoice d path)).
  split; [apply create_invoice_pdf_files|].
  destruct (draw_invoice_pages d path) as [[_ Hp] _].
  split; [exact Hp|]. intros L. cbn. auto 10.
Qed.

Lemma paragraph_lines_lengths (ln : string) :
  Forall (fun l => (1 <= String.length l <= 80)%nat) (paragraph_lines ln).
Proof.
  unfold paragraph_lines. destruct (Py.strip ln) as [|a t] eqn:E.
  - constructor.
  - apply chunks80_lengths. discriminate.
Qed.

(** C9.  The note is cut at every [|]; a paragraph that is blank once the
    white space around it is removed draws nothing; every other paragraph
    is drawn, without that white space, in pieces of 80 characters followed
    by what is left, one line per piece, each line 5 mm below the one
    before.  No line of the note is longer than 80 characters (and none is
    empty). *)
Theorem note_wrapping (c : Canvas) (y : float) (d : InvoiceData) :
  let lines := note_lines (Py.or_ (note d) "") in
  draw_note (c, y) d = draw_lines (c, y) lines
  /\ Forall (fun l => (1 <= String.length l <= 80)%nat) lines
  /\ (forall text,
        text <> "" ->
        String.concat "" (chunks80 text) = text
        /\ Forall (fun l => String.length l = 80%nat)
                  (removelast (chunks80 text))).
Proof.
  cbv zeta. split; [apply draw_note_lines|]. split.
  - unfold note_lines. apply Forall_flat_map, Forall_forall.
    intros ln _. apply paragraph_lines_lengths.
  - intros text Hne. split; [apply chunks80_concat|].
    now apply chunks80_lengths.
Qed.

Lemma draw_document_block (w h : float) (d : InvoiceData) (base_fn : string)
    (c : Canvas) (y : float) (idx : nat) (doc : Document.t) :
  draw_document w h d base_fn (c, y, idx) doc
  = let c' := emits c (document_block base_fn y idx doc) in
    let y' := down y document_steps in
    if y' <? 50 *mm
    then (header (showPage (draw_footer c' w)) w h d 3, h - 30 *mm, (idx + 1)%nat)
    else (c', y', (idx + 1)%nat).
Proof.
  unfold draw_document. cbv zeta. unfold drawString.
  rewrite !emit_emits, !emits_emits. reflexivity.
Qed.

Lemma documents_counter (w h : float) (d : InvoiceData) (base_fn : string)
    (docs : list Document.t) :
  forall c y idx,
    snd (fold_left (draw_document w h d base_fn) docs (c, y, idx))
    = (idx + List.length docs)%nat.
Proof.
  induction docs as [|doc docs IH]; intros c y idx; cbn [fold_left List.length].
  - cbn. lia.
  - rewrite draw_document_block. cbv zeta.
    destruct (_ <? _); rewrite IH; lia.
Qed.


End RendererTheorems.

(* ===================================================================== *)
(** * The program on the example inputs *)
(* ===================================================================== *)

Section Runs.

Import Examples.

#[local] Existing Instance exact.
#[local] Existing Instance exact_reportlab.
#[local] Existing Instance two_payloads.

Example two_lines_names :
  match parse_invoice_data two_lines with
  | Ok data => map Item.item_name (items data) = [Some "A"; Some "B"]
               /\ map Item.quantity_unit (items data) = [Some "HUR"; None]
  | Raise _ => False
  end.
Proof. split; reflexivity. Qed.

Lemma nothing_below_B_holds_A :
  forall e, In e (ET.descendants line_B) -> ~ holds e "A".
Proof.
  intros e He. cbn in He.
  destruct He as [<-|[<-|[<-|[]]]]; intros [H|[k H]]; discriminate H.
Qed.

Lemma items_scoped_witness :
  exists data,
    parse_invoice_data two_lines = Ok data
    /\ map Item.item_name (items data) = [Some "A"; Some "B"]
    /\ ~ In (Some "A") (item_fields (parse_line line_B)).
Proof.
  eexists. split; [reflexivity|].
  destruct (@items_scoped two_lines _ eq_refl) as (H1 & _ & H3).
  split.
  - rewrite H1. reflexivity.
  - apply H3. exact nothing_below_B_holds_A.
Defined.

(** C6, as the claim states it, fails: the document has two line items,
    the outer one with an [Item] of the name "outer" and the inner one
    with an [Item] of the name "inner", and the record of the outer line
    has the name of the inner one. *)
Lemma items_scoped_counterexample :
  exists data,
    parse_invoice_data nested_lines = Ok data
    /\ findall nested_lines ["InvoiceLine"] = [outer_line; inner_line]
    /\ In (elem "Item" None [elem "Name" (Some "outer") []])
          (children outer_line)
    /\ In (elem "Item" None [elem "Name" (Some "inner") []])
          (children inner_line)
    /\ map Item.item_name (items data) = [Some "inner"; Some "inner"].
Proof.
  eexists. split; [reflexivity|]. split; [reflexivity|].
  split; [right; right; left; reflexivity|].
  split; [right; left; reflexivity|reflexivity].
Qed.


Example four_objects_extracted :
  extract_attachments four_objects "out" "rechnung" (mkWorld [] [])
  = ( ["out/rechnung_Anhang2.pdf"; "out/rechnung_Anhang4.pdf"],
      {| files := [ ("out/rechnung_Anhang2.pdf", Bytes [Byte.x41]);
                    ("out/rechnung_Anhang4.pdf", Bytes [Byte.x42]) ];
         stdout :=
           [ "Anhang #2 gespeichert als: out/rechnung_Anhang2.pdf";
             "Fehler beim Dekodieren von Anhang #3: Incorrect padding";
             "Anhang #4 gespeichert als: out/rechnung_Anhang4.pdf" ] |} ).
Proof. reflexivity. Qed.

Example no_objects_found :
  extract_attachments two_lines "out" "rechnung" (mkWorld [] [])
  = ([], {| files := []; stdout := ["Kein PDF-Anhang gefunden."] |}).
Proof. reflexivity. Qed.

Example note_in_lines :
  note_lines
    (" erste Zeile || zweite |   | 0123456789012345678901234567890123456789"
     ++ "012345678901234567890123456789012345678901234567890123456789")
  = [ "erste Zeile"; "zweite";
      "0123456789012345678901234567890123456789"
      ++ "0123456789012345678901234567890123456789";
      "01234567890123456789" ]%string.
Proof. reflexivity. Qed.

Lemma note_wrapping_witness :
  draw_note (new_Canvas "out/rechnung.pdf" A4, top)
            (invoice (Some " a || b ") 0 0)
  = draw_lines (new_Canvas "out/rechnung.pdf" A4, top) ["a"; "b"]
  /\ String.concat "" (chunks80 "abc") = "abc".
Proof.
  destruct (note_wrapping (new_Canvas "out/rechnung.pdf" A4) top
              (invoice (Some " a || b ") 0 0)) as (H1 & _ & H3).
  split.
  - exact H1.
  - apply H3. discriminate.
Defined.

Example three_pages :
  page_lines (pages (draw_invoice (invoice None 1 5) "out/rechnung.pdf"))
  = ["Seite 1 / 3"; "Seite 2 / 3"; "Seite 3 / 3"].
Proof. vm_compute. reflexivity. Qed.

Example five_items_two_breaks :
  item_breaks (invoice None 5 0) = [false; true; false; false; true]
  /\ page_lines (pages (draw_invoice (invoice None 5 0) "out/rechnung.pdf"))
     = ["Seite 1 / 3"; "Seite 2 / 3"; "Seite 2 / 3"; "Seite 2 / 3";
        "Seite 3 / 3"].
Proof. split; vm_compute; reflexivity. Qed.

Example six_documents_one_break :
  overflow (document_breaks (invoice None 0 6)) = 1
  /\ page_lines (pages (draw_invoice (invoice None 0 6) "out/rechnung.pdf"))
     = ["Seite 1 / 3"; "Seite 2 / 3"; "Seite 3 / 3"; "Seite 3 / 3"].
Proof. split; vm_compute; reflexivity. Qed.

Example second_document_names :
  texts (fst (fst (draw_document width height (invoice None 0 2) "rechnung"
                     (new_Canvas "out/rechnung.pdf" A4, documents_cursor, 2)
                     no_document)))
  = [ "Kennung: 2"; "Beschreibung: ";
      "Anhangsdokument: rechnung_Anhang2.pdf";
      "Format des Anhangdokuments: application/pdf";
      "Name des Anhangdokuments: rechnung_Anhang2.pdf" ].
Proof. vm_compute. reflexivity. Qed.

End Runs.

(* ===================================================================== *)
(** * More facts about strings *)
(* ===================================================================== *)

Import ET ETFacts.

Module StringFacts.

Lemma contains_cons (c a : ascii) (s : string) :
  contains c (String a s) = Ascii.eqb c a || contains c s.
Proof. reflexivity. Qed.

Lemma contains_append (c : ascii) (s t : string) :
  contains c (s ++ t) = contains c s || contains c t.
Proof.
  induction s as [|a s IH]; [reflexivity|].
  cbn [append]. rewrite !contains_cons, IH. now rewrite orb_assoc.
Qed.

Lemma after_last_cons (c a : ascii) (p : string) :
  os_path.after_last c (String a p)
  = if contains c p then os_path.after_last c p
    else if Ascii.eqb a c then p else String a p.
Proof. reflexivity. Qed.

(** Without the character, all of the string is left. *)
Lemma after_last_absent (c : ascii) (s : string) :
  contains c s = false -> os_path.after_last c s = s.
Proof.
  destruct s as [|a s]; [reflexivity|].
  rewrite contains_cons, after_last_cons. intros H.
  apply orb_false_iff in H as [H1 H2]. rewrite H2.
  rewrite Ascii.eqb_sym, H1. reflexivity.
Qed.

(** What follows the last occurrence. *)
Lemma after_last_append (c : ascii) (t s : string) :
  contains c s = false ->
  os_path.after_last c (t ++ String c s) = s.
Proof.
  intros Hs. induction t as [|a t IH]; cbn [append]; rewrite after_last_cons.
  - now rewrite Hs, Ascii.eqb_refl.
  - rewrite contains_append, contains_cons, Ascii.eqb_refl, orb_true_r.
    exact IH.
Qed.

Lemma after_last_free (c : ascii) (p : string) :
  contains c (os_path.after_last c p) = false.
Proof.
  induction p as [|a p IH]; [reflexivity|]. rewrite after_last_cons.
  destruct (contains c p) eqn:E; [exact IH|].
  destruct (Ascii.eqb a c) eqn:Ea; [exact E|].
  rewrite contains_cons, E, Ascii.eqb_sym, Ea. reflexivity.
Qed.

(** A string with the character is cut in two at its last occurrence. *)
Lemma after_last_split (c : ascii) (p : string) :
  contains c p = true ->
  exists t, p = (t ++ String c (os_path.after_last c p))%string.
Proof.
  induction p as [|a p IH]; [discriminate|].
  rewrite contains_cons, after_last_cons. intros H.
  destruct (contains c p) eqn:E.
  - destruct (IH eq_refl) as [t Ht]. exists (String a t). cbn. now rewrite <- Ht.
  - rewrite orb_false_r in H. apply Ascii.eqb_eq in H. subst a.
    rewrite Ascii.eqb_refl. now exists "".
Qed.

Lemma after_last_idem (c : ascii) (p : string) :
  os_path.after_last c (os_path.after_last c p) = os_path.after_last c p.
Proof. apply after_last_absent, after_last_free. Qed.

Lemma endswith_split (p s : string) :
  Py.endswith p s = true -> exists t, s = (t ++ p)%string.
Proof.
  unfold Py.endswith. intros H. apply andb_true_iff in H as [_ H].
  apply String.eqb_eq in H.
  exists (Py.take (String.length s - String.length p) s).
  pose proof (PyFacts.take_drop (String.length s - String.length p) s) as E.
  rewrite H in E. now symmetry.
Qed.

Lemma drop_append (t p : string) : Py.drop (String.length t) (t ++ p) = p.
Proof.
  induction t as [|a t IH]; [destruct p; reflexivity|]. exact IH.
Qed.

Lemma endswith_append (t p : string) : Py.endswith p (t ++ p) = true.
Proof.
  unfold Py.endswith. rewrite PyFacts.length_append.
  apply andb_true_iff. split; [apply Nat.leb_le; lia|].
  replace (String.length t + String.length p - String.length p)%nat
    with (String.length t) by lia.
  rewrite drop_append. apply String.eqb_refl.
Qed.

Lemma append_cancel_l (p x y : string) : (p ++ x = p ++ y)%string -> x = y.
Proof. induction p; cbn; intros H; [exact H|]. injection H. auto. Qed.

Lemma append_cancel_r (x y s : string) : (x ++ s = y ++ s)%string -> x = y.
Proof.
  revert y. induction x as [|a x IH]; intros [|b y] H; cbn in H.
  - reflexivity.
  - apply (f_equal String.length) in H. cbn in H.
    rewrite PyFacts.length_append in H. lia.
  - apply (f_equal String.length) in H. cbn in H.
    rewrite PyFacts.length_append in H. lia.
  - injection H as -> H. f_equal. auto.
Qed.

End StringFacts.

(* ===================================================================== *)
(** * Namespaces *)
(* ===================================================================== *)

Import ET ETFacts StringFacts.

Module NamespaceFacts.

(** A step [{*}name] looks at the local name of a tag only. *)
Lemma tag_matches_local (name t : string) :
  contains "}" name = false ->
  tag_matches name t = String.eqb (local_name t) name.
Proof.
  intros Hn. unfold tag_matches, local_name.
  destruct (contains "}" t) eqn:E.
  - assert (Hne : String.eqb t name = false).
    { apply String.eqb_neq. intros ->. congruence. }
    rewrite Hne. cbn [orb].
    destruct (after_last_split "}" t E) as [u Hu].
    destruct (String.eqb (os_path.after_last "}" t) name) eqn:Ev.
    + apply String.eqb_eq in Ev. rewrite Ev in Hu. rewrite Hu.
      apply (endswith_append u (String "}" name)).
    + apply not_true_is_false. intros He.
      apply endswith_split in He as [x Hx].
      apply String.eqb_neq in Ev. apply Ev. rewrite Hx.
      now apply (after_last_append "}" x name).
  - rewrite (after_last_absent _ _ E).
    replace (Py.endswith ("}" ++ name) t) with false; [now rewrite orb_false_r|].
    symmetry. apply not_true_is_false. intros He.
    apply endswith_split in He as [x Hx]. rewrite Hx in E.
    rewrite contains_append in E. cbn in E. rewrite orb_true_r in E. discriminate.
Qed.

Lemma tag_matches_strip (name : string) (x : Element) :
  contains "}" name = false ->
  tag_matches name (tag (strip_namespaces x)) = tag_matches name (tag x).
Proof.
  intros Hn. rewrite !tag_matches_local by assumption.
  destruct x. cbn [strip_namespaces tag]. unfold local_name.
  now rewrite after_last_idem.
Qed.

Lemma text_strip (x : Element) : text (strip_namespaces x) = text x.
Proof. now destruct x. Qed.

Lemma get_strip (x : Element) (key : string) :
  get (strip_namespaces x) key = get x key.
Proof. now destruct x. Qed.

Lemma iter_strip (e : Element) :
  iter (strip_namespaces e) = map strip_namespaces (iter e).
Proof.
  induction e as [t a x cs IH] using Element_ind'.
  cbn [strip_namespaces iter map]. f_equal.
  induction cs as [|c cs IHcs]; [reflexivity|].
  inversion IH as [|? ? Hc Hcs]; subst.
  cbn [map flat_map]. rewrite map_app, Hc. f_equal. now apply IHcs.
Qed.

Lemma descendants_strip (e : Element) :
  descendants (strip_namespaces e) = map strip_namespaces (descendants e).
Proof.
  pose proof (iter_strip e) as H. rewrite !iter_eq in H. cbn [map] in H.
  now injection H.
Qed.

Lemma filter_map_comm (A B : Type) (f : B -> bool) (g : A -> B) (l : list A) :
  filter f (map g l) = map g (filter (fun x => f (g x)) l).
Proof.
  induction l as [|a l IH]; [reflexivity|]. cbn.
  destruct (f (g a)); cbn; now rewrite IH.
Qed.

Lemma select_descendant_strip (name : string) (l : list Element) :
  contains "}" name = false ->
  select_descendant name (map strip_namespaces l)
  = map strip_namespaces (select_descendant name l).
Proof.
  intros Hn. unfold select_descendant.
  induction l as [|e l IH]; [reflexivity|].
  cbn [map flat_map]. rewrite map_app, IH. f_equal.
  rewrite descendants_strip, filter_map_comm. f_equal.
  apply filter_ext. intros x. now apply tag_matches_strip.
Qed.

Lemma findall_strip (e : Element) (path : list string) :
  plain path = true ->
  findall (strip_namespaces e) path = map strip_namespaces (findall e path).
Proof.
  unfold findall. change [strip_namespaces e] with (map strip_namespaces [e]).
  generalize [e]. induction path as [|n path IH]; intros l Hp;
    cbn [fold_left]; [reflexivity|].
  cbn [plain forallb] in Hp. apply andb_true_iff in Hp as [Hn Hp].
  apply negb_true_iff in Hn.
  rewrite select_descendant_strip by assumption. now apply IH.
Qed.

Lemma find_strip (e : Element) (path : list string) :
  plain path = true ->
  find (strip_namespaces e) path = option_map strip_namespaces (find e path).
Proof.
  intros Hp. unfold find. rewrite findall_strip by assumption.
  now destruct (findall e path).
Qed.

Lemma text_at_strip (x : Element) (path : list string) :
  plain path = true ->
  text_at (strip_namespaces x) path = text_at x path.
Proof.
  intros Hp. unfold text_at. rewrite find_strip by assumption.
  destruct (find x path); cbn; [apply text_strip|reflexivity].
Qed.

Lemma attr_at_strip (x : Element) (path : list string) (key : string) :
  plain path = true ->
  attr_at (strip_namespaces x) path key = attr_at x path key.
Proof.
  intros Hp. unfold attr_at. rewrite find_strip by assumption.
  destruct (find x path); cbn; [apply get_strip|reflexivity].
Qed.

Lemma text_in_strip (o : option Element) (path : list string) :
  plain path = true ->
  text_in (option_map strip_namespaces o) path = text_in o path.
Proof.
  intros Hp. destruct o; cbn; [now apply text_at_strip|reflexivity].
Qed.

End NamespaceFacts.

Import ET ETFacts StringFacts NamespaceFacts.

Ltac strip_paths :=
  repeat first
    [ rewrite findall_strip by reflexivity
    | rewrite find_strip by reflexivity
    | rewrite text_at_strip by reflexivity
    | rewrite attr_at_strip by reflexivity
    | rewrite text_in_strip by reflexivity ].

Lemma parse_note_strip (r : Element) :
  parse_note (strip_namespaces r) = parse_note r.
Proof.
  unfold parse_note. strip_paths.
  destruct (find r ["Note"]); cbn [option_map]; [|reflexivity].
  now rewrite text_strip.
Qed.

Lemma add_document_strip (docs : list Document.t) (r : Element) :
  add_document docs (strip_namespaces r) = add_document docs r.
Proof.
  unfold add_document. strip_paths.
  destruct (find r ["ID"]), (find r ["DocumentDescription"]);
    cbn [option_map]; rewrite ?text_strip; reflexivity.
Qed.

Lemma fold_left_map (A B C : Type) (f : A -> C -> A) (g : B -> C)
    (l : list B) (a : A) :
  fold_left f (map g l) a = fold_left (fun x y => f x (g y)) l a.
Proof. revert a; induction l; cbn; auto. Qed.

Lemma fold_left_same (A B : Type) (f g : A -> B -> A) (l : list B) (a : A) :
  (forall x y, f x y = g x y) -> fold_left f l a = fold_left g l a.
Proof.
  intros H. revert a; induction l as [|b l IH]; intros a; cbn;
    [reflexivity|]. now rewrite H, IH.
Qed.

Lemma parse_additional_documents_strip (r : Element) :
  parse_additional_documents (strip_namespaces r) = parse_additional_documents r.
Proof.
  unfold parse_additional_documents. strip_paths. rewrite fold_left_map.
  apply fold_left_same. intros. apply add_document_strip.
Qed.

Lemma parse_tax_category_strip (o : option Element) :
  parse_tax_category (option_map strip_namespaces o) = parse_tax_category o.
Proof. unfold parse_tax_category. now strip_paths. Qed.

Lemma parse_supplier_strip (r : Element) :
  parse_supplier (strip_namespaces r) = parse_supplier r.
Proof.
  unfold parse_supplier. strip_paths.
  destruct (find r _) as [sup|]; cbn [option_map]; [|reflexivity].
  now strip_paths.
Qed.

Lemma parse_customer_strip (r : Element) :
  parse_customer (strip_namespaces r) = parse_customer r.
Proof.
  unfold parse_customer. strip_paths.
  destruct (find r _) as [cust|]; cbn [option_map]; [|reflexivity].
  now strip_paths.
Qed.

Lemma parse_payment_means_strip (r : Element) :
  parse_payment_means (strip_namespaces r) = parse_payment_means r.
Proof.
  unfold parse_payment_means. strip_paths.
  destruct (find r _) as [pay|]; cbn [option_map]; [|reflexivity].
  now strip_paths.
Qed.

Lemma parse_tax_total_strip (r : Element) :
  parse_tax_total (strip_namespaces r) = parse_tax_total r.
Proof.
  unfold parse_tax_total. strip_paths.
  destruct (find r _) as [tax|]; cbn [option_map]; [|reflexivity].
  strip_paths.
  destruct (find tax ["TaxSubtotal"]) as [subt|]; cbn [option_map];
    [|reflexivity].
  strip_paths.
  now rewrite (parse_tax_category_strip (find subt ["TaxCategory"])).
Qed.

Lemma parse_monetary_total_strip (r : Element) :
  parse_monetary_total (strip_namespaces r) = parse_monetary_total r.
Proof.
  unfold parse_monetary_total. strip_paths.
  destruct (find r _) as [mt|]; cbn [option_map]; [|reflexivity].
  now strip_paths.
Qed.

Lemma parse_line_strip (line : Element) :
  parse_line (strip_namespaces line) = parse_line line.
Proof.
  unfold parse_line. cbv zeta. strip_paths.
  destruct (find line ["Item"]) as [it|], (find line ["Price"]) as [pr|];
    cbn [option_map]; strip_paths;
    try rewrite (parse_tax_category_strip (find it ["ClassifiedTaxCategory"]));
    reflexivity.
Qed.

Lemma parse_items_strip (r : Element) :
  parse_items (strip_namespaces r) = parse_items r.
Proof.
  unfold parse_items. strip_paths. rewrite fold_left_map.
  apply fold_left_same. intros. now rewrite parse_line_strip.
Qed.

(** X1.  The extractor looks at local names only: the model of a document
    is the model of the same document with every namespace taken off its
    tags, so two documents that differ in their namespaces alone have the
    same model (or raise alike). *)
Theorem extraction_ignores_namespaces :
  (forall xml_root,
     parse_invoice_data (strip_namespaces xml_root) = parse_invoice_data xml_root)
  /\ (forall r r',
        strip_namespaces r = strip_namespaces r' ->
        parse_invoice_data r = parse_invoice_data r').
Proof.
  assert (H : forall r, parse_invoice_data (strip_namespaces r)
                        = parse_invoice_data r).
  { intros r. unfold parse_invoice_data. cbv zeta.
    rewrite parse_note_strip, parse_supplier_strip, parse_customer_strip,
      parse_payment_means_strip, parse_tax_total_strip,
      parse_monetary_total_strip, parse_items_strip,
      parse_additional_documents_strip.
    strip_paths. reflexivity. }
  split; [exact H|]. intros r r' E. rewrite <- (H r), <- (H r'). now rewrite E.
Qed.

Import ET ETFacts StringFacts NamespaceFacts.

Lemma endswith_local (p t : string) :
  contains "}" p = false ->
  Py.endswith p (local_name t) = Py.endswith p t.
Proof.
  intros Hp. unfold local_name. destruct (contains "}" t) eqn:E.
  - destruct (after_last_split "}" t E) as [u Hu].
    destruct (Py.endswith p (os_path.after_last "}" t)) eqn:Ev.
    + apply endswith_split in Ev as [x Hx]. rewrite Hx in Hu.
      symmetry. rewrite Hu.
      change (u ++ String "}" (x ++ p))%string
        with (u ++ (String "}" x ++ p))%string.
      rewrite <- PyFacts.append_assoc. apply endswith_append.
    + symmetry. apply not_true_is_false. intros He.
      apply endswith_split in He as [y Hy].
      assert (Ey : contains "}" y = true).
      { rewrite Hy, contains_append, Hp, orb_false_r in E. exact E. }
      destruct (after_last_split "}" y Ey) as [y1 Hy1].
      assert (Ef : contains "}" (os_path.after_last "}" y ++ p) = false)
        by (rewrite contains_append, after_last_free, Hp; reflexivity).
      assert (Et : os_path.after_last "}" t
                   = (os_path.after_last "}" y ++ p)%string).
      { rewrite Hy. rewrite Hy1 at 1. rewrite PyFacts.append_assoc.
        cbn [append]. now apply after_last_append. }
      rewrite Et, endswith_append in Ev. discriminate.
  - now rewrite (after_last_absent _ _ E).
Qed.

Section AttachmentNamespaces.

Context {F : Floats} {R : Reportlab F} {B : Base64}.

Lemma embedded_objects_strip (r : Element) :
  embedded_objects (strip_namespaces r)
  = map strip_namespaces (embedded_objects r).
Proof.
  unfold embedded_objects. rewrite iter_strip, filter_map_comm. f_equal.
  apply filter_ext. intros [t a x cs]. cbn [strip_namespaces tag].
  now apply endswith_local.
Qed.

Lemma enumerate_map (A A' : Type) (f : A -> A') (n : nat) (l : list A) :
  enumerate n (map f l) = map (fun ie => (fst ie, f (snd ie))) (enumerate n l).
Proof.
  unfold enumerate. rewrite length_map.
  revert n; induction l as [|a l IH]; intros n; cbn; [reflexivity|].
  now rewrite IH.
Qed.

Lemma extract_one_strip (output_dir base_name : string)
    (st : list string * World) (ie : nat * Element) :
  extract_one output_dir base_name st (fst ie, strip_namespaces (snd ie))
  = extract_one output_dir base_name st ie.
Proof.
  destruct st as [att w], ie as [idx e]. unfold extract_one. cbn [fst snd].
  now rewrite text_strip.
Qed.

(** X2.  [extract_attachments] looks at local names only: on the document
    with every namespace taken off its tags it returns the same paths,
    writes the same files and prints the same lines. *)
Theorem extract_attachments_ignores_namespaces (xml_root : Element)
    (output_dir base_name : string) (w : World) :
  extract_attachments (strip_namespaces xml_root) output_dir base_name w
  = extract_attachments xml_root output_dir base_name w.
Proof.
  unfold extract_attachments. cbv zeta.
  fold (embedded_objects (strip_namespaces xml_root)).
  fold (embedded_objects xml_root).
  rewrite embedded_objects_strip, enumerate_map, fold_left_map.
  rewrite (fold_left_same _ (extract_one output_dir base_name)); [reflexivity|].
  intros st ie. apply extract_one_strip.
Qed.

End AttachmentNamespaces.

(* ===================================================================== *)
(** * More about the renderer *)
(* ===================================================================== *)

Section UnreadFields.

Context {F : Floats} {R : Reportlab F}.

Local Open Scope float_scope.

(** ** Fields that are not read *)

Lemma draw_item_read_fields (w h : float) (d : InvoiceData)
    (st : Canvas * float * nat) (itm : Item.t) :
  draw_item w h (read_fields d) st (blank_item itm) = draw_item w h d st itm.
Proof. destruct st as [[c y] idx]. reflexivity. Qed.

Lemma draw_document_read_fields (w h : float) (d : InvoiceData)
    (base_fn : string) (st : Canvas * float * nat) (doc : Document.t) :
  draw_document w h (read_fields d) base_fn st doc
  = draw_document w h d base_fn st doc.
Proof. destruct st as [[c y] idx]. reflexivity. Qed.

Lemma draw_invoice_read_fields (d : InvoiceData) (path : string) :
  draw_invoice (read_fields d) path = draw_invoice d path.
Proof.
  rewrite !draw_invoice_eq. cbv zeta.
  change (draw_page1 (new_Canvas path A4) width height (read_fields d))
    with (draw_page1 (new_Canvas path A4) width height d).
  set (c1 := draw_page1 (new_Canvas path A4) width height d).
  change (draw_page2_head c1 width height (read_fields d))
    with (draw_page2_head c1 width height d).
  set (cy2 := draw_page2_head c1 width height d).
  change (items (read_fields d)) with (map blank_item (items d)).
  rewrite fold_left_map.
  rewrite (fold_left_same _ (draw_item width height d))
    by (intros; apply draw_item_read_fields).
  set (st3 := fold_left (draw_item width height d) (items d) _).
  change (draw_page2_tail (fst (fst st3)) (snd (fst st3)) width (read_fields d))
    with (draw_page2_tail (fst (fst st3)) (snd (fst st3)) width d).
  set (c4 := draw_page2_tail _ _ width d).
  change (draw_page3_head c4 width height (read_fields d))
    with (draw_page3_head c4 width height d).
  change (additional_documents (read_fields d)) with (additional_documents d).
  rewrite (fold_left_same _ (draw_document width height d
             (os_path.splitext_root (os_path.basename path))))
    by (intros; apply draw_document_read_fields).
  reflexivity.
Qed.

(** X3.  [create_invoice_pdf] does not read the endpoint ids of the two
    parties, the payment id, the tax schemes, or the id and the price
    currency of an item: with these fields blanked it writes the same file
    and prints the same line. *)
Theorem create_invoice_pdf_unread_fields (d : InvoiceData) (path : string)
    (w : World) :
  create_invoice_pdf (read_fields d) path w = create_invoice_pdf d path w.
Proof.
  unfold create_invoice_pdf. now rewrite draw_invoice_read_fields.
Qed.

End UnreadFields.

Section Footers.

Context {F : Floats} {R : Reportlab F}.

Local Open Scope float_scope.

(** ** The footer *)

Lemma footer_emits (c : Canvas) (w : float) :
  draw_footer c w = emits c footer_code.
Proof.
  unfold footer_code, draw_footer. cbv zeta. unfold setFont, drawString.
  rewrite !emit_emits, !emits_emits. reflexivity.
Qed.

Lemma footed_extends (c c' : Canvas) : extends c c' -> footed c -> footed c'.
Proof. intros [ops ->] H. exact H. Qed.

Lemma footed_showPage (c : Canvas) (w : float) :
  footed c -> footed (showPage (draw_footer c w)).
Proof.
  intros H. rewrite footer_emits. unfold footed, showPage, emits.
  cbn [pages code]. apply Forall_app. split; [exact H|].
  constructor; [|constructor]. now exists (code c).
Qed.

Lemma draw_page1_footed (d : InvoiceData) (c : Canvas) :
  footed c -> footed (draw_page1 c width height d).
Proof.
  intros H. unfold draw_page1. cbv zeta. apply footed_showPage.
  apply (@footed_extends c); [extends_tac|exact H].
Qed.

Lemma draw_page2_tail_footed (d : InvoiceData) (c : Canvas) (y : float) :
  footed c -> footed (draw_page2_tail c y width d).
Proof.
  intros H. unfold draw_page2_tail. cbv zeta. apply footed_showPage.
  apply (@footed_extends c); [extends_tac|exact H].
Qed.

Lemma draw_item_footed (d : InvoiceData) (st : Canvas * float * nat)
    (itm : Item.t) :
  footed (fst (fst st)) ->
  footed (fst (fst (draw_item width height d st itm))).
Proof.
  destruct st as [[c y] idx]. cbn [fst]. intros H.
  unfold draw_item. cbv zeta. destruct (_ <? _); cbn [fst].
  - match goal with |- footed (header (showPage (draw_footer ?X _)) _ _ _ _) =>
      apply (@footed_extends (showPage (draw_footer X width)));
        [extends_tac|apply footed_showPage]
    end.
    apply (@footed_extends c); [extends_tac|exact H].
  - apply (@footed_extends c); [extends_tac|exact H].
Qed.

Lemma draw_document_footed (d : InvoiceData) (base_fn : string)
    (st : Canvas * float * nat) (doc : Document.t) :
  footed (fst (fst st)) ->
  footed (fst (fst (draw_document width height d base_fn st doc))).
Proof.
  destruct st as [[c y] idx]. cbn [fst]. intros H.
  unfold draw_document. cbv zeta. destruct (_ <? _); cbn [fst].
  - match goal with |- footed (header (showPage (draw_footer ?X _)) _ _ _ _) =>
      apply (@footed_extends (showPage (draw_footer X width)));
        [extends_tac|apply footed_showPage]
    end.
    apply (@footed_extends c); [extends_tac|exact H].
  - apply (@footed_extends c); [extends_tac|exact H].
Qed.

Lemma fold_footed (A : Type)
    (body : Canvas * float * nat -> A -> Canvas * float * nat) :
  (forall st a, footed (fst (fst st)) -> footed (fst (fst (body st a)))) ->
  forall l st, footed (fst (fst st)) -> footed (fst (fst (fold_left body l st))).
Proof.
  intros Hb l. induction l as [|a l IH]; intros st H; cbn [fold_left]; auto.
Qed.

Lemma draw_invoice_footed (d : InvoiceData) (path : string) :
  footed (draw_invoice d path).
Proof.
  rewrite draw_invoice_eq. cbv zeta. apply footed_showPage.
  apply fold_footed; [intros; now apply draw_document_footed|]. cbn [fst].
  destruct (draw_page3_head_shape d
              (draw_page2_tail
                 (fst (fst (fold_left (draw_item width height d) (items d)
                    (fst (draw_page2_head
                            (draw_page1 (new_Canvas path A4) width height d)
                            width height d),
                     snd (draw_page2_head
                            (draw_page1 (new_Canvas path A4) width height d)
                            width height d), 1%nat))))
                 (snd (fst (fold_left (draw_item width height d) (items d)
                    (fst (draw_page2_head
                            (draw_page1 (new_Canvas path A4) width height d)
                            width height d),
                     snd (draw_page2_head
                            (draw_page1 (new_Canvas path A4) width height d)
                            width height d), 1%nat))))
                 width d)) as [b4 ->].
  cbn [fst]. apply (footed_extends (ex_intro _ _ eq_refl)).
  apply draw_page2_tail_footed.
  apply fold_footed; [intros; now apply draw_item_footed|]. cbn [fst].
  destruct (draw_page2_head_shape d
              (draw_page1 (new_Canvas path A4) width height d)) as [b2 ->].
  cbn [fst]. apply (footed_extends (ex_intro _ _ eq_refl)).
  apply draw_page1_footed. constructor.
Qed.

End Footers.

Section PagesAndItems.

Context {F : Floats} {R : Reportlab F}.

Local Open Scope float_scope.

(** X4.  Every page of the file that [create_invoice_pdf] writes ends with
    the footer: the font Helvetica-Oblique 7 and the notice at 30 mm from
    the left and 15 mm from the bottom. *)
Theorem create_invoice_pdf_page_footers (d : InvoiceData) (path : string)
    (w : World) :
  exists pgs,
    files (create_invoice_pdf d path w) = files w ++ [(path, Pdf pgs)]
    /\ Forall carries_footer pgs
    /\ footer_code
       = [ SetFont "Helvetica-Oblique" 7;
           DrawString 30 *mm 15 *mm
             ("* Wichtig: Dieses Dokument ist eine automatisch generierte "
              ++ "Zusammenfassung der E-Rechnung, es ersetzt nicht die "
              ++ "Originaldatei!")%string ].
Proof.
  exists (pages (draw_invoice d path)).
  split; [apply create_invoice_pdf_files|].
  split; [apply draw_invoice_footed|reflexivity].
Qed.

Lemma overflow_le (bs : list bool) : (overflow bs <= List.length bs)%nat.
Proof. unfold overflow. apply filter_length_le. Qed.

Lemma breaks_length (steps : list Z) (limit y : float) (n : nat) :
  List.length (breaks steps limit y n) = n.
Proof.
  revert y. induction n as [|n IH]; intros y; cbn [breaks]; [reflexivity|].
  cbv zeta. destruct (_ <? _); cbn [List.length]; now rewrite IH.
Qed.

(** X5.  The file has at least three pages and at most one more page for
    every line item and every additional document. *)
Theorem create_invoice_pdf_page_bound (d : InvoiceData) (path : string)
    (w : World) :
  exists pgs,
    files (create_invoice_pdf d path w) = files w ++ [(path, Pdf pgs)]
    /\ (3 <= List.length pgs
        <= 3 + List.length (items d) + List.length (additional_documents d))%nat.
Proof.
  exists (pages (draw_invoice d path)).
  split; [apply create_invoice_pdf_files|].
  destruct (draw_invoice_pages d path) as [[_ Hp] _].
  apply Forall2_length in Hp. rewrite <- Hp. unfold page_labels.
  rewrite length_repeat_app.
  pose proof (overflow_le (item_breaks d)) as H1.
  pose proof (overflow_le (document_breaks d)) as H2.
  assert (L1 : List.length (item_breaks d) = List.length (items d))
    by apply breaks_length.
  assert (L2 : List.length (document_breaks d)
               = List.length (additional_documents d))
    by apply breaks_length.
  lia.
Qed.

Lemma draw_item_heading (w h : float) (d : InvoiceData) (c : Canvas)
    (y : float) (idx : nat) (itm : Item.t) :
  exists ops,
    draw_item w h d (c, y, idx) itm
    = let c' := emits c (item_heading y idx ++ ops) in
      let y' := down y item_steps in
      if y' <? 60 *mm
      then (header (showPage (draw_footer c' w)) w h d 2, h - 30 *mm,
            (idx + 1)%nat)
      else (c', y', (idx + 1)%nat).
Proof.
  eexists. unfold draw_item. cbv zeta. unfold setFont, drawString.
  rewrite !emit_emits, !emits_emits. unfold item_heading. cbn [app].
  reflexivity.
Qed.

Lemma items_counter (w h : float) (d : InvoiceData) (its : list Item.t) :
  forall c y idx,
    snd (fold_left (draw_item w h d) its (c, y, idx))
    = (idx + List.length its)%nat.
Proof.
  induction its as [|itm its IH]; intros c y idx; cbn [fold_left List.length].
  - cbn. lia.
  - destruct (draw_item_heading w h d c y idx itm) as [ops ->]. cbv zeta.
    destruct (_ <? _); rewrite IH; lia.
Qed.


End PagesAndItems.

(* ===================================================================== *)
(** * Paths *)
(* ===================================================================== *)

Module PathFacts.

Import StringFacts.

Lemma str_inj (i j : nat) : Py.str i = Py.str j -> i = j.
Proof.
  unfold Py.str. intros H.
  apply (f_equal NilEmpty.uint_of_string) in H.
  rewrite !NilEmpty.usu in H. injection H as H.
  apply (f_equal Nat.of_uint) in H.
  now rewrite !DecimalNat.Unsigned.of_to in H.
Qed.

Lemma join_inj (a b1 b2 : string) :
  Py.startswith "/" b1 = Py.startswith "/" b2 ->
  os_path.join a b1 = os_path.join a b2 -> b1 = b2.
Proof.
  unfold os_path.join. intros ->.
  destruct (Py.startswith "/" b2); [auto|].
  destruct (_ || _); intros H; apply append_cancel_l in H; [auto|].
  now injection H.
Qed.

Lemma startswith_slash (base t u : string) :
  Py.startswith "/" t = Py.startswith "/" u ->
  Py.startswith "/" (base ++ t) = Py.startswith "/" (base ++ u).
Proof. destruct base as [|a base]; [auto|reflexivity]. Qed.

Lemma startswith_contains (c : ascii) (s : string) :
  Py.startswith (String c "") s = true -> contains c s = true.
Proof.
  destruct s as [|a s]; [discriminate|]. cbn [Py.startswith].
  rewrite contains_cons. intros H. apply andb_true_iff in H as [-> _].
  reflexivity.
Qed.

Lemma contains_take (c : ascii) (n : nat) (s : string) :
  contains c s = false -> contains c (Py.take n s) = false.
Proof.
  revert n. induction s as [|a s IH]; intros [|n] H; try reflexivity.
  change (Py.take (S n) (String a s)) with (String a (Py.take n s)).
  rewrite contains_cons in H. rewrite contains_cons.
  apply orb_false_iff in H as [-> H]. now rewrite IH.
Qed.

Lemma contains_splitext_root (c : ascii) (p : string) :
  contains c p = false -> contains c (os_path.splitext_root p) = false.
Proof.
  intros H. unfold os_path.splitext_root. cbv zeta.
  destruct (_ && _); [now apply contains_take|exact H].
Qed.

(** [basename] undoes [join] on a name without a slash. *)
Lemma basename_join (a b : string) :
  contains "/" b = false -> os_path.basename (os_path.join a b) = b.
Proof.
  intros H. unfold os_path.basename, os_path.join.
  destruct (Py.startswith "/" b) eqn:S.
  { apply startswith_contains in S. congruence. }
  destruct (String.eqb a "") eqn:E; cbn [orb].
  { apply String.eqb_eq in E as ->. now apply after_last_absent. }
  destruct (Py.endswith "/" a) eqn:E'.
  - apply endswith_split in E' as [t ->].
    rewrite PyFacts.append_assoc. now apply after_last_append.
  - now apply after_last_append.
Qed.

(** [splitext] takes the extension off again, unless the name is made of
    dots. *)
Lemma splitext_root_pdf (base : string) :
  os_path.splitext_root (base ++ ".pdf")
  = if os_path.all_dots base then (base ++ ".pdf")%string else base.
Proof.
  unfold os_path.splitext_root. cbv zeta.
  change (base ++ ".pdf")%string with (base ++ String "." "pdf")%string at 1.
  rewrite after_last_append by reflexivity.
  replace (String.length (base ++ ".pdf") - String.length "pdf" - 1)%nat
    with (String.length (base ++ ".pdf") - String.length ".pdf")%nat
    by (cbn [String.length]; lia).
  rewrite PyFacts.take_append.
  fold (contains "." (base ++ ".pdf")). rewrite contains_append.
  replace (contains "." ".pdf") with true by reflexivity.
  rewrite orb_true_r. cbn [andb]. now destruct (os_path.all_dots base).
Qed.

Lemma basename_free (p : string) :
  contains "/" (os_path.splitext_root (os_path.basename p)) = false.
Proof. apply contains_splitext_root, after_last_free. Qed.

Section Paths.

Context {F : Floats} {R : Reportlab F} {B : Base64}.

Variables output_dir base_name : string.

Lemma attachment_path_inj (i j : nat) :
  attachment_path output_dir base_name i
  = attachment_path output_dir base_name j ->
  i = j.
Proof.
  unfold attachment_path, attachment_name. intros H.
  apply join_inj in H; [|apply startswith_slash; reflexivity].
  apply append_cancel_l in H.
  apply (@append_cancel_l "_Anhang") in H.
  apply append_cancel_r in H. now apply str_inj.
Qed.

Lemma attachment_path_not_pdf (i : nat) :
  attachment_path output_dir base_name i
  <> os_path.join output_dir (base_name ++ ".pdf").
Proof.
  unfold attachment_path, attachment_name. intros H.
  apply join_inj in H; [|apply startswith_slash; reflexivity].
  apply append_cancel_l in H. discriminate H.
Qed.

Lemma written_path_of (l : list (nat * Element)) (p : string) :
  In p (flat_map written_path
          (map (fun ie => (fst ie,
                           outcome_of output_dir base_name (fst ie) (snd ie)))
               l)) ->
  exists i, In i (map fst l) /\ p = attachment_path output_dir base_name i.
Proof.
  induction l as [|[i e] l IH]; cbn [map flat_map fst snd]; [intros []|].
  intros H. apply in_app_or in H as [H|H].
  - exists i. split; [now left|].
    unfold written_path, outcome_of in H. cbn [snd] in H.
    destruct (text e) as [[|a enc]|]; try destruct H.
    destruct (b64decode _); [destruct H|]. destruct H as [<-|[]]. reflexivity.
  - destruct (IH H) as (j & Hj & ->). exists j. split; [now right|reflexivity].
Qed.

Lemma written_paths_distinct (l : list (nat * Element)) :
  NoDup (map fst l) ->
  NoDup (flat_map written_path
           (map (fun ie => (fst ie,
                            outcome_of output_dir base_name (fst ie) (snd ie)))
                l)).
Proof.
  induction l as [|[i e] l IH]; cbn [map flat_map fst snd]; [constructor|].
  intros H. inversion H as [|? ? Hi Hl]; subst.
  unfold written_path at 1. cbn [snd].
  destruct (outcome_of _ _ _ _) as [| |p b] eqn:E; cbn [app]; auto.
  constructor; [|auto].
  intros Hp. apply written_path_of in Hp as (j & Hj & Ej).
  assert (Ei : p = attachment_path output_dir base_name i).
  { unfold outcome_of in E. destruct (text e) as [[|a enc]|]; try discriminate.
    destruct (b64decode _); [discriminate|]. now injection E as <- _. }
  rewrite Ei in Ej. apply attachment_path_inj in Ej as ->. contradiction.
Qed.

Lemma written_paths_not_pdf (l : list (nat * Element)) :
  ~ In (os_path.join output_dir (base_name ++ ".pdf"))
       (flat_map written_path
          (map (fun ie => (fst ie,
                           outcome_of output_dir base_name (fst ie) (snd ie)))
               l)).
Proof.
  intros H. apply written_path_of in H as (j & _ & E).
  symmetry in E. now apply attachment_path_not_pdf in E.
Qed.

End Paths.

End PathFacts.

(* ===================================================================== *)
(** * The driver and the extractors *)
(* ===================================================================== *)

Section Driver.

Context {F : Floats} {R : Reportlab F} {B : Base64}.

Import PathFacts.

Lemma extract_attachments_eq (xml_root : Element)
    (output_dir base_name : string) (w : World) :
  extract_attachments xml_root output_dir base_name w
  = let os := outcomes output_dir base_name xml_root in
    (flat_map written_path os,
     {| files := files w ++ flat_map written_file os;
        stdout := stdout w ++ flat_map printed_line os
                  ++ match flat_map written_path os with
                     | [] => ["Kein PDF-Anhang gefunden."]
                     | _ => []
                     end |}).
Proof.
  cbv zeta. unfold outcomes, extract_attachments.
  fold (embedded_objects xml_root).
  rewrite extract_loop_spec. cbv zeta. cbn [app].
  destruct (flat_map written_path _); unfold print; cbn [files stdout].
  - now rewrite <- app_assoc.
  - now rewrite app_nil_r.
Qed.

Lemma written_file_paths (os : list (nat * outcome)) :
  map fst (flat_map written_file os) = flat_map written_path os.
Proof. induction os as [|[i [| |]] os IH]; cbn; congruence. Qed.

Lemma enumerate_NoDup (A : Type) (n : nat) (l : list A) :
  NoDup (map fst (enumerate n l)).
Proof. rewrite enumerate_fst. apply seq_NoDup. Qed.

(** X7.  The paths that [extract_attachments] returns are pairwise
    distinct, so no attachment is written over another one of the same
    run; there are at most as many as embedded objects, and they are the
    names of the files added to those that were there. *)
Theorem extract_attachments_distinct (xml_root : Element)
    (output_dir base_name : string) (w : World) :
  let r := extract_attachments xml_root output_dir base_name w in
  NoDup (fst r)
  /\ (List.length (fst r) <= List.length (embedded_objects xml_root))%nat
  /\ exists written,
       files (snd r) = files w ++ written /\ map fst written = fst r.
Proof.
  cbv zeta. rewrite extract_attachments_eq. cbv zeta. cbn [fst snd files].
  split; [|split].
  - apply written_paths_distinct, enumerate_NoDup.
  - unfold outcomes.
    assert (L : forall l : list (nat * Element),
               (List.length
                  (flat_map written_path
                     (map (fun ie => (fst ie,
                                      outcome_of output_dir base_name
                                                 (fst ie) (snd ie))) l))
                <= List.length l)%nat).
    { induction l as [|[i e] l IH]; cbn [map flat_map List.length]; [lia|].
      rewrite length_app. unfold written_path at 1. cbn [fst snd].
      destruct (outcome_of _ _ _ _); cbn [List.length]; lia. }
    etransitivity; [apply L|].
    unfold enumerate. rewrite length_combine, length_seq. lia.
  - eexists. split; [reflexivity|apply written_file_paths].
Qed.

Lemma parse_invoice_data_raise (xml_root : Element) :
  note_without_text xml_root = true ->
  parse_invoice_data xml_root = Raise AttributeError.
Proof.
  unfold note_without_text, parse_invoice_data, parse_note.
  destruct (find xml_root ["Note"]) as [elem|]; [destruct (text elem)|];
    now cbn [bind].
Qed.

Lemma parse_invoice_data_ok (xml_root : Element) :
  note_without_text xml_root = false ->
  exists data,
    parse_invoice_data xml_root = Ok data
    /\ note data = option_map Py.strip (text_at xml_root ["Note"]).
Proof.
  unfold note_without_text, parse_invoice_data, parse_note, text_at.
  destruct (find xml_root ["Note"]) as [elem|]; [destruct (text elem)|];
    cbn [bind option_map]; intros E; try discriminate E; eauto.
Qed.

(** X9.  The base name that [create_invoice_pdf] takes from the path
    [main] gives it is the base name [main] gave to [extract_attachments],
    so page 3 names the attachments as they were written; unless the base
    name is empty or made of dots, when it comes back with ".pdf" at its
    end. *)
Theorem main_base_name (xml_file output : string) :
  let base_name := os_path.splitext_root (os_path.basename xml_file) in
  os_path.splitext_root
    (os_path.basename (os_path.join output (base_name ++ ".pdf")))
  = if os_path.all_dots base_name then (base_name ++ ".pdf")%string
    else base_name.
Proof.
  cbv zeta. rewrite basename_join; [apply splitext_root_pdf|].
  fold (contains "/"). rewrite StringFacts.contains_append, basename_free.
  reflexivity.
Qed.

(** X10.  A run of [main].  When [os.makedirs] raises, which it does for
    the empty output directory on every file system, the run ends there
    with that error uncaught, and nothing is written or printed.
    Otherwise, when the document cannot be read, the run ends with
    [sys.exit(1)] and nothing is written.  Otherwise the attachments are
    written first, then the PDF at <output>/<base name>.pdf, with at least
    three pages, all at distinct paths; but when the first [Note] has no
    text the run ends with the [AttributeError] uncaught, after the
    attachments were written and without the PDF. *)
Theorem main_outcome (xml_file output : string) (fs : option OSError)
    (document : option Element) (message : string) (w : World) :
  let base_name := os_path.splitext_root (os_path.basename xml_file) in
  let pdf := os_path.join output (base_name ++ ".pdf") in
  let run := main xml_file output fs document message w in
  os.makedirs "" fs = Some FileNotFoundError
  /\ match os.makedirs output fs with
     | Some e => run = (UncaughtOSError e, w)
     | None =>
         match parse_file xml_file document message with
         | inl e =>
             fst run = SystemExit 1
             /\ files (snd run) = files w
             /\ stdout (snd run)
                = stdout w
                  ++ [("Fehler beim Einlesen der XML-Datei: " ++ e)%string]
         | inr xml_root =>
             let attachments :=
               fst (extract_attachments xml_root output base_name w) in
             NoDup (attachments ++ [pdf])
             /\ exists written,
                  map fst written = attachments
                  /\ if note_without_text xml_root
                     then fst run = Uncaught AttributeError
                          /\ files (snd run) = files w ++ written
                     else fst run = Returned
                          /\ exists pgs,
                               files (snd run)
                               = files w ++ written ++ [(pdf, Pdf pgs)]
                               /\ (3 <= List.length pgs)%nat
         end
     end.
Proof.
  cbv zeta. split; [reflexivity|]. unfold main. cbv zeta.
  destruct (os.makedirs output fs) as [e|]; [reflexivity|].
  destruct (parse_file xml_file document message) as [e|xml_root];
    [repeat split|].
  rewrite extract_attachments_eq. cbv zeta. cbn [fst snd].
  split.
  - apply NoDup_app.
    + apply written_paths_distinct, enumerate_NoDup.
    + constructor; [intros []|constructor].
    + intros p Hp' [<-|[]]. revert Hp'. apply written_paths_not_pdf.
  - eexists. split; [apply written_file_paths|].
    destruct (note_without_text xml_root) eqn:E.
    + rewrite (parse_invoice_data_raise _ E). cbn [fst snd files]. auto.
    + destruct (parse_invoice_data_ok _ E) as (data & -> & _). cbn [fst snd].
      split; [reflexivity|]. eexists.
      rewrite create_invoice_pdf_files. cbn [files].
      split; [now rewrite <- app_assoc|].
      destruct (draw_invoice_pages data
                  (os_path.join output
                     (os_path.splitext_root (os_path.basename xml_file)
                      ++ ".pdf"))) as [[_ Hl] _].
      apply Forall2_length in Hl. rewrite <- Hl. unfold page_labels.
      rewrite length_repeat_app. lia.
Qed.

End Driver.

(* ===================================================================== *)
(** * More about the formatting helpers *)
(* ===================================================================== *)

Section DatesFormatted.

Import Datetime DateSpec DateFacts.

Lemma or_some (s : string) : Py.or_ (Some s) "" = s.
Proof. destruct s; reflexivity. Qed.

Lemma digit_not_dot (n : nat) : digit (n mod 10) <> "."%char.
Proof.
  assert (H : (n mod 10 < 10)%nat) by (apply Nat.mod_upper_bound; lia).
  set (k := (n mod 10)%nat) in *. clearbody k.
  intros E. enum k; discriminate E.
Qed.

Lemma days_in_month_le (y m : nat) : (days_in_month y m <= 31)%nat.
Proof.
  unfold days_in_month.
  destruct (is_leap y);
    do 12 (destruct m as [|m]; [lia|]); lia.
Qed.

(** A day of the month is written in one or two characters. *)
Lemma str_day (d : nat) :
  (1 <= d <= 31)%nat ->
  (exists a, Py.str d = String a "")
  \/ (exists a b, Py.str d = String a (String b "")).
Proof.
  intros H.
  enum d; first [left; eexists; reflexivity | right; eexists _, _; reflexivity].
Qed.

(** What [format_date] makes of a date is not read as a date again. *)
Lemma d_m_yyyy_unread (y m d y' m' d' : nat) :
  valid_date y m d -> ~ reads_as (d_m_yyyy y m d) y' m' d'.
Proof.
  intros (_ & _ & [D1 D2]) (_ & wm & wd & _ & _ & E).
  pose proof (days_in_month_le y m) as D3.
  unfold d_m_yyyy, pad4, pad2 in E.
  destruct (@str_day d) as [[a Ea]|(a & b & Ea)]; [lia| |];
    rewrite Ea in E; cbn [append] in E.
  - injection E as _ E _. symmetry in E. now apply digit_not_dot in E.
  - injection E as _ _ E _. symmetry in E. now apply digit_not_dot in E.
Qed.

Lemma format_date_read (s : string) (y m d : nat) :
  reads_as s y m d -> format_date (Some s) = d_m_yyyy y m d.
Proof. intros Hr. unfold format_date. now rewrite (strptime_complete Hr). Qed.

Lemma format_date_unread (s : string) :
  (forall y m d, ~ reads_as s y m d) -> format_date (Some s) = s.
Proof.
  intros Hn. unfold format_date.
  destruct (strptime_cases s) as [(y & m & d & Hr & _)|[_ [e ->]]].
  - destruct (Hn y m d Hr).
  - apply or_some.
Qed.

(** X11.  [format_date] changes nothing in what it has returned: a date it
    has formatted is not read as a date again. *)
Theorem format_date_idempotent (datum_str : option string) :
  format_date (Some (format_date datum_str)) = format_date datum_str.
Proof.
  destruct datum_str as [s|]; [|reflexivity].
  destruct (strptime_cases s) as [(y & m & d & Hr & _)|[Hn _]].
  - rewrite (format_date_read Hr). apply format_date_unread.
    intros y' m' d'. apply d_m_yyyy_unread. apply Hr.
  - rewrite (format_date_unread Hn). now apply format_date_unread.
Qed.

(** X12.  The two helpers agree on what a date is:
    [format_period_monthyear] gives the empty string for exactly the start
    strings that [format_date] returns as they are. *)
Theorem format_helpers_agree (s : string) (end_str : option string) :
  format_period_monthyear (Some s) end_str = "" <-> format_date (Some s) = s.
Proof.
  destruct (strptime_cases s) as [(y & m & d & Hr & E)|[Hn [e E]]].
  - rewrite (format_date_read Hr). unfold format_period_monthyear.
    rewrite E. split.
    + intros H. destruct (Py.fmt_02d _); discriminate H.
    + intros H. exfalso. pose proof (proj1 Hr) as Hv. rewrite <- H in Hr.
      exact (d_m_yyyy_unread Hv Hr).
  - rewrite (format_date_unread Hn). unfold format_period_monthyear.
    rewrite E. tauto.
Qed.

End DatesFormatted.

(* ===================================================================== *)
(** * More about the extractor *)
(* ===================================================================== *)

Module StripFacts.

Lemma lstrip_first (s : string) (c : ascii) :
  first_char (Py.lstrip s) = Some c -> Py.isspace c = false.
Proof.
  induction s as [|a s IH]; [discriminate|]. cbn [Py.lstrip].
  destruct (Py.isspace a) eqn:E; [exact IH|].
  cbn [first_char]. now intros [= <-].
Qed.

Lemma rstrip_cons (a : ascii) (s : string) :
  Py.rstrip (String a s)
  = match Py.rstrip s with
    | "" => if Py.isspace a then "" else String a ""
    | t => String a t
    end.
Proof. reflexivity. Qed.

Lemma rstrip_first (s : string) (c : ascii) :
  first_char (Py.rstrip s) = Some c -> first_char s = Some c.
Proof.
  destruct s as [|a s]; [discriminate|]. rewrite rstrip_cons.
  destruct (Py.rstrip s); [destruct (Py.isspace a); [discriminate|]|]; auto.
Qed.

Lemma rstrip_last (s : string) (c : ascii) :
  last_char (Py.rstrip s) = Some c -> Py.isspace c = false.
Proof.
  induction s as [|a s IH]; [discriminate|]. rewrite rstrip_cons.
  destruct (Py.rstrip s) as [|b t].
  - destruct (Py.isspace a) eqn:E; [discriminate|]. now intros [= <-].
  - exact IH.
Qed.

Lemma strip_trimmed (s : string) : trimmed (Py.strip s) = true.
Proof.
  unfold trimmed, Py.strip.
  destruct (first_char _) as [a|] eqn:Ea; [|reflexivity].
  destruct (last_char _) as [b|] eqn:Eb; [|reflexivity].
  apply rstrip_first, lstrip_first in Ea. apply rstrip_last in Eb.
  now rewrite Ea, Eb.
Qed.

Lemma last_char_none (s : string) : last_char s = None -> s = "".
Proof.
  induction s as [|a s IH]; [reflexivity|]. cbn [last_char].
  destruct s; [discriminate|]. intros H. discriminate (IH H).
Qed.

Lemma rstrip_id (s : string) :
  (forall c, last_char s = Some c -> Py.isspace c = false) ->
  Py.rstrip s = s.
Proof.
  induction s as [|a s IH]; [reflexivity|]. intros H. rewrite rstrip_cons.
  destruct s as [|b t].
  - cbn [Py.rstrip]. now rewrite (H a eq_refl).
  - rewrite IH; [reflexivity|]. intros c Hc. apply H. exact Hc.
Qed.

Lemma trimmed_strip (s : string) : trimmed s = true -> Py.strip s = s.
Proof.
  unfold trimmed, Py.strip. destruct s as [|a s]; [reflexivity|].
  cbn [first_char].
  destruct (last_char (String a s)) as [b|] eqn:Eb.
  - intros H. apply andb_true_iff in H as [Ha Hb].
    apply negb_true_iff in Ha, Hb. cbn [Py.lstrip]. rewrite Ha.
    apply rstrip_id. intros c Hc. congruence.
  - apply last_char_none in Eb. discriminate Eb.
Qed.

End StripFacts.

Lemma filter_first (A : Type) (f : A -> bool) (before after : list A) (e : A) :
  forallb (fun x => negb (f x)) before = true -> f e = true ->
  filter f (before ++ e :: after) = e :: filter f after.
Proof.
  intros Hb He. rewrite filter_app. cbn [filter]. rewrite He.
  induction before as [|x before IH]; [reflexivity|].
  cbn [forallb] in Hb. apply andb_true_iff in Hb as [Hx Hb].
  apply negb_true_iff in Hx. cbn [filter]. rewrite Hx. auto.
Qed.

Lemma find_first (xml_root e : Element) (name : string)
    (before after : list Element) :
  descendants xml_root = before ++ e :: after ->
  forallb (fun x => negb (tag_matches name (tag x))) before = true ->
  tag_matches name (tag e) = true ->
  find xml_root [name] = Some e.
Proof.
  intros Hd Hb He. unfold find, findall, select_descendant.
  cbn [fold_left flat_map]. rewrite app_nil_r, Hd.
  now rewrite (@filter_first _ _ before after e Hb He).
Qed.

(** X13.  The note of a model that the extractor returns has no white
    space at its beginning or its end: stripping it again changes
    nothing. *)
Theorem parse_invoice_data_note_trimmed (xml_root : Element)
    (data : InvoiceData) (n : string) :
  parse_invoice_data xml_root = Ok data ->
  note data = Some n ->
  trimmed n = true /\ Py.strip n = n.
Proof.
  intros Hp Hn.
  destruct (note_without_text xml_root) eqn:E.
  { rewrite (parse_invoice_data_raise _ E) in Hp. discriminate Hp. }
  destruct (parse_invoice_data_ok _ E) as (data' & Hp' & Hn').
  assert (data' = data) as -> by congruence.
  rewrite Hn in Hn'. destruct (text_at xml_root ["Note"]) as [t|];
    [|discriminate]. injection Hn' as ->.
  split; [apply StripFacts.strip_trimmed|].
  apply StripFacts.trimmed_strip, StripFacts.strip_trimmed.
Qed.

(** X14.  The invoice number, the dates, the type code, the currency, the
    buyer reference, the profile and the customization are each the text
    of the first element of their name in document order anywhere below
    the root, whatever its parent. *)
Theorem header_fields_first_match (xml_root : Element) (data : InvoiceData)
    (name : string) (field : option string) (e : Element)
    (before after : list Element) :
  parse_invoice_data xml_root = Ok data ->
  In (name, field) (header_fields data) ->
  descendants xml_root = before ++ e :: after ->
  forallb (fun x => negb (tag_matches name (tag x))) before = true ->
  tag_matches name (tag e) = true ->
  field = text e.
Proof.
  intros Hp Hi Hd Hb He.
  pose proof (@find_first xml_root e name before after Hd Hb He) as Hf.
  unfold parse_invoice_data in Hp.
  destruct (parse_note xml_root) as [nt|]; [|discriminate].
  cbn [bind] in Hp. injection Hp as <-.
  unfold header_fields in Hi. cbn [invoice_id issue_date due_date
    invoice_type_code currency buyer_reference profile_id customization_id]
    in Hi.
  repeat (destruct Hi as [Hi|Hi];
          [injection Hi as <- <-; unfold text_at; now rewrite Hf|]).
  destruct Hi.
Qed.

(* ===================================================================== *)
(** * More runs on the example inputs *)
(* ===================================================================== *)

Section FurtherRuns.

Import Examples.

#[local] Existing Instance exact.
#[local] Existing Instance exact_reportlab.
#[local] Existing Instance two_payloads.


Lemma extraction_ignores_namespaces_witness :
  strip_namespaces two_lines
  = elem "Invoice" None
      [ elem "ID" (Some "R-2025-001") []; line_A;
        strip_namespaces line_B ]
  /\ parse_invoice_data two_lines
     = parse_invoice_data
         (elem "Invoice" None
            [ elem "ID" (Some "R-2025-001") []; line_A;
              strip_namespaces line_B ]).
Proof.
  split; [reflexivity|].
  apply (proj2 extraction_ignores_namespaces). reflexivity.
Defined.

Lemma format_helpers_agree_witness :
  format_date (Some "05/2025") = "05/2025"
  /\ format_period_monthyear (Some "05/2025") None = "".
Proof.
  split; [reflexivity|].
  apply (proj2 (format_helpers_agree "05/2025" None)). reflexivity.
Defined.

Lemma header_fields_first_match_witness :
  exists data,
    parse_invoice_data two_lines = Ok data
    /\ invoice_id data = Some "R-2025-001".
Proof.
  eexists. split; [reflexivity|].
  apply (@header_fields_first_match two_lines _ "ID" _
           (elem "{urn:cbc}ID" (Some "R-2025-001") []) []
           (tl (descendants two_lines)) eq_refl);
    [left; reflexivity|reflexivity|reflexivity|reflexivity].
Defined.

Lemma parse_invoice_data_note_trimmed_witness :
  exists data,
    parse_invoice_data
      (elem "Invoice" None [elem "Note" (Some "  a | b ") []]) = Ok data
    /\ note data = Some "a | b"
    /\ trimmed "a | b" = true.
Proof.
  eexists. split; [reflexivity|]. split; [reflexivity|].
  apply (@parse_invoice_data_note_trimmed
           (elem "Invoice" None [elem "Note" (Some "  a | b ") []])
           _ "a | b" eq_refl eq_refl).
Defined.

Example main_on_a_note_without_text :
  main "in/rechnung.xml" "out" None
       (Some (elem "Invoice" None
                [ elem "Note" None [];
                  elem "EmbeddedDocumentBinaryObject" (Some "QQ==") [] ]))
       "" (mkWorld [] [])
  = (Uncaught AttributeError,
     {| files := [("out/rechnung_Anhang1.pdf", Bytes [Byte.x41])];
        stdout := ["Anhang #1 gespeichert als: out/rechnung_Anhang1.pdf"] |}).
Proof. reflexivity. Qed.

Example main_writes_attachments_then_pdf :
  let run :=
    main "in/rechnung.xml" "out" None (Some four_objects) "" (mkWorld [] []) in
  fst run = Returned
  /\ map fst (files (snd run))
     = [ "out/rechnung_Anhang2.pdf"; "out/rechnung_Anhang4.pdf";
         "out/rechnung.pdf" ]
  /\ last (stdout (snd run)) ""
     = "PDF-Rechnung gespeichert als: out/rechnung.pdf".
Proof. vm_compute. auto. Qed.

Example main_without_output_directory :
  main "in/rechnung.xml" "" None (Some four_objects) "" (mkWorld [] [])
  = (UncaughtOSError FileNotFoundError, mkWorld [] []).
Proof. reflexivity. Qed.

Example main_on_a_directory :
  main "in/" "out" None (Some four_objects)
       "[Errno 21] Is a directory: 'in/'" (mkWorld [] [])
  = (SystemExit 1,
     {| files := [];
        stdout := [ "Fehler beim Einlesen der XML-Datei: "
                    ++ "[Errno 21] Is a directory: 'in/'" ]%string |}).
Proof. reflexivity. Qed.

Example base_name_of_dots :
  os_path.splitext_root
    (os_path.basename (os_path.join "out" ("..." ++ ".pdf")))
  = "....pdf".
Proof. reflexivity. Qed.

End FurtherRuns.
